(** * filetoolkit: the upload degrade-chain and the instruction store

    A shallow embedding of the server side of the repository: the upload
    route, the instruction routes, the two AI sub-actions, and the three
    service classes they call (LocalAnalyzer, GoogleDriveService,
    GeminiService).

    Conventions of the embedding.
    - A JavaScript string is a Rocq [string] holding its UTF-8 bytes; a
      Buffer is a [string] of raw bytes.  [Buffer_toString] is the decoder
      between the two.
    - Loosely typed data (JSON bodies, parsed metadata, responses) is a
      [JsValue].
    - Everything outside the repository (environment variables, clock,
      file-system faults, the Drive and Gemini endpoints) is a field of
      [World]; the mutable part (files on disk, the global instruction
      cache, the handler's local [tempFilePath]) is the state [St] threaded
      by the monad [M], which also carries thrown exceptions.
    - What the two listing handlers take from the platform and the state
      does not record (the order of a directory listing and of the Map,
      birth times, the reading of dates, sorting) is a [Platform], a
      parameter of those handlers. *)

From Stdlib Require Import ZArith NArith Ascii String List Bool Lia.
From Stdlib Require Import DecimalString.
From stdpp Require Import base option gmap strings list fin_maps.

Local Open Scope Z_scope.

(* ===================================================================== *)
(** ** Characters and strings *)
(* ===================================================================== *)

Module Str.

Definition code (c : ascii) : N := N_of_ascii c.

Definition chr (n : N) : ascii := ascii_of_N n.

Definition dq : string := String (chr 34) EmptyString.
Definition nl : string := String (chr 10) EmptyString.

Definition is_upper (c : ascii) : bool := ((65 <=? code c) && (code c <=? 90))%N.

Definition lower_char (c : ascii) : ascii :=
  if is_upper c then chr (code c + 32) else c.

(** [String.prototype.toLowerCase].  Only A-Z change: the other letters JS
    lower-cases are multi-byte in UTF-8 and never turn into one of the ASCII
    letters the extension tables of this program are made of. *)
Fixpoint toLowerCase (s : string) : string :=
  match s with
  | EmptyString => EmptyString
  | String c r => String (lower_char c) (toLowerCase r)
  end.

Fixpoint startsWith (s p : string) : bool :=
  match p, s with
  | EmptyString, _ => true
  | String _ _, EmptyString => false
  | String b p', String a s' => if Ascii.eqb a b then startsWith s' p' else false
  end.

Fixpoint rev_string (s : string) : string :=
  match s with
  | EmptyString => EmptyString
  | String c r => rev_string r +:+ String c EmptyString
  end.

(** [String.prototype.endsWith] *)
Definition endsWith (s suffix : string) : bool :=
  startsWith (rev_string s) (rev_string suffix).

(** [String.prototype.includes] *)
Fixpoint includes (s sub : string) : bool :=
  startsWith s sub ||
  match s with
  | EmptyString => false
  | String _ r => includes r sub
  end.

Fixpoint join (sep : string) (l : list string) : string :=
  match l with
  | [] => EmptyString
  | [x] => x
  | x :: r => x +:+ sep +:+ join sep r
  end.

Definition string_of_Z (z : Z) : string := NilZero.string_of_int (Z.to_int z).

Definition string_of_nat (n : nat) : string := string_of_Z (Z.of_nat n).

(** UTF-16 length of a string held as UTF-8: one unit per character, two for
    the characters outside the basic plane (4-byte sequences). *)
Fixpoint js_length (s : string) : Z :=
  match s with
  | EmptyString => 0
  | String c r =>
      (if ((128 <=? code c) && (code c <? 192))%N then 0
       else if (240 <=? code c)%N then 2 else 1) + js_length r
  end.

End Str.

(* ===================================================================== *)
(** ** Buffers and UTF-8 *)
(* ===================================================================== *)

Module Utf8.
Import Str.

Local Open Scope N_scope.

(** U+FFFD, the replacement character, in UTF-8. *)
Definition FFFD : string := String (chr 239) (String (chr 191) (String (chr 189) EmptyString)).

Record Pending := { seen : string; needed : nat; lo : N; hi : N }.

(** What a lead byte announces: continuation bytes still needed, and the range
    allowed for the next byte. *)
Definition lead (b : N) : option (nat * N * N) :=
  if (194 <=? b) && (b <=? 223) then Some (1%nat, 128, 191)
  else if b =? 224 then Some (2%nat, 160, 191)
  else if b =? 237 then Some (2%nat, 128, 159)
  else if (225 <=? b) && (b <=? 239) then Some (2%nat, 128, 191)
  else if b =? 240 then Some (3%nat, 144, 191)
  else if b =? 244 then Some (3%nat, 128, 143)
  else if (241 <=? b) && (b <=? 243) then Some (3%nat, 128, 191)
  else None.

(** The decoder behind [buf.toString('utf-8')] and
    [fs.readFileSync(p, 'utf-8')]: well-formed sequences are kept, every
    maximal ill-formed part becomes one U+FFFD, and the byte that broke a
    sequence is looked at again as the start of the next one. *)
Fixpoint decode (st : option Pending) (s : string) : string :=
  match s with
  | EmptyString => match st with None => EmptyString | Some _ => FFFD end
  | String c r =>
      let start :=
        if code c <? 128 then String c (decode None r)
        else match lead (code c) with
             | Some (n, l, h) =>
                 decode (Some {| seen := String c EmptyString; needed := n; lo := l; hi := h |}) r
             | None => FFFD +:+ decode None r
             end in
      match st with
      | None => start
      | Some u =>
          if (lo u <=? code c) && (code c <=? hi u) then
            match needed u with
            | S (S n) =>
                decode (Some {| seen := seen u +:+ String c EmptyString;
                                needed := S n; lo := 128; hi := 191 |}) r
            | _ => seen u +:+ String c (decode None r)
            end
          else FFFD +:+ start
      end
  end.

Definition Buffer_toString (bytes : string) : string := decode None bytes.

Definition cont (c : ascii) : bool := (128 <=? code c) && (code c <=? 191).

Definition between (l : N) (c : ascii) (h : N) : bool := (l <=? code c) && (code c <=? h).

(** Well-formed UTF-8 byte sequences, as in table 3-7 of the Unicode
    standard; stated on its own, not through the decoder. *)
Fixpoint well_formed (s : string) : bool :=
  match s with
  | EmptyString => true
  | String a r =>
      if code a <? 128 then well_formed r
      else
        match r with
        | EmptyString => false
        | String b r2 =>
            if between 194 a 223 then cont b && well_formed r2
            else
              match r2 with
              | EmptyString => false
              | String c r3 =>
                  if between 224 a 239 then
                    (if code a =? 224 then between 160 b 191
                     else if code a =? 237 then between 128 b 159
                     else cont b) && cont c && well_formed r3
                  else
                    match r3 with
                    | EmptyString => false
                    | String d r4 =>
                        between 240 a 244 &&
                        (if code a =? 240 then between 144 b 191
                         else if code a =? 244 then between 128 b 143
                         else cont b) && cont c && cont d && well_formed r4
                    end
              end
        end
  end.

End Utf8.

(* ===================================================================== *)
(** ** JavaScript values *)
(* ===================================================================== *)

Module Js.
Import Str.

(** [JNum m e] is the number [m * 10^e], kept as an exact decimal (the
    rounding of doubles is not modelled). *)
#[warnings="-register-all"]
Inductive JsValue : Type :=
| JUndefined
| JNull
| JBool (b : bool)
| JNum (m e : Z)
| JStr (s : string)
| JArr (items : list JsValue)
| JObj (props : list (string * JsValue)).

Definition JInt (n : Z) : JsValue := JNum n 0.

(** ToBoolean *)
Definition truthy (v : JsValue) : bool :=
  match v with
  | JUndefined | JNull => false
  | JBool b => b
  | JNum m _ => negb (m =? 0)
  | JStr s => negb (String.eqb s EmptyString)
  | JArr _ | JObj _ => true
  end.

(** [a || b] *)
Definition js_or (a b : JsValue) : JsValue := if truthy a then a else b.

(** [a && b] *)
Definition js_and (a b : JsValue) : JsValue := if truthy a then b else a.

Fixpoint zeros (n : nat) : string :=
  match n with O => EmptyString | S k => String "0" (zeros k) end.

Definition number_toString (m e : Z) : string :=
  if 0 <=? e then string_of_Z (m * 10 ^ e)
  else
    let k := Z.to_nat (- e) in
    let a := Z.abs m in
    let frac := string_of_Z (a mod 10 ^ (- e)) in
    (if m <? 0 then "-" else EmptyString) +:+ string_of_Z (a / 10 ^ (- e)) +:+ "." +:+
    zeros (k - String.length frac) +:+ frac.

(** ToString, as a template literal applies it. *)
Fixpoint ToString (v : JsValue) : string :=
  match v with
  | JUndefined => "undefined"
  | JNull => "null"
  | JBool true => "true"
  | JBool false => "false"
  | JNum m e => number_toString m e
  | JStr s => s
  | JArr items =>
      join "," (List.map (fun x => match x with
                                   | JUndefined | JNull => EmptyString
                                   | _ => ToString x
                                   end) items)
  | JObj _ => "[object Object]"
  end.

Fixpoint assoc (k : string) (l : list (string * JsValue)) : option JsValue :=
  match l with
  | [] => None
  | (k', v) :: r => if String.eqb k k' then Some v else assoc k r
  end.

(** Reading the property [k] of [v], for the identifier keys this program
    reads (none of them is an index, [length], or a name found on a
    prototype): [None] is the TypeError raised on [null] and [undefined]. *)
Definition get_prop (v : JsValue) (k : string) : option JsValue :=
  match v with
  | JUndefined | JNull => None
  | JObj props => Some (default JUndefined (assoc k props))
  | _ => Some JUndefined
  end.

(** [v?.k] *)
Definition get_opt (v : JsValue) (k : string) : JsValue :=
  default JUndefined (get_prop v k).

Fixpoint obj_set (l : list (string * JsValue)) (k : string) (x : JsValue)
  : list (string * JsValue) :=
  match l with
  | [] => [(k, x)]
  | (k', v) :: r => if String.eqb k k' then (k', x) :: r else (k', v) :: obj_set r k x
  end.

Fixpoint indexed (i : nat) (l : list JsValue) : list (string * JsValue) :=
  match l with
  | [] => []
  | x :: r => (string_of_nat i, x) :: indexed (S i) r
  end.

(** Splits a string into its characters (a lead byte with the continuation
    bytes that follow it). *)
Fixpoint chars (cur : string) (s : string) : list string :=
  match s with
  | EmptyString => match cur with EmptyString => [] | _ => [cur] end
  | String c r =>
      if ((128 <=? code c) && (code c <? 192))%N then chars (cur +:+ String c EmptyString) r
      else match cur with
           | EmptyString => chars (String c EmptyString) r
           | _ => cur :: chars (String c EmptyString) r
           end
  end.

(** The own enumerable properties copied by an object spread and listed by
    [Object.keys] and [Object.entries]. *)
Definition own_entries (v : JsValue) : list (string * JsValue) :=
  match v with
  | JObj props => props
  | JArr items => indexed 0 items
  | JStr s => indexed 0 (List.map JStr (chars EmptyString s))
  | _ => []
  end.

(** [{ ...v, k: x }] *)
Definition spread_with (v : JsValue) (k : string) (x : JsValue) : JsValue :=
  JObj (obj_set (own_entries v) k x).

(** *** JSON.parse *)

Definition is_ws (c : ascii) : bool :=
  ((code c =? 32) || (code c =? 9) || (code c =? 10) || (code c =? 13))%N.

Fixpoint skip_ws (s : string) : string :=
  match s with
  | String c r => if is_ws c then skip_ws r else s
  | EmptyString => s
  end.

Definition is_digit (c : ascii) : bool := ((48 <=? code c) && (code c <=? 57))%N.

Definition digit_val (c : ascii) : Z := Z.of_N (code c) - 48.

Definition hex_val (c : ascii) : option Z :=
  let n := Z.of_N (code c) in
  if (48 <=? n) && (n <=? 57) then Some (n - 48)
  else if (65 <=? n) && (n <=? 70) then Some (n - 55)
  else if (97 <=? n) && (n <=? 102) then Some (n - 87)
  else None.

Definition byte_of (z : Z) : ascii := chr (Z.to_N z).

(** UTF-8 encoding of a code point. *)
Definition utf8_of_code_point (cp : Z) : string :=
  if cp <? 128 then String (byte_of cp) EmptyString
  else if cp <? 2048 then
    String (byte_of (192 + cp / 64)) (String (byte_of (128 + cp mod 64)) EmptyString)
  else if cp <? 65536 then
    String (byte_of (224 + cp / 4096))
      (String (byte_of (128 + (cp / 64) mod 64)) (String (byte_of (128 + cp mod 64)) EmptyString))
  else
    String (byte_of (240 + cp / 262144))
      (String (byte_of (128 + (cp / 4096) mod 64))
         (String (byte_of (128 + (cp / 64) mod 64)) (String (byte_of (128 + cp mod 64)) EmptyString))).

Definition is_high_surrogate (u : Z) : bool := (55296 <=? u) && (u <=? 56319).
Definition is_low_surrogate (u : Z) : bool := (56320 <=? u) && (u <=? 57343).

(** A pending high surrogate that found no partner is written as U+FFFD. *)
Definition flush (high : option Z) : string :=
  match high with Some _ => Utf8.FFFD | None => EmptyString end.

(** The characters of a string literal after its opening quote; [high] is a
    high surrogate read from a [\u] escape that waits for its low half. *)
Fixpoint parse_chars (fuel : nat) (high : option Z) (s : string) : option (string * string) :=
  match fuel with
  | O => None
  | S f =>
      match s with
      | EmptyString => None
      | String c r =>
          if (code c =? 34)%N then Some (flush high, r)
          else if (code c <? 32)%N then None
          else if (code c =? 92)%N then
            match r with
            | EmptyString => None
            | String e r' =>
                let simple (x : N) :=
                  match parse_chars f None r' with
                  | Some (t, rest) => Some (flush high +:+ String (chr x) t, rest)
                  | None => None
                  end in
                if (code e =? 34)%N then simple 34%N
                else if (code e =? 92)%N then simple 92%N
                else if (code e =? 47)%N then simple 47%N
                else if (code e =? 98)%N then simple 8%N
                else if (code e =? 102)%N then simple 12%N
                else if (code e =? 110)%N then simple 10%N
                else if (code e =? 114)%N then simple 13%N
                else if (code e =? 116)%N then simple 9%N
                else if (code e =? 117)%N then
                  match r' with
                  | String h1 (String h2 (String h3 (String h4 r''))) =>
                      match hex_val h1, hex_val h2, hex_val h3, hex_val h4 with
                      | Some a, Some b, Some c', Some d =>
                          let u := ((a * 16 + b) * 16 + c') * 16 + d in
                          if is_high_surrogate u then
                            match parse_chars f (Some u) r'' with
                            | Some (t, rest) => Some (flush high +:+ t, rest)
                            | None => None
                            end
                          else
                            let here :=
                              if is_low_surrogate u then
                                match high with
                                | Some h => utf8_of_code_point (65536 + (h - 55296) * 1024 + (u - 56320))
                                | None => Utf8.FFFD
                                end
                              else flush high +:+ utf8_of_code_point u in
                            match parse_chars f None r'' with
                            | Some (t, rest) => Some (here +:+ t, rest)
                            | None => None
                            end
                      | _, _, _, _ => None
                      end
                  | _ => None
                  end
                else None
            end
          else
            match parse_chars f None r with
            | Some (t, rest) => Some (flush high +:+ String c t, rest)
            | None => None
            end
      end
  end.

Definition parse_string (s : string) : option (string * string) :=
  parse_chars (S (String.length s)) None s.

(** Reads a run of digits: their value, how many there were, and the rest. *)
Fixpoint digits (acc : Z) (n : Z) (s : string) : Z * Z * string :=
  match s with
  | String c r => if is_digit c then digits (acc * 10 + digit_val c) (n + 1) r else (acc, n, s)
  | EmptyString => (acc, n, s)
  end.

Fixpoint strip_zeros (fuel : nat) (m e : Z) : Z * Z :=
  match fuel with
  | O => (m, e)
  | S f => if m =? 0 then (0, 0)
           else if m mod 10 =? 0 then strip_zeros f (m / 10) (e + 1) else (m, e)
  end.

Definition normal (m e : Z) : JsValue :=
  let '(m', e') := strip_zeros (Z.to_nat (Z.log2 (Z.abs m) + 1)) m e in JNum m' e'.

(** A JSON number: [-? int frac? exp?], with no leading zero in [int]. *)
Definition parse_number (s : string) : option (JsValue * string) :=
  let '(neg, s1) := match s with
                    | String c r => if (code c =? 45)%N then (true, r) else (false, s)
                    | EmptyString => (false, s)
                    end in
  let '(i, ni, s2) := digits 0 0 s1 in
  let leading_zero := match s1 with
                      | String c _ => (code c =? 48)%N && (1 <? ni)
                      | EmptyString => false
                      end in
  if (ni =? 0) || leading_zero then None
  else
    let frac := match s2 with
                | String c r =>
                    if (code c =? 46)%N then
                      let '(m, nf, s3) := digits i 0 r in
                      if nf =? 0 then None else Some (m, nf, s3)
                    else Some (i, 0, s2)
                | EmptyString => Some (i, 0, s2)
                end in
    match frac with
    | None => None
    | Some (m, nf, s3) =>
        let signed := if neg then - m else m in
        match s3 with
        | String c r =>
            if ((code c =? 101) || (code c =? 69))%N then
              let '(eneg, r1) := match r with
                                 | String c' r' =>
                                     if (code c' =? 45)%N then (true, r')
                                     else if (code c' =? 43)%N then (false, r')
                                     else (false, r)
                                 | EmptyString => (false, r)
                                 end in
              let '(x, nx, s4) := digits 0 0 r1 in
              if nx =? 0 then None
              else Some (normal signed ((if eneg then - x else x) - nf), s4)
            else Some (normal signed (- nf), s3)
        | EmptyString => Some (normal signed (- nf), s3)
        end
    end.

Fixpoint parse_elements (fuel : nat) (value : string -> option (JsValue * string))
    (s : string) (acc : list JsValue) : option (JsValue * string) :=
  match fuel with
  | O => None
  | S f =>
      match value s with
      | None => None
      | Some (v, r) =>
          match skip_ws r with
          | String c r' =>
              if (code c =? 44)%N then parse_elements f value r' (v :: acc)
              else if (code c =? 93)%N then Some (JArr (List.rev (v :: acc)), r')
              else None
          | EmptyString => None
          end
      end
  end.

Fixpoint parse_members (fuel : nat) (value : string -> option (JsValue * string))
    (s : string) (acc : list (string * JsValue)) : option (JsValue * string) :=
  match fuel with
  | O => None
  | S f =>
      match skip_ws s with
      | String q r =>
          if (code q =? 34)%N then
            match parse_string r with
            | None => None
            | Some (k, r1) =>
                match skip_ws r1 with
                | String c r2 =>
                    if (code c =? 58)%N then
                      match value r2 with
                      | None => None
                      | Some (v, r3) =>
                          match skip_ws r3 with
                          | String d r4 =>
                              if (code d =? 44)%N then parse_members f value r4 (obj_set acc k v)
                              else if (code d =? 125)%N then Some (JObj (obj_set acc k v), r4)
                              else None
                          | EmptyString => None
                          end
                      end
                    else None
                | EmptyString => None
                end
            end
          else None
      | EmptyString => None
      end
  end.

Fixpoint parse_value (fuel : nat) (s : string) : option (JsValue * string) :=
  match fuel with
  | O => None
  | S f =>
      match skip_ws s with
      | EmptyString => None
      | String c r as t =>
          if (code c =? 123)%N then
            match skip_ws r with
            | String d r' =>
                if (code d =? 125)%N then Some (JObj [], r')
                else parse_members (String.length r) (parse_value f) r []
            | EmptyString => None
            end
          else if (code c =? 91)%N then
            match skip_ws r with
            | String d r' =>
                if (code d =? 93)%N then Some (JArr [], r')
                else parse_elements (String.length r) (parse_value f) r []
            | EmptyString => None
            end
          else if (code c =? 34)%N then
            match parse_string r with
            | Some (x, rest) => Some (JStr x, rest)
            | None => None
            end
          else if startsWith t "true" then Some (JBool true, substring 4 (String.length t - 4) t)
          else if startsWith t "false" then Some (JBool false, substring 5 (String.length t - 5) t)
          else if startsWith t "null" then Some (JNull, substring 4 (String.length t - 4) t)
          else parse_number t
      end
  end.

(** [JSON.parse(text)]; [None] stands for the SyntaxError it throws. *)
Definition JSON_parse (text : string) : option JsValue :=
  match parse_value (S (String.length text)) text with
  | Some (v, rest) => match skip_ws rest with EmptyString => Some v | _ => None end
  | None => None
  end.

(** *** JSON.stringify *)

Definition hex_digit (n : Z) : ascii :=
  if n <? 10 then byte_of (48 + n) else byte_of (87 + n).

Fixpoint escape (s : string) : string :=
  match s with
  | EmptyString => EmptyString
  | String c r =>
      let n := Z.of_N (code c) in
      (if n =? 34 then String (chr 92) dq
       else if n =? 92 then String (chr 92) (String (chr 92) EmptyString)
       else if n =? 8 then String (chr 92) "b"
       else if n =? 12 then String (chr 92) "f"
       else if n =? 10 then String (chr 92) "n"
       else if n =? 13 then String (chr 92) "r"
       else if n =? 9 then String (chr 92) "t"
       else if n <? 32 then
         String (chr 92) ("u00" +:+ String (hex_digit (n / 16)) (String (hex_digit (n mod 16)) EmptyString))
       else String c EmptyString) +:+ escape r
  end.

Definition quote (s : string) : string := dq +:+ escape s +:+ dq.

(** [JSON.stringify(v, null, 2)] at indentation [ind]; [None] is the
    [undefined] it returns for a value that has no JSON form. *)
Fixpoint stringify (ind : string) (v : JsValue) {struct v} : option string :=
  let ind' := ind +:+ "  " in
  match v with
  | JUndefined => None
  | JNull => Some "null"
  | JBool true => Some "true"
  | JBool false => Some "false"
  | JNum m e => Some (number_toString m e)
  | JStr s => Some (quote s)
  | JArr [] => Some "[]"
  | JArr items =>
      Some ("[" +:+ nl +:+ ind' +:+
            join ("," +:+ nl +:+ ind')
              (List.map (fun x => default "null" (stringify ind' x)) items) +:+
            nl +:+ ind +:+ "]")
  | JObj props =>
      let parts :=
        (fix go (l : list (string * JsValue)) : list string :=
           match l with
           | [] => []
           | (k, x) :: r =>
               match stringify ind' x with
               | Some t => (quote k +:+ ": " +:+ t) :: go r
               | None => go r
               end
           end) props in
      match parts with
      | [] => Some "{}"
      | _ => Some ("{" +:+ nl +:+ ind' +:+ join ("," +:+ nl +:+ ind') parts +:+
                   nl +:+ ind +:+ "}")
      end
  end.

Definition JSON_stringify (v : JsValue) : option string := stringify EmptyString v.

(** *** The regular expression [/\{[\s\S]*\}/] *)

Fixpoint from_first_open (s : string) : option string :=
  match s with
  | EmptyString => None
  | String c r => if (code c =? 123)%N then Some s else from_first_open r
  end.

Fixpoint through_last_close (s : string) : option string :=
  match s with
  | EmptyString => None
  | String c r =>
      match through_last_close r with
      | Some t => Some (String c t)
      | None => if (code c =? 125)%N then Some (String c EmptyString) else None
      end
  end.

(** [text.match(/\{[\s\S]*\}/)]: the leftmost opening brace and, the star
    being greedy, everything up to the last closing brace after it. *)
Definition match_braces (text : string) : option string :=
  match from_first_open text with
  | Some t => through_last_close t
  | None => None
  end.

End Js.

(* ===================================================================== *)
(** ** Node's [path] module (POSIX flavour) *)
(* ===================================================================== *)

Module Path.
Import Str.

Definition is_slash (c : ascii) : bool := (code c =? 47)%N.
Definition is_dot (c : ascii) : bool := (code c =? 46)%N.

Fixpoint split_slash (cur : string) (s : string) : list string :=
  match s with
  | EmptyString => [cur]
  | String c r =>
      if is_slash c then cur :: split_slash EmptyString r
      else split_slash (cur +:+ String c EmptyString) r
  end.

(** [normalizeString]: drops empty and [.] segments and resolves [..];
    [stack] is the result so far, last segment first. *)
Fixpoint resolve (allowAboveRoot : bool) (stack : list string) (segs : list string)
  : list string :=
  match segs with
  | [] => List.rev stack
  | seg :: r =>
      if String.eqb seg EmptyString || String.eqb seg "." then resolve allowAboveRoot stack r
      else if String.eqb seg ".." then
        match stack with
        | top :: below =>
            if String.eqb top ".." then resolve allowAboveRoot (seg :: stack) r
            else resolve allowAboveRoot below r
        | [] => if allowAboveRoot then resolve allowAboveRoot [seg] r
                else resolve allowAboveRoot [] r
        end
      else resolve allowAboveRoot (seg :: stack) r
  end.

Definition normalize (p : string) : string :=
  match p with
  | EmptyString => "."
  | String c _ =>
      let isAbsolute := is_slash c in
      let trailing := endsWith p "/" in
      let body := join "/" (resolve (negb isAbsolute) [] (split_slash EmptyString p)) in
      match body with
      | EmptyString => if isAbsolute then "/" else if trailing then "./" else "."
      | _ => (if isAbsolute then "/" else EmptyString) +:+ body +:+
             (if trailing then "/" else EmptyString)
      end
  end.

(** [path.join(...parts)] *)
Definition join_paths (parts : list string) : string :=
  match List.filter (fun s => negb (String.eqb s EmptyString)) parts with
  | [] => "."
  | l => normalize (join "/" l)
  end.

Fixpoint drop_slashes (s : string) : string :=
  match s with
  | String c r => if is_slash c then drop_slashes r else s
  | EmptyString => s
  end.

Fixpoint until_slash (s : string) : string :=
  match s with
  | String c r => if is_slash c then EmptyString else String c (until_slash r)
  | EmptyString => EmptyString
  end.

(** Cuts a reversed base name at its first dot: the reversed extension
    without the dot, and what is left of the dot. *)
Fixpoint cut_at_dot (s : string) : option (string * string) :=
  match s with
  | EmptyString => None
  | String c r =>
      if is_dot c then Some (EmptyString, r)
      else match cut_at_dot r with
           | Some (e, rest) => Some (String c e, rest)
           | None => None
           end
  end.

(** [path.extname(p)]: from the last dot of the last path segment to its
    end; empty when there is no dot, when the segment starts with its only
    dot, and for the segment [..]. *)
Definition extname (p : string) : string :=
  let base_rev := until_slash (drop_slashes (rev_string p)) in
  match cut_at_dot base_rev with
  | None => EmptyString
  | Some (ext_rev, left_rev) =>
      if String.eqb left_rev EmptyString || String.eqb base_rev ".." then EmptyString
      else "." +:+ rev_string ext_rev
  end.

End Path.

(* ===================================================================== *)
(** ** Exceptions, the outside world, and the handler monad *)
(* ===================================================================== *)

(** A thrown value: an [Error] with its message, or something else. *)
Inductive Thrown : Type :=
| Err (message : string)
| NonErr.

(** [error instanceof Error ? error.message : fallback] *)
Definition message_or (e : Thrown) (fallback : string) : string :=
  match e with Err m => m | NonErr => fallback end.

(** [error instanceof Error && error.message.includes(part)] *)
Definition message_includes (e : Thrown) (part : string) : bool :=
  match e with Err m => Str.includes m part | NonErr => false end.

Inductive Outcome (A : Type) : Type :=
| Returns (a : A)
| Throws (e : Thrown).
Arguments Returns {A} a.
Arguments Throws {A} e.

Inductive FsCall : Type :=
| mkdir (p : string)
| write (p : string)
| read (p : string)
| stat (p : string)
| unlink (p : string).

(** The request body handed to [drive.files.create]. *)
Record DriveCreate := {
  dc_name : string;
  dc_driveId : option string;
  dc_parents : option (list string);
  dc_mimeType : Js.JsValue;
  dc_body : option string;          (* bytes of the streamed file, if it exists *)
  dc_supportsAllDrives : bool;
}.

(** Everything the handlers read from outside the repository. *)
Record World := {
  env : gmap string string;                       (* process.env *)
  cwd : string;                                   (* process.cwd() *)
  Date_now : Z;                                   (* Date.now() *)
  Date_iso : string;                              (* new Date().toISOString() *)
  fs_fault : FsCall -> option string;             (* the call throws this Error *)
  syntax_error : string -> string;                (* message of JSON.parse's SyntaxError *)
  drive_files_create : DriveCreate -> Outcome Js.JsValue;          (* response.data.id *)
  drive_permissions_create : Js.JsValue -> bool -> Outcome unit;
  generateContent : string -> string -> Outcome string;            (* model, prompt: response.text() *)
}.

(** [!!process.env.NAME]: set and not empty. *)
Definition env_truthy (w : World) (name : string) : bool :=
  match env w !! name with
  | Some v => negb (String.eqb v EmptyString)
  | None => false
  end.

Record File := { bytes : string; mtime : string }.

(** One entry of the global [instructionsCache] (interface InstructionData);
    an optional field that is absent holds [JUndefined], and [pmpChecklist]
    holds whatever JSON the model answered. *)
Module InstructionData.

Record t := {
  id : string;
  fileName : string;
  content : string;
  publicUrl : Js.JsValue;
  directUrl : Js.JsValue;
  fileId : Js.JsValue;
  createdAt : string;
  hasGoogleDriveBackup : Js.JsValue;
  specialInstruction : Js.JsValue;
  isPMPA : Js.JsValue;
  feedback : Js.JsValue;
  inputData : Js.JsValue;
  customPrompt : Js.JsValue;
  pmpChecklist : Js.JsValue;
}.

(** [{ ...d, pmpChecklist: x }] *)
Definition with_pmpChecklist (d : t) (x : Js.JsValue) : t :=
  {| id := id d; fileName := fileName d; content := content d;
     publicUrl := publicUrl d; directUrl := directUrl d; fileId := fileId d;
     createdAt := createdAt d; hasGoogleDriveBackup := hasGoogleDriveBackup d;
     specialInstruction := specialInstruction d; isPMPA := isPMPA d;
     feedback := feedback d; inputData := inputData d;
     customPrompt := customPrompt d; pmpChecklist := x |}.

(** [{ ...d, feedback: x }] *)
Definition with_feedback (d : t) (x : Js.JsValue) : t :=
  {| id := id d; fileName := fileName d; content := content d;
     publicUrl := publicUrl d; directUrl := directUrl d; fileId := fileId d;
     createdAt := createdAt d; hasGoogleDriveBackup := hasGoogleDriveBackup d;
     specialInstruction := specialInstruction d; isPMPA := isPMPA d;
     feedback := x; inputData := inputData d;
     customPrompt := customPrompt d; pmpChecklist := pmpChecklist d |}.

End InstructionData.

(** The mutable state: the disk, the process-wide cache, and the local
    variable [tempFilePath] of the handler that is running. *)
Record St := {
  files : gmap string File;
  dirs : gset string;
  instructionsCache : gmap string InstructionData.t;
  tempFilePath : option string;
}.

Definition M (A : Type) : Type := St -> Outcome A * St.

Definition ret {A} (a : A) : M A := fun s => (Returns a, s).

Definition throw {A} (e : Thrown) : M A := fun s => (Throws e, s).

Definition bind {A B} (m : M A) (k : A -> M B) : M B :=
  fun s => match m s with
           | (Returns a, s') => k a s'
           | (Throws e, s') => (Throws e, s')
           end.

Notation "'let!' x ':=' m 'in' k" := (bind m (fun x => k))
  (at level 10, x pattern, m at level 100, k at level 200).

Notation "m '>>' k" := (bind m (fun _ => k))
  (at level 100, k at level 200, right associativity).

(** [try { body } catch (error) { handler error }] *)
Definition try_catch {A} (body : M A) (handler : Thrown -> M A) : M A :=
  fun s => match body s with
           | (Returns a, s') => (Returns a, s')
           | (Throws e, s') => handler e s'
           end.

(** [try { body } finally { cleanup }]: the cleanup runs on every exit of
    the body, and its own exception, if any, replaces the body's result. *)
Definition try_finally {A} (body : M A) (cleanup : M unit) : M A :=
  fun s => match body s with
           | (r, s') =>
               match cleanup s' with
               | (Returns _, s'') => (r, s'')
               | (Throws e, s'') => (Throws e, s'')
               end
           end.

(** An awaited call into the outside world. *)
Definition await {A} (o : Outcome A) : M A := fun s => (o, s).

Definition get_state : M St := fun s => (Returns s, s).

Definition set_tempFilePath (p : option string) : M unit :=
  fun s => (Returns tt, {| files := files s; dirs := dirs s;
                           instructionsCache := instructionsCache s;
                           tempFilePath := p |}).

Definition with_files (f : gmap string File) (s : St) : St :=
  {| files := f; dirs := dirs s; instructionsCache := instructionsCache s;
     tempFilePath := tempFilePath s |}.

Definition with_dirs (d : gset string) (s : St) : St :=
  {| files := files s; dirs := d; instructionsCache := instructionsCache s;
     tempFilePath := tempFilePath s |}.

Definition with_cache (c : gmap string InstructionData.t) (s : St) : St :=
  {| files := files s; dirs := dirs s; instructionsCache := c;
     tempFilePath := tempFilePath s |}.

(** Reading a property inside a handler: a TypeError on [null]/[undefined]. *)
Definition prop (v : Js.JsValue) (k : string) : M Js.JsValue :=
  match Js.get_prop v k with
  | Some x => ret x
  | None => throw (Err ("Cannot read properties of " +:+ Js.ToString v +:+
                        " (reading '" +:+ k +:+ "')"))
  end.

(** [JSON.parse(text)] inside a handler. *)
Definition JSON_parse_M (w : World) (text : string) : M Js.JsValue :=
  match Js.JSON_parse text with
  | Some v => ret v
  | None => throw (Err (syntax_error w text))
  end.

(* ===================================================================== *)
(** ** Node's [fs] module *)
(* ===================================================================== *)

Module fs.

Definition enoent (call p : string) : Thrown :=
  Err ("ENOENT: no such file or directory, " +:+ call +:+ " '" +:+ p +:+ "'").

Definition eisdir (call p : string) : Thrown :=
  Err ("EISDIR: illegal operation on a directory, " +:+ call +:+ " '" +:+ p +:+ "'").

Definition eexist (call p : string) : Thrown :=
  Err ("EEXIST: file already exists, " +:+ call +:+ " '" +:+ p +:+ "'").

Definition existsSync (p : string) : M bool :=
  fun s => (Returns (bool_decide (is_Some (files s !! p)) || bool_decide (p ∈ dirs s)), s).

(** [fs.mkdirSync(p, { recursive: true })] *)
Definition mkdirSync (w : World) (p : string) : M unit :=
  fun s =>
    match fs_fault w (mkdir p) with
    | Some msg => (Throws (Err msg), s)
    | None =>
        match files s !! p with
        | Some _ => (Throws (eexist "mkdir" p), s)
        | None => (Returns tt, with_dirs ({[ p ]} ∪ dirs s) s)
        end
    end.

(** [fs.writeFileSync(p, data)].  A failure that the state does not
    explain (a missing parent directory, a full disk, a read-only file
    system) comes from [fs_fault].  A failing call leaves the disk of the
    model as it was; Node opens the file with flag [w] before it writes, so
    a write that fails after the open can leave the file created or emptied,
    which the model does not show. *)
Definition writeFileSync (w : World) (p : string) (data : string) : M unit :=
  fun s =>
    match fs_fault w (write p) with
    | Some msg => (Throws (Err msg), s)
    | None =>
        if bool_decide (p ∈ dirs s) then (Throws (eisdir "open" p), s)
        else (Returns tt,
              with_files (<[ p := {| bytes := data; mtime := Date_iso w |} ]> (files s)) s)
    end.

(** [fs.readFileSync(p, 'utf-8')] *)
Definition readFileSync (w : World) (p : string) : M string :=
  fun s =>
    match fs_fault w (read p) with
    | Some msg => (Throws (Err msg), s)
    | None =>
        match files s !! p with
        | Some f => (Returns (Utf8.Buffer_toString (bytes f)), s)
        | None => (Throws (if bool_decide (p ∈ dirs s) then eisdir "read" p
                           else enoent "open" p), s)
        end
    end.

Record Stats := { size : Z; stat_mtime : string }.

(** [fs.statSync(p)]; what Node reports for a directory is not modelled
    (the handlers only stat the file they have just written). *)
Definition statSync (w : World) (p : string) : M Stats :=
  fun s =>
    match fs_fault w (stat p) with
    | Some msg => (Throws (Err msg), s)
    | None =>
        match files s !! p with
        | Some f => (Returns {| size := Z.of_nat (String.length (bytes f));
                                stat_mtime := mtime f |}, s)
        | None =>
            if bool_decide (p ∈ dirs s)
            then (Returns {| size := 0; stat_mtime := EmptyString |}, s)
            else (Throws (enoent "stat" p), s)
        end
    end.

Definition unlinkSync (w : World) (p : string) : M unit :=
  fun s =>
    match fs_fault w (unlink p) with
    | Some msg => (Throws (Err msg), s)
    | None =>
        match files s !! p with
        | Some _ => (Returns tt, with_files (delete p (files s)) s)
        | None => (Throws (if bool_decide (p ∈ dirs s) then eisdir "unlink" p
                           else enoent "unlink" p), s)
        end
    end.

End fs.

(* ===================================================================== *)
(** ** lib/localAnalyzer.ts *)
(* ===================================================================== *)

Module LocalAnalyzer.
Import Str Js.

Definition isTextFile (extension : string) : bool :=
  existsb (String.eqb extension)
    [".txt"; ".md"; ".csv"; ".json"; ".xml"; ".js"; ".ts"; ".html"; ".css"; ".py";
     ".java"; ".cpp"; ".c"; ".h"; ".yaml"; ".yml"; ".toml"; ".ini"; ".log"].

Record FileTypeAnalysis := {
  type : string;
  description : string;
  recommendations : string;
}.

Definition analyses : list (string * FileTypeAnalysis) :=
  [ (".xlsx", {| type := "Excel Spreadsheet";
                 description := "Microsoft Excel spreadsheet file. This is a binary format that typically contains structured data in rows and columns across multiple sheets.";
                 recommendations := "- Verify data integrity across all sheets
- Check for formula errors
- Validate data consistency
- Consider CSV export for compatibility" |});
    (".xls", {| type := "Legacy Excel Spreadsheet";
                description := "Older Microsoft Excel format. May have compatibility issues with newer software.";
                recommendations := "- Consider converting to .xlsx format
- Backup before conversion
- Test with target applications" |});
    (".csv", {| type := "Comma-Separated Values";
                description := "Plain text file with comma-separated data. Widely compatible and easy to process.";
                recommendations := "- Verify delimiter consistency
- Check for proper quoting of text fields
- Validate data types in each column" |});
    (".pdf", {| type := "Portable Document Format";
                description := "Fixed-layout document format. Good for sharing formatted documents.";
                recommendations := "- Ensure text is selectable (not scanned image)
- Check accessibility features
- Verify font embedding for compatibility" |});
    (".docx", {| type := "Word Document";
                 description := "Microsoft Word document in modern XML format.";
                 recommendations := "- Check for track changes and comments
- Verify formatting consistency
- Consider PDF export for final distribution" |});
    (".txt", {| type := "Plain Text";
                description := "Simple text file without formatting. Universally compatible.";
                recommendations := "- Check character encoding (UTF-8 recommended)
- Verify line endings for target platform
- Consider structured format if data is complex" |});
    (".json", {| type := "JSON Data";
                 description := "JavaScript Object Notation data file. Structured data format.";
                 recommendations := "- Validate JSON syntax
- Check data structure consistency
- Consider schema validation" |}) ].

Definition or_none (extension : string) : string :=
  if String.eqb extension EmptyString then "none" else extension.

Fixpoint lookup_analysis (extension : string) (l : list (string * FileTypeAnalysis))
  : option FileTypeAnalysis :=
  match l with
  | [] => None
  | (k, a) :: r => if String.eqb extension k then Some a else lookup_analysis extension r
  end.

Definition getFileTypeAnalysis (extension : string) : FileTypeAnalysis :=
  let defaultAnalysis :=
    {| type := "Unknown File Type";
       description := "File with extension " +:+ or_none extension +:+
                      " - binary or unsupported format.";
       recommendations := "- Verify file integrity
- Check if specialized software is needed
- Consider format conversion if needed" |} in
  default defaultAnalysis (lookup_analysis extension analyses).

(** Length in bytes of the white-space character (the class [\\s]) that [s]
    starts with, or 0. *)
Definition ws_len (s : string) : nat :=
  match s with
  | EmptyString => O
  | String a r =>
      let x := code a in
      if ((x =? 32) || ((9 <=? x) && (x <=? 13)))%N then 1%nat
      else
        match r with
        | EmptyString => O
        | String b r2 =>
            let y := code b in
            if ((x =? 194) && (y =? 160))%N then 2%nat
            else
              match r2 with
              | EmptyString => O
              | String c _ =>
                  let z := code c in
                  if ((x =? 225) && (y =? 154) && (z =? 128))%N then 3%nat
                  else if ((x =? 226) && (y =? 128) &&
                           (((128 <=? z) && (z <=? 138)) || (z =? 168) || (z =? 169) || (z =? 175)))%N
                  then 3%nat
                  else if ((x =? 226) && (y =? 129) && (z =? 159))%N then 3%nat
                  else if ((x =? 227) && (y =? 128) && (z =? 128))%N then 3%nat
                  else if ((x =? 239) && (y =? 187) && (z =? 191))%N then 3%nat
                  else O
              end
        end
  end.

(** [content.split(/\\s+/).filter(word => word.length > 0).length]: the
    number of maximal runs of characters that are not white space. *)
Fixpoint count_words (skip : nat) (in_word : bool) (s : string) : Z :=
  match s with
  | EmptyString => 0
  | String _ r =>
      match skip with
      | S k => count_words k false r
      | O =>
          match ws_len s with
          | S k => count_words k false r
          | O => (if in_word then 0 else 1) + count_words O true r
          end
      end
  end.

(** [content.split('\\n').length] *)
Fixpoint count_lines (s : string) : Z :=
  match s with
  | EmptyString => 1
  | String c r => (if (code c =? 10)%N then 1 else 0) + count_lines r
  end.

Definition tab : string := String (chr 9) EmptyString.
Definition crlf : string := String (chr 13) nl.

Definition analyzeTextContent (content : string) : string :=
  let lines := count_lines content in
  let wordCount := count_words O false content in
  let charCount := js_length content in
  let analysis := "
### Content Analysis
- **Lines**: " +:+ string_of_Z lines +:+ "
- **Words**: " +:+ string_of_Z wordCount +:+ "
- **Characters**: " +:+ string_of_Z charCount +:+ "
" in
  let issues :=
    (if includes content crlf && includes content nl
     then ["Mixed line endings detected"] else []) ++
    (if includes content tab && includes content "  "
     then ["Mixed indentation (tabs and spaces)"] else []) in
  let analysis :=
    if includes content "," && (1 <? lines)
    then analysis +:+ "
- **Possible CSV data detected**" else analysis in
  let analysis :=
    if includes content "{" && includes content "}"
    then analysis +:+ "
- **Possible JSON structure detected**" else analysis in
  match issues with
  | [] => analysis
  | _ => analysis +:+ "

### Potential Issues
" +:+ join nl (List.map (fun issue => "- " +:+ issue) issues)
  end.

(** [formatFileSize], computed on exact integers where the source goes
    through [Math.log] and a division of doubles; for the fifth unit and
    beyond the table lookup is [undefined]. *)
Definition formatFileSize (n : Z) : string :=
  let sizes := ["Bytes"; "KB"; "MB"; "GB"] in
  if n =? 0 then "0 Bytes"
  else
    let i := Z.log2 n / 10 in
    let unit := 1024 ^ i in
    let hundredths := (2 * 100 * n + unit) / (2 * unit) in
    ToString (normal hundredths (-2)) +:+ " " +:+
    nth (Z.to_nat i) sizes "undefined".

Definition analyzeFile (w : World) (filePath fileName : string) (instructionFileUrl : JsValue)
  : M JsValue :=
  try_catch
    (let! stats := fs.statSync w filePath in
     let extension := toLowerCase (Path.extname fileName) in
     let fileSize := fs.size stats in
     let timestamp := Date_iso w in
     let fileTypeAnalysis := getFileTypeAnalysis extension in
     let! contentAnalysis :=
       (if isTextFile extension then
          try_catch
            (let! content := fs.readFileSync w filePath in
             ret (analyzeTextContent content))
            (fun _ => ret "Could not read file content for analysis.")
        else ret EmptyString) in
     let feedback := "## File Analysis Report

### File Information
- **Name**: " +:+ fileName +:+ "
- **Type**: " +:+ type fileTypeAnalysis +:+ "
- **Size**: " +:+ formatFileSize fileSize +:+ "
- **Extension**: " +:+ or_none extension +:+ "

### File Type Analysis
" +:+ description fileTypeAnalysis +:+ "

" +:+ contentAnalysis +:+ "

### Instructions Provided
" +:+ (if truthy instructionFileUrl
       then "Instruction file URL provided: " +:+ ToString instructionFileUrl +:+ "
(Local analysis cannot access remote instruction files - upgrade to AI analysis for full instruction support)"
       else "No specific analysis instructions were provided.") +:+ "

### Analysis Limitations
This is a basic local analysis. For more detailed AI-powered analysis, configure the Gemini API or wait for rate limits to reset.

### Recommendations
" +:+ recommendations fileTypeAnalysis +:+ "
" in
     ret (JObj [ ("success", JBool true);
                 ("feedback", JStr feedback);
                 ("timestamp", JStr timestamp);
                 ("fileInfo", JObj [ ("name", JStr fileName);
                                     ("size", JInt fileSize);
                                     ("extension", JStr extension);
                                     ("lastModified", JStr (fs.stat_mtime stats)) ]) ]))
    (fun _ =>
       ret (JObj [ ("success", JBool false);
                   ("error", JStr "Failed to analyze file locally");
                   ("feedback", JStr "Could not perform local file analysis. Please check file permissions and try again.");
                   ("timestamp", JStr (Date_iso w)) ])).

End LocalAnalyzer.

(* ===================================================================== *)
(** ** lib/googleDrive.ts *)
(* ===================================================================== *)

Module GoogleDriveService.
Import Str Js.

Definition mimeTypes : list (string * string) :=
  [ ("xlsx", "application/vnd.openxmlformats-officedocument.spreadsheetml.sheet");
    ("xls", "application/vnd.ms-excel");
    ("docx", "application/vnd.openxmlformats-officedocument.wordprocessingml.document");
    ("doc", "application/msword");
    ("pdf", "application/pdf");
    ("txt", "text/plain");
    ("md", "text/markdown");
    ("jpg", "image/jpeg");
    ("jpeg", "image/jpeg");
    ("png", "image/png");
    ("gif", "image/gif");
    ("svg", "image/svg+xml");
    ("csv", "text/csv");
    ("json", "application/json");
    ("xml", "application/xml");
    ("zip", "application/zip");
    ("rar", "application/x-rar-compressed") ].

Fixpoint lookup_mime (k : string) (l : list (string * string)) : option string :=
  match l with
  | [] => None
  | (k', v) :: r => if String.eqb k k' then Some v else lookup_mime k r
  end.

(** [s.split('.').pop()]: what follows the last dot, or all of [s]. *)
Fixpoint after_last_dot (cur : string) (s : string) : string :=
  match s with
  | EmptyString => cur
  | String c r =>
      if Path.is_dot c then after_last_dot EmptyString r
      else after_last_dot (cur +:+ String c EmptyString) r
  end.

(** [getMimeType]: the table is an object literal, so the two lower-case
    names every object inherits answer with an object instead of a string. *)
Definition getMimeType (fileName : string) : JsValue :=
  let extension := after_last_dot EmptyString (toLowerCase fileName) in
  match lookup_mime extension mimeTypes with
  | Some m => JStr m
  | None =>
      if String.eqb extension "constructor" || String.eqb extension "__proto__"
      then JObj []
      else JStr "application/octet-stream"
  end.

Definition env_value (w : World) (name : string) : option string :=
  match env w !! name with
  | Some v => if String.eqb v EmptyString then None else Some v
  | None => None
  end.

Definition uploadFile (w : World) (filePath fileName : string) (fileType : option string)
  : M JsValue :=
  try_catch
    (let folderId := env_value w "GOOGLE_DRIVE_FOLDER_ID" in
     let sharedDriveId := env_value w "GOOGLE_SHARED_DRIVE_ID" in
     let parents := match folderId with Some f => Some [f] | None => None end in
     let! s := get_state in
     let createParams :=
       {| dc_name := fileName;
          dc_driveId := sharedDriveId;
          dc_parents := parents;
          dc_mimeType := match fileType with
                         | Some t => js_or (JStr t) (getMimeType fileName)
                         | None => getMimeType fileName
                         end;
          dc_body := bytes <$> (files s !! filePath);
          dc_supportsAllDrives := bool_decide (is_Some sharedDriveId) |} in
     let! fileId := await (drive_files_create w createParams) in
     (if truthy fileId
      then await (drive_permissions_create w fileId (bool_decide (is_Some sharedDriveId)))
      else ret tt) >>
     let publicUrl := "https://drive.google.com/file/d/" +:+ ToString fileId +:+ "/view?usp=sharing" in
     let directUrl := "https://drive.google.com/uc?id=" +:+ ToString fileId +:+ "&export=download" in
     ret (JObj [ ("fileId", fileId);
                 ("publicUrl", JStr publicUrl);
                 ("directUrl", JStr directUrl);
                 ("success", JBool true) ]))
    (fun error =>
       if message_includes error "Service Accounts do not have storage quota"
       then ret (JObj [ ("fileId", JNull);
                        ("publicUrl", JNull);
                        ("directUrl", JNull);
                        ("success", JBool false);
                        ("error", JStr "Service account requires shared drive or OAuth delegation") ])
       else throw (Err "Failed to upload file to Google Drive")).

End GoogleDriveService.

(* ===================================================================== *)
(** ** lib/gemini.ts *)
(* ===================================================================== *)

Module GeminiService.
Import Str Js.

(** The constructor. *)
Definition new (w : World) : M unit :=
  if negb (env_truthy w "GEMINI_API_KEY")
  then throw (Err "GEMINI_API_KEY is not configured")
  else ret tt.

Definition model : string := "gemini-1.5-pro".

Definition analyzeFileWithInstruction (w : World) (fileUrl instructionFileUrl : JsValue)
  : M JsValue :=
  try_catch
    (let basePrompt :=
       if truthy instructionFileUrl then
         "Please analyze the file at this URL: " +:+ ToString fileUrl +:+ "

Use the instructions provided in this file: " +:+ ToString instructionFileUrl +:+ "

Please:
1. First review the instruction file to understand the analysis requirements
2. Then analyze the main file according to those instructions
3. Provide detailed feedback based on the specified criteria
4. Format your response in a clear, structured manner

If you cannot access either file directly, please let me know and I'll provide the data in a different format."
       else
         "Please analyze the file available at this URL: " +:+ ToString fileUrl +:+ "

Please:
1. Identify the file type and format
2. If it's an Excel file, go through ALL tabs
3. Analyze the data structure, content, and quality
4. Identify any issues, inconsistencies, or areas for improvement
5. Provide specific feedback and recommendations
6. Format your response in a clear, structured manner

If you cannot access the file directly, please let me know and I'll provide the data in a different format." in
     let! feedback := await (generateContent w model basePrompt) in
     ret (JObj [ ("success", JBool true);
                 ("feedback", JStr feedback);
                 ("timestamp", JStr (Date_iso w)) ]))
    (fun error =>
       if message_includes error "429" || message_includes error "Too Many Requests"
          || message_includes error "quota"
       then throw (Err "Gemini API rate limit exceeded. Please try again in a few minutes.")
       else if message_includes error "GEMINI_API_KEY"
       then throw (Err "Gemini API key not configured or invalid")
       else throw (Err "Failed to analyze file with instruction")).

(** The [catch] block the other methods share: a rate-limit message is
    looked for first, then the name of the key variable; anything else,
    and a thrown value that is not an [Error], gets the method's own
    message. *)
Definition rethrow {A} (fallback : string) (error : Thrown) : M A :=
  if message_includes error "429" || message_includes error "Too Many Requests"
     || message_includes error "quota"
  then throw (Err "Gemini API rate limit exceeded. Please try again in a few minutes.")
  else if message_includes error "GEMINI_API_KEY"
  then throw (Err "Gemini API key not configured or invalid")
  else throw (Err fallback).

(** A parameter declared with the default [= '']. *)
Definition or_empty (v : JsValue) : JsValue :=
  match v with JUndefined => JStr EmptyString | _ => v end.

Definition analyzeFile (w : World) (fileUrl instructionContent : JsValue) : M JsValue :=
  let instructionContent := or_empty instructionContent in
  try_catch
    (let basePrompt :=
"
Please analyze the file available at this URL: " +:+
ToString fileUrl +:+
"

Instructions for analysis:
" +:+
ToString (js_or instructionContent (JStr "Provide a comprehensive analysis of the file content, structure, and quality.")) +:+
"

Please:
1. Identify the file type and format
2. If it's an Excel file, go through ALL tabs
3. Analyze the data structure, content, and quality
4. Identify any issues, inconsistencies, or areas for improvement
5. Provide specific feedback and recommendations
6. Format your response in a clear, structured manner

If you cannot access the file directly, please let me know and I'll provide the data in a different format.
      " in
     let! feedback := await (generateContent w model basePrompt) in
     ret (JObj [ ("success", JBool true);
                 ("feedback", JStr feedback);
                 ("timestamp", JStr (Date_iso w)) ]))
    (rethrow "Failed to analyze file with Gemini API").

Definition analyzeWithCustomPrompt (w : World) (fileUrl customPrompt : JsValue) : M JsValue :=
  try_catch
    (let prompt :=
"
File URL: " +:+
ToString fileUrl +:+
"

" +:+
ToString customPrompt +:+
"
      " in
     let! feedback := await (generateContent w model prompt) in
     ret (JObj [ ("success", JBool true);
                 ("feedback", JStr feedback);
                 ("timestamp", JStr (Date_iso w)) ]))
    (rethrow "Failed to analyze file with custom prompt").

Definition isTextFile (extension : string) : bool :=
  if negb (truthy (JStr extension)) then false
  else existsb (String.eqb (toLowerCase extension))
         ["txt"; "md"; "csv"; "json"; "xml"; "js"; "ts"; "html"; "css"; "py"; "java";
          "cpp"; "c"; "h"; "yaml"; "yml"; "toml"; "ini"; "log"; "sql"; "sh"; "bat"].

(** The same code as [LocalAnalyzer.formatFileSize]. *)
Definition formatFileSize (n : Z) : string :=
  let sizes := ["Bytes"; "KB"; "MB"; "GB"] in
  if n =? 0 then "0 Bytes"
  else
    let i := Z.log2 n / 10 in
    let unit := 1024 ^ i in
    let hundredths := (2 * 100 * n + unit) / (2 * unit) in
    ToString (normal hundredths (-2)) +:+ " " +:+
    nth (Z.to_nat i) sizes "undefined".

(** [instructions]: the given instructions or the default sentence, then
    the custom prompt if there is one. *)
Definition instructions_for (fallback : string) (instructionContent customPrompt : JsValue)
  : string :=
  let instructions := ToString (js_or instructionContent (JStr fallback)) in
  if truthy customPrompt
  then instructions +:+ nl +:+ nl +:+ "Additional custom instructions: " +:+ ToString customPrompt
  else instructions.

Definition textPrompt (extension fileName fileContent : string) (stats : fs.Stats)
    (instructions : string) : string :=
"
Please analyze this " +:+
extension +:+
" file named " +:+
dq +:+
fileName +:+
dq +:+
":

--- FILE CONTENT START ---
" +:+
fileContent +:+
"
--- FILE CONTENT END ---

File size: " +:+
string_of_Z (fs.size stats) +:+
" bytes

Instructions for analysis:
" +:+
instructions +:+
"

Please:
1. Identify the file type and format
2. Analyze the data structure, content, and quality
3. Identify any issues, inconsistencies, or areas for improvement
4. Provide specific feedback and recommendations
5. Format your response in a clear, structured manner
        ".

Definition binaryPrompt (extension fileName : string) (stats : fs.Stats)
    (instructions : string) : string :=
"
Please analyze this " +:+
extension +:+
" file named " +:+
dq +:+
fileName +:+
dq +:+
":

File Information:
- Name: " +:+
fileName +:+
"
- Type: " +:+
(if truthy (JStr extension) then "." +:+ extension else "unknown") +:+
"
- Size: " +:+
formatFileSize (fs.size stats) +:+
"
- Last Modified: " +:+
fs.stat_mtime stats +:+
"

Instructions for analysis:
" +:+
instructions +:+
"

Note: This is a binary file format. Please provide analysis based on the file type, size, and general recommendations for this type of file.

Please:
1. Identify what this file type is typically used for
2. Comment on the file size (is it reasonable for this type?)
3. Provide recommendations for handling this file type
4. Suggest tools or methods for deeper analysis if needed
5. Format your response in a clear, structured manner
        ".

(** [analyzeFileDirectly]: the file is read from the local path. *)
Definition analyzeFileDirectly (w : World) (filePath fileName : string)
    (instructionContent customPrompt : JsValue) : M JsValue :=
  let instructionContent := or_empty instructionContent in
  try_catch
    (let! stats := fs.statSync w filePath in
     let extension := GoogleDriveService.after_last_dot EmptyString (toLowerCase fileName) in
     let! analysisPrompt :=
       (if isTextFile extension then
          let! fileContent := fs.readFileSync w filePath in
          let instructions :=
            instructions_for
              "Provide a comprehensive analysis of the file content, structure, and quality."
              instructionContent customPrompt in
          ret (textPrompt extension fileName fileContent stats instructions)
        else
          let instructions :=
            instructions_for
              "Provide a comprehensive analysis of the file type, format, and recommendations."
              instructionContent customPrompt in
          ret (binaryPrompt extension fileName stats instructions)) in
     let! feedback := await (generateContent w model analysisPrompt) in
     ret (JObj [ ("success", JBool true);
                 ("feedback", JStr feedback);
                 ("timestamp", JStr (Date_iso w));
                 ("fileInfo",
                  JObj [ ("name", JStr fileName);
                         ("size", JInt (fs.size stats));
                         ("extension", JStr (if truthy (JStr extension)
                                             then "." +:+ extension else EmptyString));
                         ("lastModified", JStr (fs.stat_mtime stats));
                         ("isTextFile", JBool (isTextFile extension)) ]) ]))
    (rethrow "Failed to analyze file directly with Gemini API").

End GeminiService.

(* ===================================================================== *)
(** ** Requests and responses *)
(* ===================================================================== *)

(** A value of a multipart form: a text field or a file. *)
Inductive FormValue : Type :=
| Text (s : string)
| Upload (name : string) (data : string).

(** [await request.formData()] *)
Definition FormRequest : Type := Outcome (list (string * FormValue)).

Fixpoint formData_get (form : list (string * FormValue)) (name : string) : option FormValue :=
  match form with
  | [] => None
  | (k, v) :: r => if String.eqb k name then Some v else formData_get r name
  end.

Definition entry_truthy (e : option FormValue) : bool :=
  match e with
  | None => false
  | Some (Text s) => negb (String.eqb s EmptyString)
  | Some (Upload _ _) => true
  end.

Definition entry_toString (e : option FormValue) : string :=
  match e with
  | None => "null"
  | Some (Text s) => s
  | Some (Upload _ _) => "[object File]"
  end.

(** [await file.arrayBuffer()] together with [file.name]: a text field has
    neither, and calling the method on it is a TypeError. *)
Definition as_file (e : option FormValue) : M (string * string) :=
  match e with
  | Some (Upload name data) => ret (name, data)
  | _ => throw (Err "file.arrayBuffer is not a function")
  end.

(** [await request.json()] *)
Definition JsonRequest : Type := Outcome Js.JsValue.

Record Response := { status : Z; body : Js.JsValue }.

(** [NextResponse.json(body)] and [NextResponse.json(body, { status })] *)
Definition json (b : Js.JsValue) : Response := {| status := 200; body := b |}.
Definition json_status (b : Js.JsValue) (code : Z) : Response := {| status := code; body := b |}.

(* ===================================================================== *)
(** ** app/api/upload/route.ts *)
(* ===================================================================== *)

Module UploadRoute.
Import Str Js.

Definition is_safe_char (c : ascii) : bool :=
  let n := code c in
  (((97 <=? n) && (n <=? 122)) || ((65 <=? n) && (n <=? 90)) ||
   ((48 <=? n) && (n <=? 57)) || (n =? 46) || (n =? 45))%N.

(** [name.replace(/[^a-zA-Z0-9.-]/g, '_')]: one underscore for each UTF-16
    unit that is not in the class. *)
Fixpoint safe_name (s : string) : string :=
  match s with
  | EmptyString => EmptyString
  | String c r =>
      let n := code c in
      if is_safe_char c then String c (safe_name r)
      else if (n <? 128)%N then "_" +:+ safe_name r
      else if (n <? 192)%N then safe_name r
      else if (n <? 240)%N then "_" +:+ safe_name r
      else "__" +:+ safe_name r
  end.

Definition is_string (v : JsValue) (s : string) : bool :=
  match v with JStr t => String.eqb t s | _ => false end.

Definition getStatusMessage (status : JsValue) : string :=
  if is_string (get_opt status "googleDrive") "success"
     && is_string (get_opt status "geminiAnalysis") "success"
  then "File uploaded to Google Drive and analyzed with AI successfully!"
  else if truthy (get_opt status "localAnalysis")
          && is_string (get_opt status "googleDrive") "success"
  then "File uploaded to Google Drive with local analysis (AI analysis unavailable)."
  else if truthy (get_opt status "localAnalysis")
  then "File analyzed locally. Configure Google Drive and Gemini API for enhanced features."
  else "File processed with limited features. Check configuration and try again.".

Definition hasGoogleDrive (w : World) : bool :=
  env_truthy w "GOOGLE_PROJECT_ID" && env_truthy w "GOOGLE_PRIVATE_KEY"
  && env_truthy w "GOOGLE_SERVICE_ACCOUNT_EMAIL".

Definition hasGemini (w : World) : bool := env_truthy w "GEMINI_API_KEY".

(** The lookup of the instruction file's URL; every failure inside leaves
    the variable at its initial [null]. *)
Definition instruction_url (w : World) (instructionFileId : option FormValue) : M JsValue :=
  if entry_truthy instructionFileId then
    try_catch
      (let metadataPath :=
         Path.join_paths [cwd w; "instructions";
                          entry_toString instructionFileId +:+ ".meta.json"] in
       let! found := fs.existsSync metadataPath in
       if found then
         let! text := fs.readFileSync w metadataPath in
         let! metadata := JSON_parse_M w text in
         let! direct := prop metadata "directUrl" in
         if truthy direct then ret direct else prop metadata "publicUrl"
       else ret JNull)
      (fun _ => ret JNull)
  else ret JNull.

(** The Drive step: the pair of [uploadResult] and [driveError]. *)
Definition drive_step (w : World) (tempFilePath fileName : string) : M (JsValue * JsValue) :=
  if hasGoogleDrive w then
    try_catch
      (let! result := GoogleDriveService.uploadFile w tempFilePath fileName None in
       if truthy (js_and result (get_opt result "success"))
       then ret (result, JNull)
       else ret (JNull, js_or (get_opt result "error") (JStr "Upload failed")))
      (fun error => ret (JNull, JStr (message_or error "Unknown error")))
  else ret (JNull, JStr "Google Drive not configured").

(** The Gemini step: the new values of [analysisResult], [aiAnalysisResult]
    and [geminiError]. *)
Definition gemini_step (w : World) (analysisResult uploadResult instructionFileUrl : JsValue)
  : M (JsValue * JsValue * JsValue) :=
  if hasGemini w && truthy uploadResult && truthy (get_opt uploadResult "directUrl") then
    try_catch
      (GeminiService.new w >>
       let! aiAnalysisResult :=
         GeminiService.analyzeFileWithInstruction w (get_opt uploadResult "directUrl")
           instructionFileUrl in
       if truthy (js_and aiAnalysisResult (get_opt aiAnalysisResult "success"))
       then ret (aiAnalysisResult, aiAnalysisResult, JNull)
       else ret (analysisResult, aiAnalysisResult, JStr "Analysis failed"))
      (fun error => ret (analysisResult, JNull, JStr (message_or error "Unknown error")))
  else if negb (hasGemini w) then ret (analysisResult, JNull, JStr "Gemini API not configured")
  else if negb (truthy uploadResult)
  then ret (analysisResult, JNull, JStr "No file URL available for AI analysis")
  else ret (analysisResult, JNull, JNull).

(** The [finally] block shared by the two routes that write a transient
    file. *)
Definition cleanup (w : World) : M unit :=
  let! s := get_state in
  match tempFilePath s with
  | Some p =>
      let! found := fs.existsSync p in
      if found then try_catch (fs.unlinkSync w p) (fun _ => ret tt) else ret tt
  | None => ret tt
  end.

(** [tempDir], created when it is not there yet. *)
Definition tempDir (w : World) : string := Path.join_paths [cwd w; "temp"].

Definition ensure_tempDir (w : World) : M unit :=
  let! found := fs.existsSync (tempDir w) in
  if negb found then fs.mkdirSync w (tempDir w) else ret tt.

(** [Save file temporarily]: the path is assigned to [tempFilePath] before
    the file is written. *)
Definition save_temporarily (w : World) (name buffer : string) : M string :=
  let timestamp := Date_now w in
  let safeName := safe_name name in
  let path := Path.join_paths [tempDir w; string_of_Z timestamp +:+ "_" +:+ safeName] in
  set_tempFilePath (Some path) >>
  fs.writeFileSync w path buffer >>
  ret path.

(** [serviceStatus] and the response built from the variables of the
    handler. *)
Definition respond (name buffer : string)
    (uploadResult driveError analysisResult aiAnalysisResult geminiError success : JsValue)
  : Response :=
  let serviceStatus :=
    JObj [ ("localAnalysis", success);
           ("googleDrive", if truthy uploadResult then JStr "success"
                           else js_or driveError (JStr "failed"));
           ("geminiAnalysis", if truthy aiAnalysisResult then JStr "success"
                              else js_or geminiError (JStr "unavailable")) ] in
  json (JObj [
    ("success", JBool true);
    ("file", JObj [ ("name", JStr name);
                    ("size", JInt (Z.of_nat (String.length buffer)));
                    ("fileId", js_or (get_opt uploadResult "fileId") JNull);
                    ("publicUrl", js_or (get_opt uploadResult "publicUrl") JNull);
                    ("directUrl", js_or (get_opt uploadResult "directUrl") JNull) ]);
    ("analysis", analysisResult);
    ("serviceStatus", serviceStatus);
    ("message", JStr (getStatusMessage serviceStatus)) ]).

(** The degrade chain proper, from the instruction lookup to the response. *)
Definition analyse (w : World) (path name buffer : string)
    (instructionFileId : option FormValue) : M Response :=
  let! instructionFileUrl := instruction_url w instructionFileId in
  let! analysisResult :=
    LocalAnalyzer.analyzeFile w path name (js_or instructionFileUrl (JStr EmptyString)) in
  let! (uploadResult, driveError) := drive_step w path name in
  let! (analysisResult, aiAnalysisResult, geminiError) :=
    gemini_step w analysisResult uploadResult instructionFileUrl in
  let! success := prop analysisResult "success" in
  ret (respond name buffer uploadResult driveError analysisResult aiAnalysisResult
         geminiError success).

(** The [catch] block of the handler. *)
Definition on_error (error : Thrown) : M Response :=
  ret (json_status
         (JObj [ ("error", JStr "Failed to process file upload");
                 ("details", JStr (message_or error "Unknown error")) ]) 500).

Definition POST (w : World) (request : FormRequest) : M Response :=
  set_tempFilePath None >>
  try_finally
    (try_catch
       (let! formData := await request in
        let file := formData_get formData "file" in
        let instructionFileId := formData_get formData "instructionFileId" in
        if negb (entry_truthy file)
        then ret (json_status (JObj [("error", JStr "No file provided")]) 400)
        else
          ensure_tempDir w >>
          let! (name, buffer) := as_file file in
          let! path := save_temporarily w name buffer in
          analyse w path name buffer instructionFileId)
       on_error)
    (cleanup w).

End UploadRoute.

(* ===================================================================== *)
(** ** Listing the instructions *)
(* ===================================================================== *)

(** The two [GET] handlers depend on things the state above does not
    record: the order in which the Map was filled and in which the
    operating system lists a directory, the birth time of a file, how the
    engine reads a date, cuts a string of UTF-16 units and sorts.  They are
    parameters of the handlers, which are modelled for every choice of
    them. *)
Record Platform := {
  (* Array.from(map.values()) *)
  Map_values : gmap string InstructionData.t -> list InstructionData.t;
  (* fs.readdirSync(dir) *)
  readdirSync : string -> St -> Outcome (list string);
  (* fs.statSync(p).birthtime, as the response shows it *)
  birthtime : string -> St -> Js.JsValue;
  (* new Date(text), as the response shows it *)
  new_Date : string -> Js.JsValue;
  (* content.substring(0, 200) *)
  substring_0_200 : string -> string;
  (* items.sort((a, b) => time of b.createdAt - time of a.createdAt) *)
  sort_by_createdAt : list Js.JsValue -> list Js.JsValue;
}.

(** [list.map(callback)] for a callback that can throw: the entries are
    visited from the first on, and the first exception ends the loop. *)
Definition mapM {A B} (callback : A -> M B) (entries : list A) : M (list B) :=
  fold_right
    (fun entry later =>
       let! item := callback entry in
       let! items := later in
       ret (item :: items))
    (ret []) entries.

Module Listing.
Import Str Js.

Fixpoint after (n : nat) (s : string) : string :=
  match n, s with
  | O, _ => s
  | S k, String _ r => after k r
  | S _, EmptyString => EmptyString
  end.

(** [s.replace(pattern, '')]: the first occurrence is removed. *)
Fixpoint remove_first (s pattern : string) : string :=
  if startsWith s pattern then after (String.length pattern) s
  else match s with
       | EmptyString => EmptyString
       | String c r => String c (remove_first r pattern)
       end.

(** [content.substring(0, 200) + (content.length > 200 ? '...' : '')] *)
Definition preview (pf : Platform) (content : string) : string :=
  substring_0_200 pf content +:+ (if 200 <? js_length content then "..." else EmptyString).

(** [Try to read metadata]: every failure leaves [null]. *)
Definition read_metadata (w : World) (dir instructionId : string) : M JsValue :=
  try_catch
    (let metadataPath := Path.join_paths [dir; instructionId +:+ ".meta.json"] in
     let! found := fs.existsSync metadataPath in
     if found then
       let! text := fs.readFileSync w metadataPath in
       JSON_parse_M w text
     else ret JNull)
    (fun _ => ret JNull).

(** The entry of the list built for one [.txt] file of the directory. *)
Definition file_item (pf : Platform) (w : World) (dir file : string) : M JsValue :=
  let instructionId := remove_first file ".txt" in
  let filePath := Path.join_paths [dir; file] in
  let! content := fs.readFileSync w filePath in
  let! stats := fs.statSync w filePath in
  let! s := get_state in
  let! metadata := read_metadata w dir instructionId in
  ret (JObj [ ("id", JStr instructionId);
              ("content", JStr (preview pf content));
              ("fullContent", JStr content);
              ("createdAt", birthtime pf filePath s);
              ("size", JInt (fs.size stats));
              ("publicUrl", js_or (get_opt metadata "publicUrl") JNull);
              ("directUrl", js_or (get_opt metadata "directUrl") JNull);
              ("fileId", js_or (get_opt metadata "fileId") JNull);
              ("fileName", js_or (get_opt metadata "fileName")
                             (JStr (remove_first file ".txt")));
              ("hasGoogleDriveBackup",
               js_or (get_opt metadata "hasGoogleDriveBackup") (JBool false)) ]).

(** [files.filter(file => file.endsWith('.txt'))] *)
Definition txt_files (files : list string) : list string :=
  List.filter (fun file => endsWith file ".txt") files.

Definition readdir (pf : Platform) (dir : string) : M (list string) :=
  fun s => (readdirSync pf dir s, s).

Definition failed : Response :=
  json_status (JObj [("error", JStr "Failed to fetch instruction files")]) 500.

Definition listed (pf : Platform) (instructions : list JsValue) : Response :=
  json (JObj [ ("success", JBool true);
               ("instructions", JArr (sort_by_createdAt pf instructions)) ]).

End Listing.

(* ===================================================================== *)
(** ** app/api/instructions/route.ts *)
(* ===================================================================== *)

Module InstructionsRoute.
Import Str Js.

Definition textExtensions : list string :=
  [".txt"; ".md"; ".csv"; ".json"; ".xml"; ".js"; ".ts"; ".html"; ".css"].

(** [textExtensions.some(ext => file.name.toLowerCase().endsWith(ext))] *)
Definition isTextFile (name : string) : bool :=
  existsb (fun ext => endsWith (toLowerCase name) ext) textExtensions.

Definition placeholder (name : string) : string :=
  "[Binary file: " +:+ name +:+ "] - Content will be processed by AI when analyzing files.".

(** The text kept for an uploaded instruction file. *)
Definition instruction_content (name bytes : string) : string :=
  if isTextFile name then Utf8.Buffer_toString bytes else placeholder name.

Definition getSafeInstructionsDir (w : World) : M (option string) :=
  try_catch
    (if env_truthy w "VERCEL" || env_truthy w "AWS_LAMBDA_FUNCTION_NAME" then
       let tmpDir := "/tmp/instructions" in
       let! found := fs.existsSync tmpDir in
       (if negb found then fs.mkdirSync w tmpDir else ret tt) >>
       ret (Some tmpDir)
     else
       let localDir := Path.join_paths [cwd w; "instructions"] in
       let! found := fs.existsSync localDir in
       (if negb found then fs.mkdirSync w localDir else ret tt) >>
       ret (Some localDir))
    (fun _ => ret None).

(** [fs.writeFileSync(p, JSON.stringify(v, null, 2))] *)
Definition write_json (w : World) (p : string) (v : JsValue) : M unit :=
  match JSON_stringify v with
  | Some text => fs.writeFileSync w p text
  | None => throw (Err "The data argument must be of type string or an instance of Buffer, TypedArray, or DataView. Received undefined")
  end.

Definition cache_set (k : string) (d : InstructionData.t) : M unit :=
  fun s => (Returns tt, with_cache (<[ k := d ]> (instructionsCache s)) s).

(** The Drive backup of an instruction: [driveFile] after the inner
    try/catch. *)
Definition drive_backup (w : World) (path remoteName : string) : M JsValue :=
  try_catch
    (GoogleDriveService.uploadFile w path remoteName (Some "text/plain"))
    (fun _ => ret (JObj [("success", JBool false); ("error", JStr "Upload failed")])).

(** [Save to temporary file for Google Drive upload] *)
Definition save_temporarily (w : World) (instructionId content : string) : M string :=
  let tempDir := "/tmp" in
  let path := Path.join_paths [tempDir; instructionId +:+ ".txt"] in
  set_tempFilePath (Some path) >>
  fs.writeFileSync w path content >>
  ret path.

(** [instructionData], the object put in the cache. *)
Definition instructionData (w : World) (instructionId name content : string)
    (driveFile : JsValue) : InstructionData.t :=
  {| InstructionData.id := instructionId;
     InstructionData.fileName := name;
     InstructionData.content := content;
     InstructionData.publicUrl := js_or (get_opt driveFile "publicUrl") JNull;
     InstructionData.directUrl := js_or (get_opt driveFile "directUrl") JNull;
     InstructionData.fileId := js_or (get_opt driveFile "fileId") JNull;
     InstructionData.createdAt := Date_iso w;
     InstructionData.hasGoogleDriveBackup := js_or (get_opt driveFile "success") (JBool false);
     InstructionData.specialInstruction := JUndefined;
     InstructionData.isPMPA := JUndefined;
     InstructionData.feedback := JUndefined;
     InstructionData.inputData := JUndefined;
     InstructionData.customPrompt := JUndefined;
     InstructionData.pmpChecklist := JUndefined |}.

(** The same object as [JSON.stringify] sees it. *)
Definition instructionData_json (d : InstructionData.t) : JsValue :=
  JObj [ ("id", JStr (InstructionData.id d));
         ("fileName", JStr (InstructionData.fileName d));
         ("content", JStr (InstructionData.content d));
         ("publicUrl", InstructionData.publicUrl d);
         ("directUrl", InstructionData.directUrl d);
         ("fileId", InstructionData.fileId d);
         ("createdAt", JStr (InstructionData.createdAt d));
         ("hasGoogleDriveBackup", InstructionData.hasGoogleDriveBackup d) ].

(** [Try to save locally if possible]: nothing in here can fail the request. *)
Definition save_locally (w : World) (d : InstructionData.t) : M unit :=
  let! instructionsDir := getSafeInstructionsDir w in
  match instructionsDir with
  | Some dir =>
      try_catch
        (let localPath := Path.join_paths [dir; InstructionData.id d +:+ ".txt"] in
         let metadataPath := Path.join_paths [dir; InstructionData.id d +:+ ".meta.json"] in
         fs.writeFileSync w localPath (InstructionData.content d) >>
         write_json w metadataPath (instructionData_json d))
        (fun _ => ret tt)
  | None => ret tt
  end.

Definition created (instructionId name content : string) (driveFile : JsValue) : Response :=
  json (JObj [
    ("success", JBool true);
    ("instructionId", JStr instructionId);
    ("fileName", JStr name);
    ("content", JStr content);
    ("driveFile", driveFile);
    ("publicUrl", js_or (get_opt driveFile "publicUrl") JNull);
    ("directUrl", js_or (get_opt driveFile "directUrl") JNull);
    ("message",
     JStr (if truthy (js_and driveFile (get_opt driveFile "success"))
           then "File uploaded successfully with Google Drive backup"
           else "File stored in session (configure Google Drive for persistence)")) ]).

Definition instructionId (w : World) : string := "instruction_" +:+ string_of_Z (Date_now w).

(** The handler once the uploaded file has been read. *)
Definition create (w : World) (name bytes : string) : M Response :=
  let content := instruction_content name bytes in
  let! path := save_temporarily w (instructionId w) content in
  let! driveFile := drive_backup w path (instructionId w +:+ "_" +:+ name) in
  let d := instructionData w (instructionId w) name content driveFile in
  cache_set (instructionId w) d >>
  save_locally w d >>
  ret (created (instructionId w) name content driveFile).

Definition on_error (error : Thrown) : M Response :=
  ret (json_status (JObj [("error", JStr "Failed to upload instruction file")]) 500).

Definition POST (w : World) (request : FormRequest) : M Response :=
  set_tempFilePath None >>
  try_finally
    (try_catch
       (let! formData := await request in
        let file := formData_get formData "instruction" in
        if negb (entry_truthy file)
        then ret (json_status (JObj [("error", JStr "No instruction file provided")]) 400)
        else
          let! (name, bytes) := as_file file in
          create w name bytes)
       on_error)
    (UploadRoute.cleanup w).

(** The entry of the list built for one entry of the cache. *)
Definition cache_item (pf : Platform) (item : InstructionData.t) : JsValue :=
  JObj [ ("id", JStr (InstructionData.id item));
         ("content", JStr (Listing.preview pf (InstructionData.content item)));
         ("fullContent", JStr (InstructionData.content item));
         ("createdAt", new_Date pf (InstructionData.createdAt item));
         ("size", JInt (js_length (InstructionData.content item)));
         ("publicUrl", InstructionData.publicUrl item);
         ("directUrl", InstructionData.directUrl item);
         ("fileId", InstructionData.fileId item);
         ("fileName", JStr (InstructionData.fileName item));
         ("hasGoogleDriveBackup", InstructionData.hasGoogleDriveBackup item) ].

(** The callback of the [map] over the files: [null] for an instruction
    that is in the cache, and for a file that cannot be read. *)
Definition file_item_or_null (pf : Platform) (w : World) (dir file : string) : M JsValue :=
  let instructionId := Listing.remove_first file ".txt" in
  let! s := get_state in
  if bool_decide (is_Some (instructionsCache s !! instructionId)) then ret JNull
  else try_catch (Listing.file_item pf w dir file) (fun _ => ret JNull).

Definition is_null (v : JsValue) : bool :=
  match v with JNull => true | _ => false end.

Definition GET (pf : Platform) (w : World) : M Response :=
  try_catch
    (let! s := get_state in
     let cacheInstructions :=
       List.map (cache_item pf) (Map_values pf (instructionsCache s)) in
     let! instructionsDir := getSafeInstructionsDir w in
     let! instructions :=
       match instructionsDir with
       | Some dir =>
           try_catch
             (let! files := Listing.readdir pf dir in
              let! fileInstructions :=
                mapM (file_item_or_null pf w dir) (Listing.txt_files files) in
              ret (cacheInstructions ++
                   List.filter (fun instruction => negb (is_null instruction))
                     fileInstructions))
             (fun _ => ret cacheInstructions)
       | None => ret cacheInstructions
       end in
     ret (Listing.listed pf instructions))
    (fun _ => ret Listing.failed).

End InstructionsRoute.

(** The earlier revision of the same route, which keeps the instruction on
    disk only. *)
Module InstructionsRouteOnDisk.
Import Str Js.

Definition instructionsDir (w : World) : string := Path.join_paths [cwd w; "instructions"].

(** The statements run when the module is loaded. *)
Definition load (w : World) : M unit :=
  let! found := fs.existsSync (instructionsDir w) in
  if negb found then fs.mkdirSync w (instructionsDir w) else ret tt.

Definition POST (w : World) (request : FormRequest) : M Response :=
  try_catch
    (let! formData := await request in
     let file := formData_get formData "instruction" in
     if negb (entry_truthy file)
     then ret (json_status (JObj [("error", JStr "No instruction file provided")]) 400)
     else
       let! (name, bytes) := as_file file in
       let content := InstructionsRoute.instruction_content name bytes in
       let instructionId := InstructionsRoute.instructionId w in
       let localPath := Path.join_paths [instructionsDir w; instructionId +:+ ".txt"] in
       fs.writeFileSync w localPath content >>
       let! driveFile :=
         try_catch
           (GoogleDriveService.uploadFile w localPath (instructionId +:+ "_" +:+ name)
              (Some "text/plain"))
           (fun _ => ret (JObj [("success", JBool false); ("error", JStr "Upload failed")])) in
       let metadata :=
         JObj [ ("instructionId", JStr instructionId);
                ("fileName", JStr name);
                ("publicUrl", js_or (get_opt driveFile "publicUrl") JNull);
                ("directUrl", js_or (get_opt driveFile "directUrl") JNull);
                ("fileId", js_or (get_opt driveFile "fileId") JNull);
                ("createdAt", JStr (Date_iso w));
                ("hasGoogleDriveBackup", js_or (get_opt driveFile "success") (JBool false)) ] in
       let metadataPath := Path.join_paths [instructionsDir w; instructionId +:+ ".meta.json"] in
       InstructionsRoute.write_json w metadataPath metadata >>
       ret (json (JObj [
         ("success", JBool true);
         ("instructionId", JStr instructionId);
         ("fileName", JStr name);
         ("content", JStr content);
         ("driveFile", driveFile);
         ("publicUrl", js_or (get_opt driveFile "publicUrl") JNull);
         ("directUrl", js_or (get_opt driveFile "directUrl") JNull);
         ("message",
          JStr (if truthy (js_and driveFile (get_opt driveFile "success"))
                then "File uploaded successfully with Google Drive backup"
                else "File uploaded successfully (Google Drive backup unavailable)")) ])))
    (fun _ =>
       ret (json_status (JObj [("error", JStr "Failed to upload instruction file")]) 500)).

Definition GET (pf : Platform) (w : World) : M Response :=
  try_catch
    (let! files := Listing.readdir pf (instructionsDir w) in
     let! instructions :=
       mapM (Listing.file_item pf w (instructionsDir w)) (Listing.txt_files files) in
     ret (Listing.listed pf instructions))
    (fun _ => ret Listing.failed).

End InstructionsRouteOnDisk.

(* ===================================================================== *)
(** ** The AI sub-actions of the instruction routes *)
(* ===================================================================== *)

(** What [generate-feedback/route.ts] and [fill-pmp-checklist/route.ts] have
    in common: finding the instruction in the cache or on disk. *)
Module Instructions.
Import Str Js.

Definition INSTRUCTIONS_DIR (w : World) : string := Path.join_paths [cwd w; "instructions"].

(** [instructionsCache.get(instructionId)]: the keys of the map are strings. *)
Definition cache_get (instructionId : JsValue) : M (option InstructionData.t) :=
  fun s => (Returns (match instructionId with
                     | JStr k => instructionsCache s !! k
                     | _ => None
                     end), s).

(** The [metadata] object literal built from a cache entry. *)
Definition metadata_of (c : InstructionData.t) : JsValue :=
  JObj [ ("id", JStr (InstructionData.id c));
         ("fileName", JStr (InstructionData.fileName c));
         ("createdAt", JStr (InstructionData.createdAt c));
         ("size", JInt (js_length (InstructionData.content c)));
         ("specialInstruction", InstructionData.specialInstruction c);
         ("isPMPA", InstructionData.isPMPA c);
         ("feedback", InstructionData.feedback c);
         ("inputData", InstructionData.inputData c);
         ("customPrompt", InstructionData.customPrompt c);
         ("content", JStr (InstructionData.content c)) ].

Inductive Loaded : Type :=
| Missing (response : Response)
| Found (cachedInstruction : option InstructionData.t) (metadata : JsValue) (content : string).

Definition failure (message : string) (code : Z) : Response :=
  json_status (JObj [("success", JBool false); ("error", JStr message)]) code.

Definition metaPath (w : World) (instructionId : JsValue) : string :=
  Path.join_paths [INSTRUCTIONS_DIR w; ToString instructionId +:+ ".meta.json"].

Definition load (w : World) (instructionId : JsValue) : M Loaded :=
  let! cachedInstruction := cache_get instructionId in
  match cachedInstruction with
  | Some c => ret (Found (Some c) (metadata_of c) (InstructionData.content c))
  | None =>
      let! found := fs.existsSync (metaPath w instructionId) in
      if negb found then ret (Missing (failure "Instruction not found" 404))
      else
        let! text := fs.readFileSync w (metaPath w instructionId) in
        let! metadata := JSON_parse_M w text in
        let contentPath :=
          Path.join_paths [INSTRUCTIONS_DIR w; ToString instructionId +:+ ".txt"] in
        let! found := fs.existsSync contentPath in
        if negb found then ret (Missing (failure "Instruction content not found" 404))
        else
          let! content := fs.readFileSync w contentPath in
          ret (Found None metadata content)
  end.

(** Writing the result back: into the cache for a cached instruction, into
    the metadata file (if it is still there) otherwise. *)
Definition store (w : World) (instructionId : JsValue)
    (cachedInstruction : option InstructionData.t)
    (updatedInstructionData : InstructionData.t -> InstructionData.t)
    (updatedMetadata : JsValue) : M unit :=
  match cachedInstruction with
  | Some c => InstructionsRoute.cache_set (ToString instructionId) (updatedInstructionData c)
  | None =>
      let! found := fs.existsSync (metaPath w instructionId) in
      if found then InstructionsRoute.write_json w (metaPath w instructionId) updatedMetadata
      else ret tt
  end.

Definition flash : string := "gemini-1.5-flash".

(** The [catch] block of both sub-actions. *)
Definition on_error (what : string) (error : Thrown) : M Response :=
  if message_includes error "API_KEY"
  then ret (failure "Gemini API authentication failed. Please check your API key." 401)
  else ret (failure ("Internal server error while generating " +:+ what) 500).

Definition key_missing : Response :=
  failure "Gemini API key not configured. Please set GEMINI_API_KEY environment variable." 500.

End Instructions.

Module FillPmpChecklistRoute.
Import Str Js Instructions.

Definition checklistPrompt (content : string) (customPrompt : JsValue) : string :=
"You are a PMP-A compliance expert analyzing project documentation. Based on the following instruction content, fill out the PMP-A compliance checklist.

INSTRUCTION CONTENT TO ANALYZE:
" +:+
content +:+
"

" +:+
(if truthy customPrompt then "CUSTOM ANALYSIS INSTRUCTIONS: " +:+ ToString customPrompt else EmptyString) +:+
"

PMP-A COMPLIANCE CHECKLIST TO FILL:

1. Change History - Is document control maintained? Eg. Ver No, reviewed and approved
2. Resource Tracker - Is this section contains updated Infrastructure Plan, Human Resource Plan, Training Plan?
3. ACD Tracker - Is Assumption, Constraint and Dependencies tracker maintained?
4. CI & Review Plan - Is all CI work products maintains there versions, location, baseline, approval? Is name of the artifact follow the naming convention as defined by the project in PMP?
5. Non CI & Records - Is all Non CI work products maintains there versions, location & Records? Is name of the artifact follow the naming convention as defined by the project in PMP?
6. Lesson Learnt, Improvements and Best Practices - Is details of Lesson Learnt articulated well and accepted? Is mentioned improvement logged into digite? Is best practices identified and applied in the project? Is Unique ID is given to each learning and best practice.
7. Requirement Provider - Is requirement providers details identify? Who will be giving details on requirements of the project.
8. Supplier - Is PM mention the Name of the supplier? Is PM mention the products being supplied by the supplier?

FOR EACH CHECKLIST ITEM, PROVIDE:
- Compliance Status: " +:+ dq +:+ "Yes" +:+ dq +:+ ", " +:+ dq +:+ "No" +:+ dq +:+ ", " +:+ dq +:+ "Partial" +:+ dq +:+ ", or " +:+ dq +:+ "Not Found" +:+ dq +:+ " (if the document doesn't contain relevant information)
- Remark: Specific details about what was found or missing, with references to the content

RESPOND IN THIS EXACT JSON FORMAT:
{
  " +:+ dq +:+ "checklist" +:+ dq +:+ ": [
    {
      " +:+ dq +:+ "srNo" +:+ dq +:+ ": 1,
      " +:+ dq +:+ "checklist" +:+ dq +:+ ": " +:+ dq +:+ "Change History - Is document control maintained? Eg. Ver No, reviewed and approved" +:+ dq +:+ ",
      " +:+ dq +:+ "compliance" +:+ dq +:+ ": " +:+ dq +:+ "Yes/No/Partial/Not Found" +:+ dq +:+ ",
      " +:+ dq +:+ "remark" +:+ dq +:+ ": " +:+ dq +:+ "Specific remark about what was found or missing" +:+ dq +:+ "
    },
    {
      " +:+ dq +:+ "srNo" +:+ dq +:+ ": 2,
      " +:+ dq +:+ "checklist" +:+ dq +:+ ": " +:+ dq +:+ "Resource Tracker - Is this section contains updated Infrastructure Plan, Human Resource Plan, Training Plan?" +:+ dq +:+ ",
      " +:+ dq +:+ "compliance" +:+ dq +:+ ": " +:+ dq +:+ "Yes/No/Partial/Not Found" +:+ dq +:+ ",
      " +:+ dq +:+ "remark" +:+ dq +:+ ": " +:+ dq +:+ "Specific remark about what was found or missing" +:+ dq +:+ "
    }
    // ... continue for all 8 items
  ]
}

IMPORTANT: 
- Be specific in your remarks - quote exact text from the content when possible
- If information is not found, clearly state " +:+ dq +:+ "Not mentioned in the provided document" +:+ dq +:+ "
- For partial compliance, explain what is present and what is missing
- Use professional, clear language suitable for project management documentation".

(** [Array.from({length: 8}, (_, i) => ({ srNo: i + 1, ... }))] *)
Definition fallback_item (i : nat) : JsValue :=
  JObj [ ("srNo", JInt (Z.of_nat i + 1));
         ("checklist", JStr ("Checklist item " +:+ string_of_Z (Z.of_nat i + 1)));
         ("compliance", JStr "Not Found");
         ("remark", JStr "AI analysis failed to parse response") ].

Definition fallback_checklist : JsValue := JArr (List.map fallback_item (seq 0 8)).

(** The parsing of the model's answer: [pmpChecklist] after the inner
    try/catch. *)
Definition parse_checklist (w : World) (aiResponse : string) : M JsValue :=
  try_catch
    (match match_braces aiResponse with
     | Some jsonMatch =>
         let! jsonResponse := JSON_parse_M w jsonMatch in
         let! checklist := prop jsonResponse "checklist" in
         ret (js_or checklist (JArr []))
     | None => ret (JArr [])
     end)
    (fun _ => ret fallback_checklist).

Definition POST (w : World) (request : JsonRequest) : M Response :=
  try_catch
    (let! body := await request in
     let! instructionId := prop body "instructionId" in
     if negb (truthy instructionId) then ret (failure "Instruction ID is required" 400)
     else if negb (env_truthy w "GEMINI_API_KEY") then ret key_missing
     else
       let! loaded := load w instructionId in
       match loaded with
       | Missing response => ret response
       | Found cachedInstruction metadata content =>
           let! customPrompt := prop metadata "customPrompt" in
           let! aiResponse :=
             await (generateContent w flash (checklistPrompt content customPrompt)) in
           if String.eqb aiResponse EmptyString
           then ret (failure "Failed to generate checklist analysis" 500)
           else
             let! pmpChecklist := parse_checklist w aiResponse in
             let updatedMetadata := spread_with metadata "pmpChecklist" pmpChecklist in
             store w instructionId cachedInstruction
               (fun c => InstructionData.with_pmpChecklist c pmpChecklist) updatedMetadata >>
             ret (json (JObj [ ("success", JBool true);
                               ("checklist", pmpChecklist);
                               ("instruction", updatedMetadata) ]))
       end)
    (on_error "checklist").

End FillPmpChecklistRoute.

Module GenerateFeedbackRoute.
Import Str Js Instructions.

(** [fileName.toLowerCase()]: only a string has the method. *)
Definition toLowerCase_of (v : JsValue) : M string :=
  match v with
  | JStr s => ret (toLowerCase s)
  | _ => throw (Err "fileName.toLowerCase is not a function")
  end.

Definition feedbackPrompt (instructionType : string) (fileName : JsValue)
    (isExcelFile isSpreadsheetData : bool) (isPMPA customPrompt inputData : JsValue)
    (content : string) : string :=
"You are an expert data analyst and project management consultant reviewing a " +:+
instructionType +:+
" instruction file.

FILE INFORMATION:
- File Name: " +:+
ToString fileName +:+
"
- Type: " +:+
(if isExcelFile then "Excel Spreadsheet" else "Text Document") +:+
"
- Contains PMP-A Data: " +:+
(if truthy isPMPA then "Yes" else "No") +:+
"

INSTRUCTION CONTENT:
" +:+
content +:+
"

" +:+
(if truthy customPrompt then "CUSTOM ANALYSIS INSTRUCTIONS: " +:+ ToString customPrompt else EmptyString) +:+
"

" +:+
(if truthy inputData && (0 <? Z.of_nat (List.length (own_entries inputData)))
 then "ADDITIONAL INPUT DATA:" +:+ nl +:+
      join nl (List.map (fun kv => fst kv +:+ ": " +:+ ToString (snd kv)) (own_entries inputData))
 else EmptyString) +:+
"

" +:+
(if isSpreadsheetData then "
SPECIAL INSTRUCTIONS FOR SPREADSHEET ANALYSIS:
Since this appears to involve Excel/spreadsheet data, provide specific recommendations for:
- Data validation techniques for spreadsheet columns
- Excel-specific validation tools and formulas
- How to handle multi-tab/sheet analysis
- Recommendations for data quality checks in spreadsheet format
" else EmptyString) +:+
"

Please provide comprehensive feedback covering:

1. **Content Analysis**: 
   - Clarity and completeness of the instructions
   - Specific gaps or ambiguities identified
   " +:+
(if isSpreadsheetData then "- Spreadsheet-specific data validation recommendations" else EmptyString) +:+
"

2. **Structure and Organization**: 
   - How well-organized and logical is the content?
   - Suggested improvements for better flow
   " +:+
(if isExcelFile then "- Recommendations for multi-sheet analysis approach" else EmptyString) +:+
"

3. **" +:+
(if truthy isPMPA then "PMP-A Standards Compliance" else "Best Practices Alignment") +:+
"**: 
   " +:+
(if truthy isPMPA then "- Alignment with PMP-A assessment criteria and standards" else "- Adherence to industry best practices for instruction writing") +:+
"
   - Areas where standards could be better addressed

4. **Actionability and Implementation**: 
   - How actionable and specific are the instructions?
   - Missing steps or procedures that should be included
   " +:+
(if isSpreadsheetData then "- Specific Excel tools and functions that could be utilized" else EmptyString) +:+
"

5. **Data Quality Recommendations** " +:+
(if isSpreadsheetData then "(Excel-Focused)" else EmptyString) +:+
":
   " +:+
(if isSpreadsheetData then "- Specific validation rules for Excel columns and data types
   - Cross-field validation strategies for related data
   - Automated validation approaches using Excel features
   - Data profiling and quality assessment techniques"
 else "- General data quality considerations and validation approaches") +:+
"

6. **Practical Implementation Steps**:
   - Concrete next steps for implementing these instructions
   - Tools and resources needed
   " +:+
(if isSpreadsheetData then "- Excel-specific implementation guidance" else EmptyString) +:+
"

PROVIDE SPECIFIC, ACTIONABLE RECOMMENDATIONS. If this involves Excel data analysis, be explicit about Excel functions, validation rules, and spreadsheet best practices. Format your response with clear sections and bullet points for easy implementation.".

Definition POST (w : World) (request : JsonRequest) : M Response :=
  try_catch
    (let! body := await request in
     let! instructionId := prop body "instructionId" in
     if negb (truthy instructionId) then ret (failure "Instruction ID is required" 400)
     else if negb (env_truthy w "GEMINI_API_KEY") then ret key_missing
     else
       let! loaded := load w instructionId in
       match loaded with
       | Missing response => ret response
       | Found cachedInstruction metadata content =>
           let! isPMPA := prop metadata "isPMPA" in
           let instructionType :=
             if truthy isPMPA then "PMP-A (Project Management Professional - Assessment)"
             else "general instruction" in
           let! fileName0 := prop metadata "fileName" in
           let fileName := js_or fileName0 (JStr "unknown") in
           let! lower := toLowerCase_of fileName in
           let isExcelFile := endsWith lower ".xlsx" || endsWith lower ".xls" in
           let isSpreadsheetData :=
             includes content "BDM_PMPA.xlsx" || includes content "PMP-A" || isExcelFile in
           let! customPrompt := prop metadata "customPrompt" in
           let! inputData := prop metadata "inputData" in
           let! generatedFeedback :=
             await (generateContent w flash
                      (feedbackPrompt instructionType fileName isExcelFile isSpreadsheetData
                         isPMPA customPrompt inputData content)) in
           if String.eqb generatedFeedback EmptyString
           then ret (failure "Failed to generate feedback" 500)
           else
             let updatedMetadata := spread_with metadata "feedback" (JStr generatedFeedback) in
             store w instructionId cachedInstruction
               (fun c => InstructionData.with_feedback c (JStr generatedFeedback))
               updatedMetadata >>
             ret (json (JObj [ ("success", JBool true);
                               ("feedback", JStr generatedFeedback);
                               ("instruction", updatedMetadata) ]))
       end)
    (on_error "feedback").

End GenerateFeedbackRoute.

(* ===================================================================== *)
(** ** app/api/status/route.ts *)
(* ===================================================================== *)

Module StatusRoute.
Import Str Js.

Definition recommendation (service message priority : string) : JsValue :=
  JObj [ ("service", JStr service); ("message", JStr message); ("priority", JStr priority) ].

Definition GET (w : World) : M Response :=
  try_catch
    (let hasGoogleDrive := UploadRoute.hasGoogleDrive w in
     let hasGemini := UploadRoute.hasGemini w in
     let hasSharedDrive := env_truthy w "GOOGLE_SHARED_DRIVE_ID" in
     let services :=
       JObj [
         ("localAnalysis",
          JObj [ ("available", JBool true);
                 ("status", JStr "ready");
                 ("description", JStr "Basic file analysis using local processing") ]);
         ("googleDrive",
          JObj [ ("available", JBool hasGoogleDrive);
                 ("status", JStr (if hasGoogleDrive
                                  then (if hasSharedDrive then "ready" else "needs-shared-drive")
                                  else "not-configured"));
                 ("description",
                  JStr (if hasGoogleDrive
                        then (if hasSharedDrive
                              then "Google Drive backup ready with shared drive"
                              else "Google Drive configured but needs shared drive ID")
                        else "Google Drive not configured")) ]);
         ("geminiAnalysis",
          JObj [ ("available", JBool hasGemini);
                 ("status", JStr (if hasGemini then "ready" else "not-configured"));
                 ("description",
                  JStr (if hasGemini then "AI-powered analysis available"
                        else "Gemini API not configured")) ]) ] in
     let recommendations :=
       (if negb hasGoogleDrive
        then [recommendation "googleDrive"
                "Configure Google Drive service account credentials for file backup" "medium"]
        else if negb hasSharedDrive
        then [recommendation "googleDrive"
                "Set GOOGLE_SHARED_DRIVE_ID to enable Google Drive uploads (service accounts require shared drives)"
                "high"]
        else []) ++
       (if negb hasGemini
        then [recommendation "gemini"
                "Configure GEMINI_API_KEY for AI-powered file analysis" "medium"]
        else []) in
     ret (json (JObj [ ("services", services); ("recommendations", JArr recommendations) ])))
    (fun _ => ret (json_status (JObj [("error", JStr "Failed to check service status")]) 500)).

End StatusRoute.

(* ===================================================================== *)
(** ** Deleting an instruction *)
(* ===================================================================== *)

Module DeleteRoute.
Import Str Js.

Definition contentPath (w : World) (instructionId : string) : string :=
  Path.join_paths [Instructions.INSTRUCTIONS_DIR w; instructionId +:+ ".txt"].

Definition metadataPath (w : World) (instructionId : string) : string :=
  Path.join_paths [Instructions.INSTRUCTIONS_DIR w; instructionId +:+ ".meta.json"].

(** An instruction is in the store when the in-process map has its id or
    one of its two files is on disk. *)
Definition present (w : World) (instructionId : string) (s : St) : bool :=
  bool_decide (is_Some (instructionsCache s !! instructionId))
  || bool_decide (is_Some (files s !! contentPath w instructionId))
  || bool_decide (is_Some (files s !! metadataPath w instructionId)).

Definition cache_delete (k : string) : M unit :=
  fun s => (Returns tt, with_cache (delete k (instructionsCache s)) s).

(** Best effort: a file that is absent or cannot be removed is left alone. *)
Definition remove_file (w : World) (p : string) : M unit :=
  try_catch (fs.unlinkSync w p) (fun _ => ret tt).

(** Modelled from the spec: the DELETE handler of the instructions route
    ([DELETE /api/instructions?id=...], called by [deleteInstruction] of the
    instructions page) is missing from the sources.  The spec says that an
    instruction is deleted explicitly by the user, that the record lives in
    an in-process keyed map and, best effort, in paired content and metadata
    files on disk, that a missing id is a hard input error rejected with a
    client error status, and that deleting an id that does not exist returns
    a not-found indication and leaves the existing store unmodified.  The
    page reads [success] and [error] from the answer. *)
Definition DELETE (w : World) (id : option string) : M Response :=
  match id with
  | None => ret (Instructions.failure "Instruction ID is required" 400)
  | Some instructionId =>
      let! s := get_state in
      if present w instructionId s then
        cache_delete instructionId >>
        remove_file w (contentPath w instructionId) >>
        remove_file w (metadataPath w instructionId) >>
        ret (json (JObj [("success", JBool true)]))
      else ret (Instructions.failure "Instruction not found" 404)
  end.

End DeleteRoute.

(* ===================================================================== *)
(** ** Notions used to state the properties *)
(* ===================================================================== *)

Import Utf8 Js Str.

(** A computation that leaves the state as it found it. *)
Definition read_only {A} (m : M A) : Prop := forall s, snd (m s) = s.

(** The analysis payloads: an object with a [feedback] string and a boolean
    [success]. *)
Definition has_feedback (v : JsValue) : Prop :=
  exists text, get_prop v "feedback" = Some (JStr text).

Definition has_flag (v : JsValue) : Prop :=
  exists b, get_prop v "success" = Some (JBool b).

(** The state a handler starts from: [let tempFilePath = null]. *)
Definition start (s : St) : St :=
  {| files := files s; dirs := dirs s; instructionsCache := instructionsCache s;
     tempFilePath := None |}.

(** Step 1 of the chain: the temp directory is there and the transient file
    is written. *)
Definition staging (w : World) (name data : string) : M string :=
  UploadRoute.ensure_tempDir w >> UploadRoute.save_temporarily w name data.

Definition upload_failed (error : Thrown) : Response :=
  json_status (JObj [ ("error", JStr "Failed to process file upload");
                      ("details", JStr (message_or error "Unknown error")) ]) 500.

(** Concrete worlds. *)
Definition quiet_world : World :=
  {| env := ∅;
     cwd := "/app";
     Date_now := 1700000000000;
     Date_iso := "2023-11-14T22:13:20.000Z";
     fs_fault := fun _ => None;
     syntax_error := fun _ => "Unexpected token in JSON";
     drive_files_create := fun _ => Throws (Err "network unreachable");
     drive_permissions_create := fun _ _ => Returns tt;
     generateContent := fun _ _ => Throws (Err "network unreachable") |}.

Definition with_env (e : gmap string string) (w : World) : World :=
  {| env := e; cwd := cwd w; Date_now := Date_now w; Date_iso := Date_iso w;
     fs_fault := fs_fault w; syntax_error := syntax_error w;
     drive_files_create := drive_files_create w;
     drive_permissions_create := drive_permissions_create w;
     generateContent := generateContent w |}.

Definition with_fault (f : FsCall -> option string) (w : World) : World :=
  {| env := env w; cwd := cwd w; Date_now := Date_now w; Date_iso := Date_iso w;
     fs_fault := f; syntax_error := syntax_error w;
     drive_files_create := drive_files_create w;
     drive_permissions_create := drive_permissions_create w;
     generateContent := generateContent w |}.

Definition with_drive (id : Outcome JsValue) (w : World) : World :=
  {| env := env w; cwd := cwd w; Date_now := Date_now w; Date_iso := Date_iso w;
     fs_fault := fs_fault w; syntax_error := syntax_error w;
     drive_files_create := fun _ => id;
     drive_permissions_create := drive_permissions_create w;
     generateContent := generateContent w |}.

Definition with_model (answer : Outcome string) (w : World) : World :=
  {| env := env w; cwd := cwd w; Date_now := Date_now w; Date_iso := Date_iso w;
     fs_fault := fs_fault w; syntax_error := syntax_error w;
     drive_files_create := drive_files_create w;
     drive_permissions_create := drive_permissions_create w;
     generateContent := fun _ _ => answer |}.

Definition drive_credentials : gmap string string :=
  <[ "GOOGLE_PROJECT_ID" := "project" ]>
    (<[ "GOOGLE_PRIVATE_KEY" := "key" ]>
       (<[ "GOOGLE_SERVICE_ACCOUNT_EMAIL" := "bot@example.com" ]> ∅)).

Definition all_credentials : gmap string string :=
  <[ "GEMINI_API_KEY" := "secret" ]> drive_credentials.

(** A disk that cannot be written, as the working directory of a serverless
    deployment. *)
Definition read_only_disk : World :=
  with_fault (fun c => match c with
                       | mkdir _ | write _ => Some "EROFS: read-only file system"
                       | _ => None
                       end) quiet_world.

(** A disk on which a file cannot be removed. *)
Definition busy_disk : World :=
  with_fault (fun c => match c with
                       | unlink _ => Some "EBUSY: resource busy or locked"
                       | _ => None
                       end) quiet_world.

Definition drive_only : World :=
  with_drive (Returns (JStr "1AbC")) (with_env drive_credentials quiet_world).

Definition all_services : World :=
  with_model (Returns "The sheet has three tabs.")
    (with_drive (Returns (JStr "1AbC")) (with_env all_credentials quiet_world)).

Definition empty_state : St :=
  {| files := ∅; dirs := ∅; instructionsCache := ∅; tempFilePath := None |}.

Definition report : list (string * FormValue) := [("file", Upload "report.txt" "a,b")].

(** The response of a request on which both remote services succeeded: a
    function of the file, the Drive result and the model's result only. *)
Definition superseded_response (name data : string) (up ai : JsValue) : Response :=
  json (JObj [
    ("success", JBool true);
    ("file", JObj [ ("name", JStr name);
                    ("size", JInt (Z.of_nat (String.length data)));
                    ("fileId", js_or (get_opt up "fileId") JNull);
                    ("publicUrl", js_or (get_opt up "publicUrl") JNull);
                    ("directUrl", js_or (get_opt up "directUrl") JNull) ]);
    ("analysis", ai);
    ("serviceStatus", JObj [ ("localAnalysis", JBool true);
                             ("googleDrive", JStr "success");
                             ("geminiAnalysis", JStr "success") ]);
    ("message", JStr "File uploaded to Google Drive and analyzed with AI successfully!") ]).

(** A file name ends, whatever the case of its letters, in one of the text
    extensions. *)
Definition has_text_extension (name : string) : Prop :=
  exists stem suffix,
    name = stem +:+ suffix /\ In (toLowerCase suffix) InstructionsRoute.textExtensions.

(** A computation that touches nothing but the disk. *)
Definition disk_only {A} (m : M A) : Prop :=
  forall s, instructionsCache (snd (m s)) = instructionsCache s
            /\ tempFilePath (snd (m s)) = tempFilePath s.

Definition notes : list (string * FormValue) := [("instruction", Upload "Notes.TXT" "be brief")].

(** The checklist read from the model's answer, as a function of the answer
    alone. *)
Definition checklist_of (answer : string) : JsValue :=
  match match_braces answer with
  | None => JArr []
  | Some jsonMatch =>
      match Js.JSON_parse jsonMatch with
      | None => FillPmpChecklistRoute.fallback_checklist
      | Some jsonResponse =>
          match get_prop jsonResponse "checklist" with
          | Some checklist => js_or checklist (JArr [])
          | None => FillPmpChecklistRoute.fallback_checklist
          end
      end
  end.

(** The response of a successful checklist generation. *)
Definition checklist_response (metadata pmpChecklist : JsValue) : Response :=
  json (JObj [ ("success", JBool true);
               ("checklist", pmpChecklist);
               ("instruction", spread_with metadata "pmpChecklist" pmpChecklist) ]).

Definition request_for (instructionId : string) : JsValue :=
  JObj [("instructionId", JStr instructionId)].

(** A list of exactly eight items. *)
Definition eight_items (v : JsValue) : Prop :=
  exists items, v = JArr items /\ List.length items = 8%nat.

(** A cached instruction that already has a checklist (the eight fallback
    rows). *)
Definition plan : InstructionData.t :=
  InstructionData.with_pmpChecklist
    (InstructionsRoute.instructionData quiet_world "instruction_1700000000000" "plan.txt"
       "Version 3, approved by the board." JNull)
    FillPmpChecklistRoute.fallback_checklist.

Definition plan_cached : St :=
  {| files := ∅; dirs := ∅;
     instructionsCache := <[ "instruction_1700000000000" := plan ]> ∅;
     tempFilePath := None |}.

Definition answering (answer : string) : World :=
  with_model (Returns answer) (with_env all_credentials quiet_world).

(** An answer with a single row. *)
Definition one_row : string :=
  "Here you go: {" +:+ dq +:+ "checklist" +:+ dq +:+ ": [{" +:+ dq +:+ "srNo" +:+ dq +:+
  ": 1, " +:+ dq +:+ "compliance" +:+ dq +:+ ": " +:+ dq +:+ "Yes" +:+ dq +:+ "}]}".

(* ===================================================================== *)
(** ** Notions of the further properties *)
(* ===================================================================== *)

(** Every character of a string passes a test. *)
Fixpoint all_chars (P : ascii -> bool) (s : string) : bool :=
  match s with
  | EmptyString => true
  | String c r => P c && all_chars P r
  end.

(** The class [[a-zA-Z0-9.-]] of the upload route, and the underscore that
    stands in for everything else. *)
Definition in_safe_class (c : ascii) : bool :=
  UploadRoute.is_safe_char c || (code c =? 95)%N.

(** A computation that neither reads nor writes the instruction cache: run
    with any other cache it gives the same result and the same disk. *)
Definition cache_blind {A} (m : M A) : Prop :=
  forall s c, m (with_cache c s) = (fst (m s), with_cache c (snd (m s))).

(** The values the upload response can report for the storage step. *)
Definition drive_statuses : list string :=
  [ "success";
    "Google Drive not configured";
    "Service account requires shared drive or OAuth delegation";
    "Failed to upload file to Google Drive" ].

(** The values the upload response can report for the inference step. *)
Definition gemini_statuses : list string :=
  [ "success";
    "Gemini API not configured";
    "No file URL available for AI analysis";
    "Gemini API rate limit exceeded. Please try again in a few minutes.";
    "Gemini API key not configured or invalid";
    "Failed to analyze file with instruction" ].

(** What [uploadFile] returns when the file was created. *)
Definition drive_success (fileId : JsValue) : JsValue :=
  JObj [ ("fileId", fileId);
         ("publicUrl", JStr ("https://drive.google.com/file/d/" +:+ ToString fileId +:+
                             "/view?usp=sharing"));
         ("directUrl", JStr ("https://drive.google.com/uc?id=" +:+ ToString fileId +:+
                             "&export=download"));
         ("success", JBool true) ].

(** What it returns for a service account without storage quota. *)
Definition drive_no_quota : JsValue :=
  JObj [ ("fileId", JNull); ("publicUrl", JNull); ("directUrl", JNull);
         ("success", JBool false);
         ("error", JStr "Service account requires shared drive or OAuth delegation") ].

(** A Drive that answers every creation without a file id. *)
Definition drive_without_id : World :=
  with_drive (Returns JUndefined) (with_env drive_credentials quiet_world).

(** A handler body that changes the state only on the way to a 200 answer. *)
Definition guarded (m : M Response) : Prop :=
  forall s, match m s with
            | (Returns r, s') => status r = 200 \/ s' = s
            | (Throws _, s') => s' = s
            end.

(** The prompt the generate-feedback route builds for a cached instruction. *)
Definition feedback_prompt_of (c : InstructionData.t) : string :=
  let isPMPA := InstructionData.isPMPA c in
  let fileName := js_or (JStr (InstructionData.fileName c)) (JStr "unknown") in
  let lower := toLowerCase (ToString fileName) in
  let isExcelFile := endsWith lower ".xlsx" || endsWith lower ".xls" in
  let content := InstructionData.content c in
  let isSpreadsheetData :=
    includes content "BDM_PMPA.xlsx" || includes content "PMP-A" || isExcelFile in
  GenerateFeedbackRoute.feedbackPrompt
    (if truthy isPMPA then "PMP-A (Project Management Professional - Assessment)"
     else "general instruction")
    fileName isExcelFile isSpreadsheetData isPMPA (InstructionData.customPrompt c)
    (InstructionData.inputData c) content.

(** The response of a successful feedback generation. *)
Definition feedback_response (metadata : JsValue) (text : string) : Response :=
  json (JObj [ ("success", JBool true);
               ("feedback", JStr text);
               ("instruction", spread_with metadata "feedback" (JStr text)) ]).

(** A model that answers every prompt with the same outcome. *)
Definition constant_model (answer : Outcome string) : World :=
  with_model answer (with_env all_credentials quiet_world).

(** A model that tells feedback requests from checklist requests. *)
Definition two_answers (feedbackPrompt feedback checklist : string) : World :=
  {| env := all_credentials;
     cwd := cwd quiet_world;
     Date_now := Date_now quiet_world;
     Date_iso := Date_iso quiet_world;
     fs_fault := fs_fault quiet_world;
     syntax_error := syntax_error quiet_world;
     drive_files_create := drive_files_create quiet_world;
     drive_permissions_create := drive_permissions_create quiet_world;
     generateContent := fun _ prompt =>
       Returns (if String.eqb prompt feedbackPrompt then feedback else checklist) |}.

Definition empty_form : list (string * FormValue) := [].

(** A second instruction file. *)
Definition rules : list (string * FormValue) :=
  [("instruction", Upload "rules.md" "# Rules")].

(** The response a handler gave, for a run that is known to have answered. *)
Definition answer_of (run : Outcome Response * St) : Response :=
  match fst run with
  | Returns r => r
  | Throws _ => json JNull
  end.

(** The character with code [n] does not occur in [s]. *)
Definition no_char (n : N) (s : string) : bool :=
  all_chars (fun c => negb (code c =? n)%N) s.

Definition open_brace : string := String (chr 123) EmptyString.
Definition close_brace : string := String (chr 125) EmptyString.

(** A disk that fills up: the metadata files can no longer be written. *)
Definition full_disk : World :=
  with_fault (fun c => match c with
                       | write p => if endsWith p ".json"
                                    then Some "ENOSPC: no space left on device" else None
                       | _ => None
                       end) quiet_world.

(** A disk on which nothing can be read. *)
Definition unreadable_disk : World :=
  with_fault (fun c => match c with
                       | read _ => Some "EACCES: permission denied"
                       | _ => None
                       end) quiet_world.

Definition report_with_instruction : list (string * FormValue) :=
  [("file", Upload "report.txt" "a,b"); ("instructionFileId", Text "instruction_7")].

(** A disk that holds one file. *)
Definition one_file (p data : string) : St :=
  {| files := <[ p := {| bytes := data; mtime := "2023-11-14T22:13:20.000Z" |} ]> ∅;
     dirs := ∅; instructionsCache := ∅; tempFilePath := None |}.

(** The three errors a method of the Gemini service can throw. *)
Definition gemini_errors (fallback : string) : list Thrown :=
  [ Err "Gemini API rate limit exceeded. Please try again in a few minutes.";
    Err "Gemini API key not configured or invalid";
    Err fallback ].

(** The test of the rate-limit branch. *)
Definition looks_rate_limited (message : string) : bool :=
  includes message "429" || includes message "Too Many Requests" || includes message "quota".

(** A path segment that [path.join] keeps as it is: not empty, not [.], not
    [..], and without a slash. *)
Definition normal_segment (seg : string) : bool :=
  negb (String.eqb seg EmptyString) && negb (String.eqb seg ".")
  && negb (String.eqb seg "..") && no_char 47 seg.

(** The segments of a normalized path, last one first: normal segments on
    top of the [..] that lead out of a relative path. *)
Definition stack_ok (allowAboveRoot : bool) (stack : list string) : Prop :=
  exists k normals,
    stack = normals ++ repeat ".." k
    /\ Forall (fun seg => normal_segment seg = true) normals
    /\ (k <> O -> allowAboveRoot = true).

(** [path.isAbsolute] *)
Definition first_is_slash (p : string) : bool :=
  match p with
  | String c _ => Path.is_slash c
  | EmptyString => false
  end.

Definition root (isAbsolute : bool) : string :=
  if isAbsolute then "/" else EmptyString.

(** A path as [path.normalize] writes it, other than [/], [.] and [./], and
    without a trailing slash. *)
Definition normalized (p : string) : Prop :=
  exists (isAbsolute : bool) stack,
    p = root isAbsolute +:+ Str.join "/" (rev stack)
    /\ stack <> []
    /\ stack_ok (negb isAbsolute) stack.

(** The file name under which an upload is staged. *)
Definition staged_name (w : World) (name : string) : string :=
  string_of_Z (Date_now w) +:+ "_" +:+ UploadRoute.safe_name name.

(** A pending sequence of the decoder can only be completed to well-formed
    UTF-8: [n] more bytes are needed, the next one between [lo] and [hi]. *)
Definition completed (seen : string) (lo hi : N) : Prop :=
  forall c tail, (lo <= code c <= hi)%N -> well_formed tail = true ->
                 well_formed (seen +:+ String c tail) = true.

Fixpoint completes (n : nat) (seen : string) (lo hi : N) : Prop :=
  match n with
  | O => completed seen lo hi
  | S m =>
      match m with
      | O => completed seen lo hi
      | S _ =>
          forall c, (lo <= code c <= hi)%N ->
                    completes m (seen +:+ String c EmptyString) 128 191
      end
  end.

Definition pending_ok (st : option Pending) : Prop :=
  match st with
  | None => True
  | Some u => completes (needed u) (seen u) (lo u) (hi u)
  end.

(** A text instruction that is not valid UTF-8: the Latin-1 bytes of a word
    with an accented letter. *)
Definition latin1_note : list (string * FormValue) :=
  [("instruction", Upload "note.txt" ("caf" +:+ String (ascii_of_N 233) EmptyString))].

(* ===================================================================== *)
(** ** Notions of the claims on whole requests *)
(* ===================================================================== *)

(** Two records that agree on every field but the feedback and the
    checklist. *)
Definition same_elsewhere (c d : InstructionData.t) : Prop :=
  InstructionData.id d = InstructionData.id c
  /\ InstructionData.fileName d = InstructionData.fileName c
  /\ InstructionData.content d = InstructionData.content c
  /\ InstructionData.publicUrl d = InstructionData.publicUrl c
  /\ InstructionData.directUrl d = InstructionData.directUrl c
  /\ InstructionData.fileId d = InstructionData.fileId c
  /\ InstructionData.createdAt d = InstructionData.createdAt c
  /\ InstructionData.hasGoogleDriveBackup d = InstructionData.hasGoogleDriveBackup c
  /\ InstructionData.specialInstruction d = InstructionData.specialInstruction c
  /\ InstructionData.isPMPA d = InstructionData.isPMPA c
  /\ InstructionData.inputData d = InstructionData.inputData c
  /\ InstructionData.customPrompt d = InstructionData.customPrompt c.

(** Two records that agree on every field but the checklist. *)
Definition same_but_checklist (c d : InstructionData.t) : Prop :=
  same_elsewhere c d /\ InstructionData.feedback d = InstructionData.feedback c.

(** An instruction kept on disk only: its metadata file parses to
    [metadata], its content file holds [body_file], and both can be read. *)
Definition on_disk_only (w : World) (instructionId : string) (s : St)
    (metadata : JsValue) (body_file : File) : Prop :=
  instructionsCache s !! instructionId = None
  /\ (exists meta,
        files s !! Instructions.metaPath w (JStr instructionId) = Some meta
        /\ Js.JSON_parse (Utf8.Buffer_toString (bytes meta)) = Some metadata)
  /\ fs_fault w (read (Instructions.metaPath w (JStr instructionId))) = None
  /\ files s !! Path.join_paths [Instructions.INSTRUCTIONS_DIR w; instructionId +:+ ".txt"]
     = Some body_file
  /\ fs_fault w (read (Path.join_paths [Instructions.INSTRUCTIONS_DIR w;
                                        instructionId +:+ ".txt"])) = None.

(** An instruction on disk, with a checklist in its metadata. *)
Definition plan_on_disk : St :=
  {| files :=
       <[ "/app/instructions/instruction_7.meta.json" :=
            {| bytes := "{" +:+ dq +:+ "fileName" +:+ dq +:+ ": " +:+ dq +:+ "plan.txt" +:+ dq
                        +:+ ", " +:+ dq +:+ "pmpChecklist" +:+ dq +:+ ": [1, 2, 3]}";
               mtime := "2023-11-14T22:13:20.000Z" |} ]>
         (<[ "/app/instructions/instruction_7.txt" :=
               {| bytes := "Version 3, approved by the board.";
                  mtime := "2023-11-14T22:13:20.000Z" |} ]> ∅);
     dirs := {[ "/app/instructions" ]};
     instructionsCache := ∅;
     tempFilePath := None |}.


(** The path of the transient file of an upload, and of an instruction. *)
Definition upload_temp_path (w : World) (name : string) : string :=
  Path.join_paths [UploadRoute.tempDir w;
                   string_of_Z (Date_now w) +:+ "_" +:+ UploadRoute.safe_name name].

Definition instruction_temp_path (w : World) : string :=
  Path.join_paths ["/tmp"; InstructionsRoute.instructionId w +:+ ".txt"].

(** The text kept for an instruction file: for a text extension the decoded
    bytes, which are well-formed UTF-8 and are the uploaded bytes exactly
    when those were well-formed; the placeholder otherwise. *)
Definition content_as_stored (name bytes content : string) : Prop :=
  (has_text_extension name ->
     content = Utf8.Buffer_toString bytes
     /\ Utf8.well_formed content = true
     /\ (content = bytes <-> Utf8.well_formed bytes = true))
  /\ (~ has_text_extension name ->
        content = "[Binary file: " +:+ name +:+
                  "] - Content will be processed by AI when analyzing files.").

(** What a sub-action that fails can have touched at most: nothing but the
    metadata file of an instruction. *)
Definition untouched_but_metadata (w : World) (s s' : St) : Prop :=
  instructionsCache s' = instructionsCache s
  /\ dirs s' = dirs s
  /\ tempFilePath s' = tempFilePath s
  /\ forall p, (forall instructionId, p <> Instructions.metaPath w instructionId) ->
               files s' !! p = files s !! p.

(** A platform for the examples: an empty directory listing, the cache in
    key order, dates shown as they are written. *)
Definition plain_platform : Platform :=
  {| Map_values := fun m => (map_to_list m).*2;
     readdirSync := fun _ _ => Returns [];
     birthtime := fun _ _ => JNull;
     new_Date := JStr;
     substring_0_200 := fun content => content;
     sort_by_createdAt := fun items => items |}.

(* ===================================================================== *)
(** ** Properties *)
(* ===================================================================== *)

Section MonadLaws.
Context {A B : Type}.

Lemma bind_returns (m : M A) (k : A -> M B) s a s' :
  m s = (Returns a, s') -> bind m k s = k a s'.
Proof. intros H. unfold bind. now rewrite H. Qed.

Lemma bind_throws (m : M A) (k : A -> M B) s e s' :
  m s = (Throws e, s') -> bind m k s = (Throws e, s').
Proof. intros H. unfold bind. now rewrite H. Qed.

Lemma try_catch_returns (m : M A) (h : Thrown -> M A) s a s' :
  m s = (Returns a, s') -> try_catch m h s = (Returns a, s').
Proof. intros H. unfold try_catch. now rewrite H. Qed.

Lemma try_catch_throws (m : M A) (h : Thrown -> M A) s e s' :
  m s = (Throws e, s') -> try_catch m h s = h e s'.
Proof. intros H. unfold try_catch. now rewrite H. Qed.

Lemma read_only_bind (m : M A) (k : A -> M B) :
  read_only m -> (forall a, read_only (k a)) -> read_only (bind m k).
Proof.
  intros Hm Hk s. unfold bind. specialize (Hm s).
  destruct (m s) as [[a|e] s']; simpl in *; subst; [apply Hk | reflexivity].
Qed.

Lemma read_only_try_catch (m : M A) (h : Thrown -> M A) :
  read_only m -> (forall e, read_only (h e)) -> read_only (try_catch m h).
Proof.
  intros Hm Hh s. unfold try_catch. specialize (Hm s).
  destruct (m s) as [[a|e] s']; simpl in *; subst; [reflexivity | apply Hh].
Qed.

Lemma read_only_ret (a : A) : read_only (ret a).
Proof. intros s. reflexivity. Qed.

Lemma read_only_throw e : read_only (@throw A e).
Proof. intros s. reflexivity. Qed.

Lemma read_only_await (o : Outcome A) : read_only (await o).
Proof. intros s. reflexivity. Qed.

Lemma read_only_if (b : bool) (m1 m2 : M A) :
  read_only m1 -> read_only m2 -> read_only (if b then m1 else m2).
Proof. now destruct b. Qed.

End MonadLaws.

Lemma read_only_get_state : read_only get_state.
Proof. intros s. reflexivity. Qed.

Lemma read_only_existsSync p : read_only (fs.existsSync p).
Proof. intros s. reflexivity. Qed.

Lemma read_only_readFileSync w p : read_only (fs.readFileSync w p).
Proof.
  intros s. unfold fs.readFileSync.
  destruct (fs_fault w (read p)); [reflexivity|]. now destruct (files s !! p).
Qed.

Lemma read_only_statSync w p : read_only (fs.statSync w p).
Proof.
  intros s. unfold fs.statSync.
  destruct (fs_fault w (stat p)); [reflexivity|].
  destruct (files s !! p); [reflexivity|]. now destruct (bool_decide _).
Qed.

Lemma read_only_prop v k : read_only (prop v k).
Proof. unfold prop. destruct (Js.get_prop v k); [apply read_only_ret | apply read_only_throw]. Qed.

Lemma read_only_JSON_parse_M w t : read_only (JSON_parse_M w t).
Proof. unfold JSON_parse_M. destruct (Js.JSON_parse t); [apply read_only_ret | apply read_only_throw]. Qed.

Create HintDb ro discriminated.
#[export] Hint Resolve read_only_ret read_only_throw read_only_await read_only_get_state
  read_only_existsSync read_only_readFileSync read_only_statSync read_only_prop
  read_only_JSON_parse_M : ro.

Ltac ro :=
  repeat first
    [ progress auto with ro
    | apply read_only_bind; [| intros ?]
    | apply read_only_try_catch; [| intros ?]
    | apply read_only_if
    | match goal with
      | |- read_only (match ?x with _ => _ end) => destruct x
      | |- read_only (let _ := _ in _) => cbv zeta
      end ].

Lemma read_only_analyzeFile w p n u : read_only (LocalAnalyzer.analyzeFile w p n u).
Proof. unfold LocalAnalyzer.analyzeFile. ro. Qed.

Lemma read_only_uploadFile w p n t : read_only (GoogleDriveService.uploadFile w p n t).
Proof. unfold GoogleDriveService.uploadFile. ro. Qed.

Lemma read_only_new w : read_only (GeminiService.new w).
Proof. unfold GeminiService.new. ro. Qed.

Lemma read_only_analyzeFileWithInstruction w a b :
  read_only (GeminiService.analyzeFileWithInstruction w a b).
Proof. unfold GeminiService.analyzeFileWithInstruction. ro. Qed.

#[export] Hint Resolve read_only_analyzeFile read_only_uploadFile read_only_new
  read_only_analyzeFileWithInstruction : ro.

Lemma read_only_instruction_url w i : read_only (UploadRoute.instruction_url w i).
Proof. unfold UploadRoute.instruction_url. ro. Qed.

Lemma read_only_drive_step w p n : read_only (UploadRoute.drive_step w p n).
Proof. unfold UploadRoute.drive_step. ro. Qed.

Lemma read_only_gemini_step w a u i : read_only (UploadRoute.gemini_step w a u i).
Proof. unfold UploadRoute.gemini_step. ro. Qed.

#[export] Hint Resolve read_only_instruction_url read_only_drive_step read_only_gemini_step : ro.

Lemma read_only_analyse w p n b i : read_only (UploadRoute.analyse w p n b i).
Proof. unfold UploadRoute.analyse. ro. Qed.

Lemma run_read_only {A} (m : M A) s :
  read_only m -> m s = (fst (m s), s).
Proof. intros H. specialize (H s). destruct (m s); simpl in *; now subst. Qed.

Lemma returns_read_only {A} (m : M A) s a s' :
  read_only m -> m s = (Returns a, s') -> s' = s.
Proof. intros H E. specialize (H s). rewrite E in H. exact H. Qed.

(** *** The local analyzer never fails *)

Lemma analyzeFile_returns w p n u s :
  exists v, LocalAnalyzer.analyzeFile w p n u s = (Returns v, s)
            /\ has_feedback v /\ has_flag v.
Proof.
  unfold LocalAnalyzer.analyzeFile, try_catch.
  match goal with |- context [match ?body s with _ => _ end] =>
    assert (Hro : read_only body) by ro;
    destruct (body s) as [[v|e] s'] eqn:E
  end.
  - pose proof (returns_read_only _ _ _ _ Hro E) as ->.
    exists v. split; [reflexivity|].
    unfold bind in E.
    destruct (fs.statSync w p s) as [[st|?] ?]; [|discriminate].
    match type of E with context [match ?c ?x with _ => _ end] =>
      destruct (c x) as [[t|?] ?]; [|discriminate] end.
    injection E as <- _. split; [eexists | exists true]; reflexivity.
  - eexists. split.
    + unfold ret. f_equal. symmetry.
      assert (H := Hro s). now rewrite E in H.
    + split; [eexists | exists false]; reflexivity.
Qed.

(** *** The Drive step *)

Lemma uploadFile_shape w p n t s up s' :
  GoogleDriveService.uploadFile w p n t s = (Returns up, s') ->
  s' = s /\
  ((exists fileId,
      up = JObj [ ("fileId", fileId);
                  ("publicUrl", JStr ("https://drive.google.com/file/d/" +:+ ToString fileId +:+ "/view?usp=sharing"));
                  ("directUrl", JStr ("https://drive.google.com/uc?id=" +:+ ToString fileId +:+ "&export=download"));
                  ("success", JBool true) ])
   \/ up = JObj [ ("fileId", JNull); ("publicUrl", JNull); ("directUrl", JNull);
                  ("success", JBool false);
                  ("error", JStr "Service account requires shared drive or OAuth delegation") ]).
Proof.
  intros E. split; [eapply returns_read_only; [apply read_only_uploadFile | exact E]|].
  unfold GoogleDriveService.uploadFile, try_catch in E.
  match type of E with context [match ?body s with _ => _ end] =>
    destruct (body s) as [[v|e] s1] eqn:B end.
  - injection E as <- <-. left.
    unfold bind, get_state, await in B. cbv zeta in B.
    destruct (drive_files_create w _) as [fileId|?]; [|discriminate].
    exists fileId.
    destruct (truthy fileId).
    + destruct (drive_permissions_create w fileId _); [|discriminate].
      now injection B as <- _.
    + now injection B as <- _.
  - destruct (message_includes e _); [|discriminate].
    injection E as <- _. now right.
Qed.

Lemma drive_step_returns w p n s :
  exists up err, UploadRoute.drive_step w p n s = (Returns (up, err), s).
Proof.
  assert (Hro := read_only_drive_step w p n).
  rewrite (run_read_only _ s Hro).
  unfold UploadRoute.drive_step.
  destruct (UploadRoute.hasGoogleDrive w); [|now eexists _, _].
  unfold try_catch, bind.
  destruct (GoogleDriveService.uploadFile w p n None s) as [[up|e] s1]; simpl.
  - destruct (truthy _); now eexists _, _.
  - now eexists _, _.
Qed.

Lemma drive_step_unconfigured w p n s :
  UploadRoute.hasGoogleDrive w = false ->
  UploadRoute.drive_step w p n s = (Returns (JNull, JStr "Google Drive not configured"), s).
Proof. intros H. unfold UploadRoute.drive_step. now rewrite H. Qed.

Lemma drive_step_success w p n s up :
  UploadRoute.hasGoogleDrive w = true ->
  fst (GoogleDriveService.uploadFile w p n None s) = Returns up ->
  truthy (get_opt up "success") = true ->
  UploadRoute.drive_step w p n s = (Returns (up, JNull), s)
  /\ exists url, get_opt up "directUrl" = JStr url /\ truthy (JStr url) = true.
Proof.
  intros Hd Hu Hs.
  rewrite (run_read_only _ s (read_only_uploadFile w p n None)) in Hu. simpl in Hu.
  assert (E : GoogleDriveService.uploadFile w p n None s = (Returns up, s)).
  { rewrite (run_read_only _ s (read_only_uploadFile w p n None)). now rewrite Hu. }
  destruct (uploadFile_shape _ _ _ _ _ _ _ E) as [_ [[fileId ->] | ->]]; [|discriminate].
  split.
  - unfold UploadRoute.drive_step. rewrite Hd. unfold try_catch, bind. now rewrite E.
  - eexists. split; reflexivity.
Qed.

(** *** The Gemini step *)

Lemma analyzeFileWithInstruction_shape w a b s ai s' :
  GeminiService.analyzeFileWithInstruction w a b s = (Returns ai, s') ->
  s' = s /\ exists text,
    ai = JObj [ ("success", JBool true); ("feedback", JStr text);
                ("timestamp", JStr (Date_iso w)) ].
Proof.
  intros E. split;
    [eapply returns_read_only; [apply read_only_analyzeFileWithInstruction | exact E]|].
  unfold GeminiService.analyzeFileWithInstruction, try_catch, bind, await in E.
  cbv zeta in E.
  destruct (generateContent w _ _) as [text|e].
  - injection E as <- _. now exists text.
  - repeat match type of E with context [if ?c then _ else _] => destruct c end;
      discriminate.
Qed.

Lemma gemini_step_returns w local up url s :
  exists a ai err,
    UploadRoute.gemini_step w local up url s = (Returns (a, ai, err), s)
    /\ (a = local \/
        exists text, a = JObj [ ("success", JBool true); ("feedback", JStr text);
                                ("timestamp", JStr (Date_iso w)) ]).
Proof.
  assert (Hro := read_only_gemini_step w local up url).
  rewrite (run_read_only _ s Hro).
  unfold UploadRoute.gemini_step.
  destruct (UploadRoute.hasGemini w && truthy up && truthy (get_opt up "directUrl")).
  - unfold try_catch, bind.
    destruct (GeminiService.new w s) as [[[]|e] s1]; simpl; [|eexists _, _, _; split; [reflexivity|now left]].
    destruct (GeminiService.analyzeFileWithInstruction w _ url s1) as [[ai|e] s2] eqn:E; simpl.
    + destruct (analyzeFileWithInstruction_shape _ _ _ _ _ _ E) as [_ [text ->]].
      simpl. eexists _, _, _. split; [reflexivity|]. right. now exists text.
    + eexists _, _, _. split; [reflexivity|now left].
  - destruct (negb (UploadRoute.hasGemini w)); [eexists _, _, _; split; [reflexivity|now left]|].
    destruct (negb (truthy up)); eexists _, _, _; (split; [reflexivity|now left]).
Qed.

Lemma gemini_step_unconfigured w local up url s :
  UploadRoute.hasGemini w = false ->
  UploadRoute.gemini_step w local up url s =
    (Returns (local, JNull, JStr "Gemini API not configured"), s).
Proof. intros H. unfold UploadRoute.gemini_step. now rewrite H. Qed.

Lemma new_configured w s :
  UploadRoute.hasGemini w = true -> GeminiService.new w s = (Returns tt, s).
Proof.
  unfold UploadRoute.hasGemini, GeminiService.new. now intros ->.
Qed.

Lemma gemini_step_success w local up url s ai :
  UploadRoute.hasGemini w = true ->
  truthy up = true -> truthy (get_opt up "directUrl") = true ->
  fst (GeminiService.analyzeFileWithInstruction w (get_opt up "directUrl") url s) = Returns ai ->
  UploadRoute.gemini_step w local up url s = (Returns (ai, ai, JNull), s)
  /\ exists text, ai = JObj [ ("success", JBool true); ("feedback", JStr text);
                              ("timestamp", JStr (Date_iso w)) ].
Proof.
  intros Hg Hu Hd Ha.
  assert (E : GeminiService.analyzeFileWithInstruction w (get_opt up "directUrl") url s
              = (Returns ai, s)).
  { rewrite (run_read_only _ s (read_only_analyzeFileWithInstruction w _ url)).
    now rewrite Ha. }
  destruct (analyzeFileWithInstruction_shape _ _ _ _ _ _ E) as [_ [text ->]].
  split; [|now exists text].
  unfold UploadRoute.gemini_step. rewrite Hg, Hu, Hd. simpl.
  unfold try_catch, bind. rewrite (new_configured _ _ Hg). now rewrite E.
Qed.

Lemma instruction_url_returns w i s :
  exists url, UploadRoute.instruction_url w i s = (Returns url, s).
Proof.
  rewrite (run_read_only _ s (read_only_instruction_url w i)).
  unfold UploadRoute.instruction_url.
  destruct (entry_truthy i); [|now eexists].
  unfold try_catch.
  match goal with |- context [match ?body s with _ => _ end] =>
    destruct (body s) as [[v|e] s1] end; now eexists.
Qed.

Lemma analyse_spec w path name buffer fid s :
  exists url local up derr a ai gerr flag,
    UploadRoute.instruction_url w fid s = (Returns url, s)
    /\ LocalAnalyzer.analyzeFile w path name (js_or url (JStr EmptyString)) s = (Returns local, s)
    /\ UploadRoute.drive_step w path name s = (Returns (up, derr), s)
    /\ UploadRoute.gemini_step w local up url s = (Returns (a, ai, gerr), s)
    /\ get_prop a "success" = Some flag
    /\ has_feedback a
    /\ UploadRoute.analyse w path name buffer fid s =
         (Returns (UploadRoute.respond name buffer up derr a ai gerr flag), s).
Proof.
  destruct (instruction_url_returns w fid s) as [url Hu].
  destruct (analyzeFile_returns w path name (js_or url (JStr EmptyString)) s)
    as [local [Hl [Hfb [b Hb]]]].
  destruct (drive_step_returns w path name s) as [up [derr Hd]].
  destruct (gemini_step_returns w local up url s) as [a [ai [gerr [Hg Ha]]]].
  assert (Hflag : exists flag, get_prop a "success" = Some flag /\ has_feedback a).
  { destruct Ha as [-> | [text ->]].
    - exists (JBool b). now split.
    - eexists. split; [reflexivity | eexists; reflexivity]. }
  destruct Hflag as [flag [Hflag Hfa]].
  exists url, local, up, derr, a, ai, gerr, flag.
  repeat split; try assumption.
  unfold UploadRoute.analyse.
  rewrite (bind_returns _ _ _ _ _ Hu), (bind_returns _ _ _ _ _ Hl),
          (bind_returns _ _ _ _ _ Hd), (bind_returns _ _ _ _ _ Hg).
  unfold bind, prop. now rewrite Hflag.
Qed.

(** *** The [finally] block *)

Lemma cleanup_spec w s :
  exists s', UploadRoute.cleanup w s = (Returns tt, s')
    /\ tempFilePath s' = tempFilePath s
    /\ dirs s' = dirs s
    /\ instructionsCache s' = instructionsCache s
    /\ files s' =
         match tempFilePath s with
         | None => files s
         | Some p => match fs_fault w (unlink p) with
                     | None => delete p (files s)
                     | Some _ => files s
                     end
         end.
Proof.
  unfold UploadRoute.cleanup, bind, get_state.
  destruct (tempFilePath s) as [p|] eqn:T; [|now exists s].
  unfold fs.existsSync.
  destruct (files s !! p) as [f|] eqn:F.
  - rewrite bool_decide_eq_true_2 by eauto. simpl.
    unfold try_catch, fs.unlinkSync.
    destruct (fs_fault w (unlink p)); [now exists s|].
    rewrite F. eexists. now repeat split.
  - assert (D : delete p (files s) = files s) by now apply delete_id.
    rewrite bool_decide_eq_false_2 by (intros [? ?]; congruence). simpl.
    destruct (bool_decide (p ∈ dirs s)).
    + unfold try_catch, fs.unlinkSync.
      destruct (fs_fault w (unlink p)); [now exists s|].
      rewrite F. exists s. now rewrite D.
    + exists s. destruct (fs_fault w (unlink p)); now rewrite ?D.
Qed.

Lemma try_finally_cleanup {A} w (m : M A) s r s1 :
  m s = (r, s1) ->
  exists s2, try_finally m (UploadRoute.cleanup w) s = (r, s2)
             /\ UploadRoute.cleanup w s1 = (Returns tt, s2).
Proof.
  intros E. destruct (cleanup_spec w s1) as [s2 [C _]].
  exists s2. split; [|exact C]. unfold try_finally. now rewrite E, C.
Qed.

(** *** The shape of the upload handler *)

Lemma POST_upload w form name data s :
  formData_get form "file" = Some (Upload name data) ->
  UploadRoute.POST w (Returns form) s =
    try_finally
      (try_catch
         (let! path := staging w name data in
          UploadRoute.analyse w path name data (formData_get form "instructionFileId"))
         UploadRoute.on_error)
      (UploadRoute.cleanup w) (start s).
Proof.
  intros F.
  assert (Inner : forall s0,
    (let! formData := await (Returns form) in
     let file := formData_get formData "file" in
     let instructionFileId := formData_get formData "instructionFileId" in
     if negb (entry_truthy file)
     then ret (json_status (JObj [("error", JStr "No file provided")]) 400)
     else
       UploadRoute.ensure_tempDir w >>
       let! (name, buffer) := as_file file in
       let! path := UploadRoute.save_temporarily w name buffer in
       UploadRoute.analyse w path name buffer instructionFileId) s0
    = (let! path := staging w name data in
       UploadRoute.analyse w path name data (formData_get form "instructionFileId")) s0).
  { intros s0. rewrite (bind_returns (await (Returns form)) _ s0 form s0 eq_refl).
    cbv zeta. rewrite F.
    change (negb (entry_truthy (Some (Upload name data)))) with false. cbv iota.
    unfold staging, bind. cbv beta.
    destruct (UploadRoute.ensure_tempDir w s0) as [[[]|e] s1]; [|reflexivity].
    reflexivity. }
  unfold UploadRoute.POST.
  rewrite (bind_returns (set_tempFilePath None) _ s tt (start s) eq_refl).
  unfold try_finally, try_catch. now rewrite Inner.
Qed.

Lemma POST_staged w form name data s path s1 :
  formData_get form "file" = Some (Upload name data) ->
  staging w name data (start s) = (Returns path, s1) ->
  exists r s2,
    UploadRoute.POST w (Returns form) s = (Returns r, s2)
    /\ UploadRoute.analyse w path name data (formData_get form "instructionFileId") s1
         = (Returns r, s1)
    /\ UploadRoute.cleanup w s1 = (Returns tt, s2).
Proof.
  intros F S. rewrite (POST_upload _ _ _ _ _ F).
  destruct (analyse_spec w path name data (formData_get form "instructionFileId") s1)
    as (url & local & up & derr & a & ai & gerr & flag & _ & _ & _ & _ & _ & _ & A).
  match goal with |- context [try_finally ?m _ _] =>
    destruct (try_finally_cleanup w m (start s) _ s1
                ltac:(unfold try_catch; rewrite (bind_returns _ _ _ _ _ S), A; reflexivity))
      as [s2 [E C]]
  end.
  eexists _, s2. repeat split; [exact E | exact A | exact C].
Qed.

Lemma POST_not_staged w form name data s e s1 :
  formData_get form "file" = Some (Upload name data) ->
  staging w name data (start s) = (Throws e, s1) ->
  exists s2,
    UploadRoute.POST w (Returns form) s = (Returns (upload_failed e), s2)
    /\ UploadRoute.cleanup w s1 = (Returns tt, s2).
Proof.
  intros F S. rewrite (POST_upload _ _ _ _ _ F).
  match goal with |- context [try_finally ?m _ _] =>
    destruct (try_finally_cleanup w m (start s) (Returns (upload_failed e)) s1
                ltac:(unfold try_catch; rewrite (bind_throws _ _ _ _ _ S); reflexivity))
      as [s2 [E C]]
  end.
  now exists s2.
Qed.

(** *** The feedback floor *)

(** Counterexample to claim C1 as stated: a request that carries a file, on
    a disk that cannot be written, is answered with the 500 error, whose
    body has no analysis payload and so no feedback string. *)
Lemma C1_counterexample :
  exists r s',
    formData_get report "file" = Some (Upload "report.txt" "a,b")
    /\ UploadRoute.POST read_only_disk (Returns report) empty_state = (Returns r, s')
    /\ status r = 500
    /\ get_opt (body r) "analysis" = JUndefined
    /\ ~ has_feedback (get_opt (body r) "analysis").
Proof.
  eexists _, _. split; [reflexivity|].
  split; [vm_compute; reflexivity|].
  split; [reflexivity|]. split; [reflexivity|].
  intros [text H]. discriminate H.
Qed.

(** Claim C1, amended.  For every upload request that carries a file, the
    handler answers, and one of two things holds: creating the temp
    directory or writing the transient file threw, and the answer is the 500
    error (which has no analysis payload); or the transient file was
    written, the answer has status 200 and its analysis payload holds a
    feedback string, whatever the outcome of the storage upload, of the AI
    call, and of the local analyzer's own file-system calls. *)
Theorem C1_feedback_floor w form name data s :
  formData_get form "file" = Some (Upload name data) ->
  exists r s', UploadRoute.POST w (Returns form) s = (Returns r, s')
    /\ ((exists e s1, staging w name data (start s) = (Throws e, s1)
                      /\ r = upload_failed e)
        \/ (exists path s1, staging w name data (start s) = (Returns path, s1)
                            /\ status r = 200
                            /\ has_feedback (get_opt (body r) "analysis"))).
Proof.
  intros F.
  destruct (staging w name data (start s)) as [[path|e] s1] eqn:S.
  - destruct (POST_staged _ _ _ _ _ _ _ F S) as (r & s2 & P & A & _).
    exists r, s2. split; [exact P|]. right. exists path, s1. split; [reflexivity|].
    destruct (analyse_spec w path name data (formData_get form "instructionFileId") s1)
      as (url & local & up & derr & a & ai & gerr & flag & _ & _ & _ & _ & _ & Hfb & A').
    rewrite A' in A. injection A as <-. split; [reflexivity|exact Hfb].
  - destruct (POST_not_staged _ _ _ _ _ _ _ F S) as (s2 & P & _).
    exists (upload_failed e), s2. split; [exact P|]. left. now exists e, s1.
Qed.

(** The amended C1 at a concrete request. *)
Lemma C1_feedback_floor_witness :
  exists r s', UploadRoute.POST quiet_world (Returns report) empty_state = (Returns r, s')
    /\ ((exists e s1, staging quiet_world "report.txt" "a,b" (start empty_state) = (Throws e, s1)
                      /\ r = upload_failed e)
        \/ (exists path s1,
               staging quiet_world "report.txt" "a,b" (start empty_state) = (Returns path, s1)
               /\ status r = 200
               /\ has_feedback (get_opt (body r) "analysis"))).
Proof. apply (C1_feedback_floor quiet_world report "report.txt" "a,b" empty_state). reflexivity. Defined.

Lemma fst_returns {A} (m : M A) s a :
  read_only m -> fst (m s) = Returns a -> m s = (Returns a, s).
Proof. intros R H. rewrite (run_read_only _ s R). now rewrite H. Qed.

(** Claim C2.  When the transient file is written, storage is configured
    and the Drive upload returns a result with [success] set (hence a direct
    URL), the inference key is configured and the inference call returns
    [ai], the response is [superseded_response name data up ai]: its
    analysis field is [ai], and the local heuristic result occurs nowhere
    in it. *)
Theorem C2_ai_result_supersedes w form name data s path s1 url up ai :
  formData_get form "file" = Some (Upload name data) ->
  staging w name data (start s) = (Returns path, s1) ->
  fst (UploadRoute.instruction_url w (formData_get form "instructionFileId") s1) = Returns url ->
  UploadRoute.hasGoogleDrive w = true ->
  fst (GoogleDriveService.uploadFile w path name None s1) = Returns up ->
  truthy (get_opt up "success") = true ->
  UploadRoute.hasGemini w = true ->
  fst (GeminiService.analyzeFileWithInstruction w (get_opt up "directUrl") url s1) = Returns ai ->
  exists s2,
    UploadRoute.POST w (Returns form) s = (Returns (superseded_response name data up ai), s2)
    /\ get_opt (body (superseded_response name data up ai)) "analysis" = ai.
Proof.
  intros F S Hurl Hd Hup Hok Hg Hai.
  destruct (POST_staged _ _ _ _ _ _ _ F S) as (r & s2 & P & A & _).
  exists s2. split; [|reflexivity]. rewrite P. f_equal. f_equal.
  apply fst_returns in Hurl; [|apply read_only_instruction_url].
  destruct (analyzeFile_returns w path name (js_or url (JStr EmptyString)) s1)
    as [local [Hl _]].
  destruct (drive_step_success _ _ _ _ _ Hd Hup Hok) as [Hds [u [Hu Hut]]].
  assert (Htu : truthy up = true).
  { apply fst_returns in Hup; [|apply read_only_uploadFile].
    destruct (uploadFile_shape _ _ _ _ _ _ _ Hup) as [_ [[fileId ->] | ->]]; reflexivity. }
  assert (Htd : truthy (get_opt up "directUrl") = true) by now rewrite Hu.
  destruct (gemini_step_success w local up url s1 ai Hg Htu Htd Hai) as [Hgs [text ->]].
  unfold UploadRoute.analyse in A.
  rewrite (bind_returns _ _ _ _ _ Hurl), (bind_returns _ _ _ _ _ Hl),
          (bind_returns _ _ _ _ _ Hds), (bind_returns _ _ _ _ _ Hgs) in A.
  unfold bind, prop in A. simpl get_prop in A. cbv iota beta in A. unfold ret in A.
  injection A as <-.
  unfold UploadRoute.respond, superseded_response. now rewrite Htu.
Qed.

(** Claim C2 at a concrete request with both services answering. *)
Lemma C2_ai_result_supersedes_witness :
  exists up ai s2,
    UploadRoute.POST all_services (Returns report) empty_state
      = (Returns (superseded_response "report.txt" "a,b" up ai), s2)
    /\ get_opt (body (superseded_response "report.txt" "a,b" up ai)) "analysis" = ai
    /\ get_opt ai "feedback" = JStr "The sheet has three tabs.".
Proof.
  eexists _, _.
  destruct (C2_ai_result_supersedes all_services report "report.txt" "a,b" empty_state
              _ _ _ _ _
              eq_refl
              ltac:(vm_compute; reflexivity)
              ltac:(vm_compute; reflexivity)
              eq_refl
              ltac:(vm_compute; reflexivity)
              eq_refl
              eq_refl
              ltac:(vm_compute; reflexivity)) as [s2 [P A]].
  exists s2. split; [exact P|]. split; [exact A|]. reflexivity.
Defined.

(** *** Inference not configured *)

(** Claim C3.  When the storage upload succeeds and GEMINI_API_KEY is not
    configured, the analysis field of the response is the output of the
    local analyzer and the inference status reads
    [Gemini API not configured]. *)
Theorem C3_local_result_without_inference_key w form name data s path s1 url up local :
  formData_get form "file" = Some (Upload name data) ->
  staging w name data (start s) = (Returns path, s1) ->
  fst (UploadRoute.instruction_url w (formData_get form "instructionFileId") s1) = Returns url ->
  UploadRoute.hasGoogleDrive w = true ->
  fst (GoogleDriveService.uploadFile w path name None s1) = Returns up ->
  truthy (get_opt up "success") = true ->
  env_truthy w "GEMINI_API_KEY" = false ->
  fst (LocalAnalyzer.analyzeFile w path name (js_or url (JStr EmptyString)) s1) = Returns local ->
  exists r s2,
    UploadRoute.POST w (Returns form) s = (Returns r, s2)
    /\ status r = 200
    /\ get_opt (body r) "analysis" = local
    /\ get_opt (get_opt (body r) "serviceStatus") "geminiAnalysis"
       = JStr "Gemini API not configured".
Proof.
  intros F S Hurl Hd Hup Hok Hg Hl.
  destruct (POST_staged _ _ _ _ _ _ _ F S) as (r & s2 & P & A & _).
  exists r, s2. split; [exact P|].
  apply fst_returns in Hurl; [|apply read_only_instruction_url].
  apply fst_returns in Hl; [|apply read_only_analyzeFile].
  destruct (analyzeFile_returns w path name (js_or url (JStr EmptyString)) s1)
    as [local' [Hl' [_ [b Hb]]]].
  rewrite Hl in Hl'. injection Hl' as <-.
  destruct (drive_step_success _ _ _ _ _ Hd Hup Hok) as [Hds _].
  pose proof (gemini_step_unconfigured w local up url s1 Hg) as Hgs.
  unfold UploadRoute.analyse in A.
  rewrite (bind_returns _ _ _ _ _ Hurl), (bind_returns _ _ _ _ _ Hl),
          (bind_returns _ _ _ _ _ Hds), (bind_returns _ _ _ _ _ Hgs) in A.
  unfold bind, prop in A. rewrite Hb in A. unfold ret in A.
  injection A as <-. repeat split.
Qed.

(** Claim C3 at a concrete request with Drive configured and no inference
    key. *)
Lemma C3_local_result_without_inference_key_witness :
  exists r s2 local,
    UploadRoute.POST drive_only (Returns report) empty_state = (Returns r, s2)
    /\ status r = 200
    /\ get_opt (body r) "analysis" = local
    /\ get_opt (get_opt (body r) "serviceStatus") "geminiAnalysis"
       = JStr "Gemini API not configured"
    /\ get_opt (get_opt (body r) "file") "directUrl"
       = JStr "https://drive.google.com/uc?id=1AbC&export=download"
    /\ fst (LocalAnalyzer.analyzeFile drive_only "/app/temp/1700000000000_report.txt"
              "report.txt" (JStr EmptyString)
              (snd (staging drive_only "report.txt" "a,b" (start empty_state))))
       = Returns local.
Proof.
  destruct (C3_local_result_without_inference_key drive_only report "report.txt" "a,b"
              empty_state _ _ _ _ _
              eq_refl
              ltac:(vm_compute; reflexivity)
              ltac:(vm_compute; reflexivity)
              eq_refl
              ltac:(vm_compute; reflexivity)
              eq_refl
              eq_refl
              ltac:(vm_compute; reflexivity)) as (r & s2 & P & St & A & G).
  exists r, s2. eexists. split; [exact P|]. split; [exact St|]. split; [exact A|].
  split; [exact G|].
  split; [|vm_compute; reflexivity].
  revert P. vm_compute. intros [= <- _]. reflexivity.
Defined.

(** *** Storage not configured *)

Ltac rejected P H200 :=
  repeat match type of P with
         | context [UploadRoute.cleanup ?w ?s] =>
             destruct (UploadRoute.cleanup w s) as [[[]|?] ?]
         end;
  try discriminate P; injection P as <- _; discriminate H200.

Lemma POST_200 w request s r s' :
  UploadRoute.POST w request s = (Returns r, s') ->
  status r = 200 ->
  exists form name data path s1,
    request = Returns form
    /\ formData_get form "file" = Some (Upload name data)
    /\ staging w name data (start s) = (Returns path, s1)
    /\ UploadRoute.analyse w path name data (formData_get form "instructionFileId") s1
       = (Returns r, s1).
Proof.
  intros P H200.
  destruct request as [form|e].
  2:{ exfalso.
      unfold UploadRoute.POST, bind, set_tempFilePath, try_finally, try_catch, await in P.
      simpl in P. rejected P H200. }
  destruct (formData_get form "file") as [[t|name data]|] eqn:F.
  - exfalso.
    unfold UploadRoute.POST in P.
    rewrite (bind_returns (set_tempFilePath None) _ s tt (start s) eq_refl) in P.
    unfold try_finally, try_catch in P.
    rewrite (bind_returns (await (Returns form)) _ _ form _ eq_refl) in P.
    cbv zeta in P. rewrite F in P.
    destruct (negb (entry_truthy (Some (Text t)))).
    + unfold ret in P. rejected P H200.
    + unfold bind in P.
      destruct (UploadRoute.ensure_tempDir w (start s)) as [[[]|?] ?]; simpl in P;
        rejected P H200.
  - destruct (staging w name data (start s)) as [[path|e] s1] eqn:S.
    + destruct (POST_staged _ _ _ _ _ _ _ F S) as (r' & s2 & P' & A & _).
      rewrite P in P'. injection P' as <- <-.
      now exists form, name, data, path, s1.
    + destruct (POST_not_staged _ _ _ _ _ _ _ F S) as (s2 & P' & _).
      rewrite P in P'. injection P' as -> _. discriminate H200.
  - exfalso.
    unfold UploadRoute.POST in P.
    rewrite (bind_returns (set_tempFilePath None) _ s tt (start s) eq_refl) in P.
    unfold try_finally, try_catch in P.
    rewrite (bind_returns (await (Returns form)) _ _ form _ eq_refl) in P.
    cbv zeta in P. rewrite F in P. simpl in P. rejected P H200.
Qed.

(** Every upload request is answered, and in one of three ways: the chain
    ran on a staged file, the form had no file, or something threw before
    the chain and the [catch] block answered. *)
Lemma POST_cases w request s :
  exists r s',
    UploadRoute.POST w request s = (Returns r, s')
    /\ ((exists form name data path s1,
           request = Returns form
           /\ formData_get form "file" = Some (Upload name data)
           /\ staging w name data (start s) = (Returns path, s1)
           /\ UploadRoute.analyse w path name data (formData_get form "instructionFileId") s1
              = (Returns r, s1))
        \/ r = json_status (JObj [("error", JStr "No file provided")]) 400
        \/ exists e, r = upload_failed e).
Proof.
  destruct request as [form|e].
  2:{ eexists _, _. split; [reflexivity|]. right. right. now exists e. }
  destruct (formData_get form "file") as [[t|name data]|] eqn:F.
  - unfold UploadRoute.POST.
    rewrite (bind_returns (set_tempFilePath None) _ s tt (start s) eq_refl).
    match goal with |- context [try_finally ?m _ _] =>
      assert (E : exists r s1,
                m (start s) = (Returns r, s1)
                /\ (r = json_status (JObj [("error", JStr "No file provided")]) 400
                    \/ exists e, r = upload_failed e))
    end.
    { unfold try_catch.
      rewrite (bind_returns (await (Returns form)) _ _ form _ eq_refl).
      cbv zeta. rewrite F.
      destruct (negb (entry_truthy (Some (Text t)))).
      - eexists _, _. split; [reflexivity|]. now left.
      - unfold bind.
        destruct (UploadRoute.ensure_tempDir w (start s)) as [[[]|e] s1]; simpl;
          eexists _, _; (split; [reflexivity|]); right; eexists; reflexivity. }
    destruct E as (r & s1 & E & H).
    destruct (try_finally_cleanup w _ _ _ _ E) as (s' & T & _).
    exists r, s'. split; [exact T|]. now right.
  - destruct (staging w name data (start s)) as [[path|e] s1] eqn:S.
    + destruct (POST_staged _ _ _ _ _ _ _ F S) as (r & s2 & P & A & _).
      exists r, s2. split; [exact P|]. left. now exists form, name, data, path, s1.
    + destruct (POST_not_staged _ _ _ _ _ _ _ F S) as (s2 & P & _).
      exists (upload_failed e), s2. split; [exact P|]. right. right. now exists e.
  - unfold UploadRoute.POST.
    rewrite (bind_returns (set_tempFilePath None) _ s tt (start s) eq_refl).
    match goal with |- context [try_finally ?m _ _] =>
      assert (E : m (start s)
                  = (Returns (json_status (JObj [("error", JStr "No file provided")]) 400),
                     start s))
    end.
    { unfold try_catch.
      rewrite (bind_returns (await (Returns form)) _ _ form _ eq_refl).
      cbv zeta. rewrite F. reflexivity. }
    destruct (try_finally_cleanup w _ _ _ _ E) as (s' & T & _).
    eexists _, s'. split; [exact T|]. right. now left.
Qed.

(** Counterexample to claim C4 as stated: without any storage credential,
    on a disk that cannot be written, the upload is answered with the 500
    error, whose body has no [file] object and no service status. *)
Lemma C4_counterexample :
  exists r s',
    env_truthy read_only_disk "GOOGLE_PROJECT_ID" = false
    /\ env_truthy read_only_disk "GOOGLE_PRIVATE_KEY" = false
    /\ env_truthy read_only_disk "GOOGLE_SERVICE_ACCOUNT_EMAIL" = false
    /\ UploadRoute.POST read_only_disk (Returns report) empty_state = (Returns r, s')
    /\ status r = 500
    /\ get_opt (body r) "file" = JUndefined
    /\ get_opt (get_opt (body r) "file") "fileId" <> JNull
    /\ get_opt (get_opt (body r) "serviceStatus") "googleDrive"
       <> JStr "Google Drive not configured".
Proof.
  eexists _, _. do 3 (split; [reflexivity|]).
  split; [vm_compute; reflexivity|].
  split; [reflexivity|]. split; [reflexivity|]. split; discriminate.
Qed.

(** Claim C4, amended.  When none of GOOGLE_PROJECT_ID, GOOGLE_PRIVATE_KEY
    and GOOGLE_SERVICE_ACCOUNT_EMAIL is configured, every upload request is
    answered, in one of two ways.  Either the request carries a file that
    was staged: the answer has status 200, its [fileId], [publicUrl] and
    [directUrl] are null and its storage status reads
    [Google Drive not configured].  Or no file was staged (the form could
    not be read, holds no file, or creating the temp directory or writing
    the transient file threw): the answer is the 400 or the 500 error,
    which has neither a [file] object nor a service status. *)
Theorem C4_storage_not_configured w request s :
  env_truthy w "GOOGLE_PROJECT_ID" = false ->
  env_truthy w "GOOGLE_PRIVATE_KEY" = false ->
  env_truthy w "GOOGLE_SERVICE_ACCOUNT_EMAIL" = false ->
  exists r s',
    UploadRoute.POST w request s = (Returns r, s')
    /\ ((exists form name data path s1,
           request = Returns form
           /\ formData_get form "file" = Some (Upload name data)
           /\ staging w name data (start s) = (Returns path, s1)
           /\ status r = 200
           /\ get_opt (get_opt (body r) "file") "fileId" = JNull
           /\ get_opt (get_opt (body r) "file") "publicUrl" = JNull
           /\ get_opt (get_opt (body r) "file") "directUrl" = JNull
           /\ get_opt (get_opt (body r) "serviceStatus") "googleDrive"
              = JStr "Google Drive not configured")
        \/ ((r = json_status (JObj [("error", JStr "No file provided")]) 400
             \/ exists e, r = upload_failed e)
            /\ status r <> 200
            /\ get_opt (body r) "file" = JUndefined
            /\ get_opt (body r) "serviceStatus" = JUndefined)).
Proof.
  intros H1 H2 H3.
  assert (Hd : UploadRoute.hasGoogleDrive w = false).
  { unfold UploadRoute.hasGoogleDrive. now rewrite H1. }
  destruct (POST_cases w request s)
    as (r & s' & P & [(form & name & data & path & s1 & -> & F & S & A) | [-> | [e ->]]]).
  - exists r, s'. split; [exact P|]. left.
    exists form, name, data, path, s1. do 3 (split; [assumption || reflexivity|]).
    destruct (analyse_spec w path name data (formData_get form "instructionFileId") s1)
      as (url & local & up & derr & a & ai & gerr & flag & _ & _ & D & _ & _ & _ & A').
    rewrite (drive_step_unconfigured _ _ _ _ Hd) in D. injection D as <- <-.
    rewrite A' in A. injection A as <-. repeat split.
  - eexists _, s'. split; [exact P|]. right.
    split; [now left|]. split; [discriminate|]. split; reflexivity.
  - eexists _, s'. split; [exact P|]. right.
    split; [right; now exists e|]. split; [discriminate|]. split; reflexivity.
Qed.

(** The amended C4 at a concrete request in a world without credentials. *)
Lemma C4_storage_not_configured_witness :
  exists r s',
    UploadRoute.POST quiet_world (Returns report) empty_state = (Returns r, s')
    /\ status r = 200
    /\ get_opt (get_opt (body r) "file") "directUrl" = JNull
    /\ get_opt (get_opt (body r) "serviceStatus") "googleDrive"
       = JStr "Google Drive not configured".
Proof.
  destruct (C4_storage_not_configured quiet_world (Returns report) empty_state
              eq_refl eq_refl eq_refl)
    as (r & s' & P & [(form & name & data & path & s1 & _ & _ & _ & S & _ & _ & D & G)
                     | (_ & N & _)]).
  - now exists r, s'.
  - exfalso. apply N. revert P. vm_compute. now intros [= <- _].
Defined.

Section Utf8RoundTrip.
Local Open Scope N_scope.

Lemma lead_two n : 194 <= n <= 223 -> lead n = Some (1%nat, 128, 191).
Proof.
  intros H. unfold lead.
  destruct (N.leb_spec 194 n), (N.leb_spec n 223); simpl; try lia. reflexivity.
Qed.

Lemma lead_three n :
  224 <= n <= 239 ->
  lead n = Some (2%nat, if n =? 224 then 160 else 128, if n =? 237 then 159 else 191).
Proof.
  intros H. unfold lead.
  destruct (N.leb_spec 194 n), (N.leb_spec n 223); simpl; try lia.
  destruct (N.eqb_spec n 224); [subst; reflexivity|].
  destruct (N.eqb_spec n 237); [subst; reflexivity|].
  destruct (N.leb_spec 225 n), (N.leb_spec n 239); simpl; try lia. reflexivity.
Qed.

Lemma lead_four n :
  240 <= n <= 244 ->
  lead n = Some (3%nat, if n =? 240 then 144 else 128, if n =? 244 then 143 else 191).
Proof.
  intros H. unfold lead.
  destruct (N.leb_spec 194 n), (N.leb_spec n 223); simpl; try lia.
  destruct (N.eqb_spec n 224); [lia|].
  destruct (N.eqb_spec n 237); [lia|].
  destruct (N.leb_spec 225 n), (N.leb_spec n 239); simpl; try lia.
  destruct (N.eqb_spec n 240); [subst; reflexivity|].
  destruct (N.eqb_spec n 244); [subst; reflexivity|].
  destruct (N.leb_spec 241 n), (N.leb_spec n 243); simpl; try lia. reflexivity.
Qed.

Lemma between_spec l c h : between l c h = true <-> l <= code c <= h.
Proof.
  unfold between. rewrite andb_true_iff, !N.leb_le. tauto.
Qed.

Lemma cont_spec c : cont c = true <-> 128 <= code c <= 191.
Proof. apply (between_spec 128 c 191). Qed.

(** One step of the decoder on a continuation byte that is in range. *)
Lemma decode_pending_last u c r :
  needed u = 1%nat -> lo u <= code c <= hi u ->
  decode (Some u) (String c r) = seen u +:+ String c (decode None r).
Proof.
  intros Hn [H1 H2]. simpl.
  apply N.leb_le in H1, H2. rewrite H1, H2, Hn. reflexivity.
Qed.

Lemma decode_pending_more u c r n :
  needed u = S (S n) -> lo u <= code c <= hi u ->
  decode (Some u) (String c r) =
    decode (Some {| seen := seen u +:+ String c EmptyString; needed := S n;
                    lo := 128; hi := 191 |}) r.
Proof.
  intros Hn [H1 H2]. simpl.
  apply N.leb_le in H1, H2. rewrite H1, H2, Hn. reflexivity.
Qed.

Lemma decode_lead a r n l h :
  128 <= code a -> lead (code a) = Some (n, l, h) ->
  decode None (String a r) =
    decode (Some {| seen := String a EmptyString; needed := n; lo := l; hi := h |}) r.
Proof.
  intros Ha Hl. cbn [decode].
  destruct (N.ltb_spec (code a) 128); [lia|]. now rewrite Hl.
Qed.

(** Decoding well-formed UTF-8 gives back the very same bytes. *)
Lemma decode_well_formed_length n :
  forall s, (String.length s <= n)%nat -> well_formed s = true -> decode None s = s.
Proof.
  induction n as [|n IH]; intros s Hlen Hwf.
  - destruct s; [reflexivity | simpl in Hlen; lia].
  - destruct s as [|a r]; [reflexivity|].
    cbn [well_formed] in Hwf.
    destruct (N.ltb_spec (code a) 128) as [Ha|Ha].
    { cbn [decode]. destruct (N.ltb_spec (code a) 128); [|lia].
      f_equal. apply IH; [simpl in Hlen; lia | exact Hwf]. }
    destruct r as [|b r2]; [discriminate|].
    destruct (between 194 a 223) eqn:B2.
    { apply between_spec in B2. apply andb_true_iff in Hwf as [Hb Hwf].
      apply cont_spec in Hb.
      rewrite (decode_lead a _ _ _ _ Ha (lead_two _ B2)).
      rewrite decode_pending_last; [|reflexivity|exact Hb].
      cbv [seen String.append]. do 2 f_equal. apply IH; [simpl in Hlen; lia | exact Hwf]. }
    destruct r2 as [|c r3]; [discriminate|].
    destruct (between 224 a 239) eqn:B3.
    { apply between_spec in B3.
      apply andb_true_iff in Hwf as [Hwf Hwf3].
      apply andb_true_iff in Hwf as [Hb Hc]. apply cont_spec in Hc.
      rewrite (decode_lead a _ _ _ _ Ha (lead_three _ B3)).
      rewrite (decode_pending_more _ b _ 0%nat); [|reflexivity|].
      2:{ cbn [lo hi]. revert Hb. unfold cont, between.
          destruct (N.eqb_spec (code a) 224), (N.eqb_spec (code a) 237);
            rewrite andb_true_iff, !N.leb_le; lia. }
      rewrite decode_pending_last; [|reflexivity|exact Hc].
      cbv [seen String.append]. do 3 f_equal. apply IH; [simpl in Hlen; lia | exact Hwf3]. }
    destruct r3 as [|d r4]; [discriminate|].
    apply andb_true_iff in Hwf as [Hwf Hwf4].
    apply andb_true_iff in Hwf as [Hwf Hd]. apply cont_spec in Hd.
    apply andb_true_iff in Hwf as [Hwf Hc]. apply cont_spec in Hc.
    apply andb_true_iff in Hwf as [B4 Hb]. apply between_spec in B4.
    rewrite (decode_lead a _ _ _ _ Ha (lead_four _ B4)).
    rewrite (decode_pending_more _ b _ 1%nat); [|reflexivity|].
    2:{ cbn [lo hi]. revert Hb. unfold cont, between.
        destruct (N.eqb_spec (code a) 240), (N.eqb_spec (code a) 244);
          rewrite andb_true_iff, !N.leb_le; lia. }
    rewrite (decode_pending_more _ c _ 0%nat); [|reflexivity|exact Hc].
    rewrite decode_pending_last; [|reflexivity|exact Hd].
    cbv [seen String.append]. do 4 f_equal. apply IH; [simpl in Hlen; lia | exact Hwf4].
Qed.

Lemma Buffer_toString_well_formed s :
  well_formed s = true -> Buffer_toString s = s.
Proof. apply (decode_well_formed_length (String.length s)). lia. Qed.

End Utf8RoundTrip.

(** *** What the decoder writes is well-formed *)

Section Utf8Output.
Local Open Scope N_scope.

Lemma well_formed_ascii a t : code a < 128 -> well_formed (String a t) = well_formed t.
Proof. intros H. cbn [well_formed]. now destruct (N.ltb_spec (code a) 128); [|lia]. Qed.

Lemma well_formed_two a b t :
  194 <= code a <= 223 -> 128 <= code b <= 191 ->
  well_formed t = true -> well_formed (String a (String b t)) = true.
Proof.
  intros A B T. cbn [well_formed].
  destruct (N.ltb_spec (code a) 128); [lia|].
  rewrite (proj2 (between_spec 194 a 223) A), (proj2 (cont_spec b) B). exact T.
Qed.

Lemma well_formed_three a b c t :
  224 <= code a <= 239 ->
  (if code a =? 224 then 160 else 128) <= code b <= (if code a =? 237 then 159 else 191) ->
  128 <= code c <= 191 ->
  well_formed t = true -> well_formed (String a (String b (String c t))) = true.
Proof.
  intros A B C T. cbn [well_formed].
  destruct (N.ltb_spec (code a) 128); [lia|].
  destruct (between 194 a 223) eqn:X; [apply between_spec in X; lia|].
  rewrite (proj2 (between_spec 224 a 239) A), (proj2 (cont_spec c) C), T.
  rewrite !andb_true_r. revert B.
  destruct (N.eqb_spec (code a) 224), (N.eqb_spec (code a) 237); intros B;
    unfold cont, between; apply andb_true_iff; rewrite !N.leb_le; lia.
Qed.

Lemma well_formed_four a b c d t :
  240 <= code a <= 244 ->
  (if code a =? 240 then 144 else 128) <= code b <= (if code a =? 244 then 143 else 191) ->
  128 <= code c <= 191 -> 128 <= code d <= 191 ->
  well_formed t = true -> well_formed (String a (String b (String c (String d t)))) = true.
Proof.
  intros A B C D T. cbn [well_formed].
  destruct (N.ltb_spec (code a) 128); [lia|].
  destruct (between 194 a 223) eqn:X; [apply between_spec in X; lia|].
  destruct (between 224 a 239) eqn:Y; [apply between_spec in Y; lia|].
  rewrite (proj2 (between_spec 240 a 244) A), (proj2 (cont_spec c) C),
    (proj2 (cont_spec d) D), T.
  rewrite !andb_true_r. cbn [andb]. revert B.
  destruct (N.eqb_spec (code a) 240), (N.eqb_spec (code a) 244); intros B;
    unfold cont, between; apply andb_true_iff; rewrite !N.leb_le; lia.
Qed.

Lemma lead_range n k l h :
  lead n = Some (k, l, h) ->
  (k = 1%nat /\ 194 <= n <= 223 /\ l = 128 /\ h = 191)
  \/ (k = 2%nat /\ 224 <= n <= 239
      /\ l = (if n =? 224 then 160 else 128) /\ h = (if n =? 237 then 159 else 191))
  \/ (k = 3%nat /\ 240 <= n <= 244
      /\ l = (if n =? 240 then 144 else 128) /\ h = (if n =? 244 then 143 else 191)).
Proof.
  unfold lead.
  destruct (N.leb_spec 194 n), (N.leb_spec n 223); cbn [andb].
  1:{ intros [= <- <- <-]. left. repeat split; assumption. }
  all: destruct (N.eqb_spec n 224); [intros [= <- <- <-]; subst; right; left; repeat split; lia|].
  all: destruct (N.eqb_spec n 237); [intros [= <- <- <-]; subst; right; left; repeat split; lia|].
  all: destruct (N.leb_spec 225 n), (N.leb_spec n 239); cbn [andb];
    try (intros [= <- <- <-]; right; left; repeat split; lia).
  all: destruct (N.eqb_spec n 240); [intros [= <- <- <-]; subst; right; right; repeat split; lia|].
  all: destruct (N.eqb_spec n 244); [intros [= <- <- <-]; subst; right; right; repeat split; lia|].
  all: destruct (N.leb_spec 241 n), (N.leb_spec n 243); cbn [andb];
    try discriminate; try (intros [= <- <- <-]; right; right; repeat split; lia).
Qed.

Lemma lead_completes c k l h :
  lead (code c) = Some (k, l, h) -> completes k (String c EmptyString) l h.
Proof.
  intros L. destruct (lead_range _ _ _ _ L) as [(-> & A & -> & ->) | [(-> & A & -> & ->) | (-> & A & -> & ->)]].
  - intros b t B T. now apply well_formed_two.
  - intros b B d t D T. now apply well_formed_three.
  - intros b B d D e t E T. now apply well_formed_four.
Qed.

Lemma well_formed_FFFD t : well_formed (FFFD +:+ t) = well_formed t.
Proof. reflexivity. Qed.

Lemma decode_gives_well_formed s :
  forall st, pending_ok st -> well_formed (decode st s) = true.
Proof.
  induction s as [|c r IH]; intros st OK.
  - destruct st; reflexivity.
  - cbn [decode].
    match goal with |- context [match st with None => ?x | Some _ => _ end] =>
      set (start := x) end.
    assert (S : well_formed start = true).
    { subst start. destruct (N.ltb_spec (code c) 128) as [A|A].
      - rewrite (well_formed_ascii _ _ A). now apply IH.
      - destruct (lead (code c)) as [[[k l] h]|] eqn:L.
        + apply IH. cbn [pending_ok needed seen lo hi]. now apply lead_completes.
        + rewrite well_formed_FFFD. now apply IH. }
    destruct st as [u|]; [|exact S].
    destruct (N.leb_spec (lo u) (code c)), (N.leb_spec (code c) (hi u)); cbn [andb];
      try (rewrite well_formed_FFFD; exact S).
    cbn [pending_ok] in OK.
    destruct (needed u) as [|[|n]].
    + apply OK; [lia | now apply IH].
    + apply OK; [lia | now apply IH].
    + apply IH. cbn [pending_ok needed seen lo hi]. apply OK. lia.
Qed.

End Utf8Output.

Lemma Buffer_toString_is_well_formed b : well_formed (Buffer_toString b) = true.
Proof. now apply decode_gives_well_formed. Qed.

Section Strings.

Lemma append_cons c a b : String c a +:+ b = String c (a +:+ b).
Proof. reflexivity. Qed.

Lemma append_empty_l s : EmptyString +:+ s = s.
Proof. reflexivity. Qed.

Lemma append_empty_r s : s +:+ EmptyString = s.
Proof. induction s as [|c s IH]; [reflexivity|]. now rewrite append_cons, IH. Qed.

Lemma append_assoc a b c : (a +:+ b) +:+ c = a +:+ (b +:+ c).
Proof. induction a as [|x a IH]; [reflexivity|]. now rewrite !append_cons, IH. Qed.

Lemma rev_string_append a b : rev_string (a +:+ b) = rev_string b +:+ rev_string a.
Proof.
  induction a as [|x a IH].
  - now rewrite append_empty_l, append_empty_r.
  - rewrite append_cons. cbn [rev_string]. now rewrite IH, append_assoc.
Qed.

Lemma rev_string_involutive s : rev_string (rev_string s) = s.
Proof.
  induction s as [|x s IH]; [reflexivity|].
  cbn [rev_string]. rewrite rev_string_append, IH. reflexivity.
Qed.

Lemma startsWith_spec s p : startsWith s p = true <-> exists r, s = p +:+ r.
Proof.
  revert s. induction p as [|b p IH]; intros s.
  - destruct s; cbn [startsWith]; split; eauto.
  - destruct s as [|a s]; cbn [startsWith].
    + split; [discriminate | intros [r H]; discriminate].
    + destruct (Ascii.eqb_spec a b) as [->|Hne].
      * rewrite IH. split; intros [r H]; exists r.
        -- rewrite append_cons. congruence.
        -- rewrite append_cons in H. congruence.
      * split; [discriminate | intros [r H]; rewrite append_cons in H; congruence].
Qed.

Lemma endsWith_spec s x : endsWith s x = true <-> exists stem, s = stem +:+ x.
Proof.
  unfold endsWith. rewrite startsWith_spec. split.
  - intros [r H]. exists (rev_string r).
    rewrite <- (rev_string_involutive s), H, rev_string_append.
    now rewrite rev_string_involutive.
  - intros [stem ->]. exists (rev_string stem). apply rev_string_append.
Qed.

Lemma toLowerCase_append a b : toLowerCase (a +:+ b) = toLowerCase a +:+ toLowerCase b.
Proof.
  induction a as [|c a IH]; [reflexivity|].
  rewrite append_cons. cbn [toLowerCase]. now rewrite append_cons, IH.
Qed.

Lemma toLowerCase_split s a b :
  toLowerCase s = a +:+ b ->
  exists s1 s2, s = s1 +:+ s2 /\ toLowerCase s1 = a /\ toLowerCase s2 = b.
Proof.
  revert s. induction a as [|x a IH]; intros s H.
  - exists EmptyString, s. auto.
  - destruct s as [|c s]; [discriminate|].
    cbn [toLowerCase] in H. rewrite append_cons in H. injection H as Hc Hs.
    destruct (IH _ Hs) as (s1 & s2 & -> & <- & <-).
    exists (String c s1), s2. cbn [toLowerCase]. now rewrite Hc.
Qed.

Lemma isTextFile_spec name :
  InstructionsRoute.isTextFile name = true <-> has_text_extension name.
Proof.
  unfold InstructionsRoute.isTextFile, has_text_extension.
  rewrite existsb_exists. split.
  - intros (ext & Hin & He). apply endsWith_spec in He as [stem' He].
    destruct (toLowerCase_split _ _ _ He) as (stem & suffix & -> & _ & <-).
    now exists stem, suffix.
  - intros (stem & suffix & -> & Hin).
    exists (toLowerCase suffix). split; [exact Hin|].
    apply endsWith_spec. exists (toLowerCase stem). apply toLowerCase_append.
Qed.

End Strings.

Lemma instruction_content_stored name bytes :
  content_as_stored name bytes (InstructionsRoute.instruction_content name bytes).
Proof.
  unfold content_as_stored, InstructionsRoute.instruction_content.
  destruct (InstructionsRoute.isTextFile name) eqn:T; split.
  - intros _. split; [reflexivity|].
    split; [apply Buffer_toString_is_well_formed|]. split.
    + intros E. rewrite <- E. apply Buffer_toString_is_well_formed.
    + apply Buffer_toString_well_formed.
  - apply isTextFile_spec in T. tauto.
  - intros H. apply isTextFile_spec in H. congruence.
  - reflexivity.
Qed.

Section DiskOnly.
Context {A B : Type}.

Lemma disk_only_bind (m : M A) (k : A -> M B) :
  disk_only m -> (forall a, disk_only (k a)) -> disk_only (bind m k).
Proof.
  intros Hm Hk s. unfold bind. specialize (Hm s).
  destruct (m s) as [[a|e] s1]; simpl in *; [|exact Hm].
  destruct Hm as [<- <-]. apply Hk.
Qed.

Lemma disk_only_try_catch (m : M A) (h : Thrown -> M A) :
  disk_only m -> (forall e, disk_only (h e)) -> disk_only (try_catch m h).
Proof.
  intros Hm Hh s. unfold try_catch. specialize (Hm s).
  destruct (m s) as [[a|e] s1]; simpl in *; [exact Hm|].
  destruct Hm as [<- <-]. apply Hh.
Qed.

Lemma disk_only_read_only (m : M A) : read_only m -> disk_only m.
Proof. intros H s. now rewrite H. Qed.

(** A [catch] block that only yields a value makes the whole statement
    return. *)
Lemma try_catch_ret (m : M A) (f : Thrown -> A) s :
  exists a s', try_catch m (fun e => ret (f e)) s = (Returns a, s').
Proof. unfold try_catch. destruct (m s) as [[a|e] s1]; now eexists _, _. Qed.

End DiskOnly.

Lemma disk_only_mkdirSync w p : disk_only (fs.mkdirSync w p).
Proof.
  intros s. unfold fs.mkdirSync.
  destruct (fs_fault w _); [easy|]. now destruct (files s !! p).
Qed.

Lemma disk_only_writeFileSync w p d : disk_only (fs.writeFileSync w p d).
Proof.
  intros s. unfold fs.writeFileSync.
  destruct (fs_fault w _); [easy|]. now destruct (bool_decide _).
Qed.

Lemma disk_only_unlinkSync w p : disk_only (fs.unlinkSync w p).
Proof.
  intros s. unfold fs.unlinkSync.
  destruct (fs_fault w _); [easy|]. now destruct (files s !! p).
Qed.

Lemma disk_only_write_json w p v : disk_only (InstructionsRoute.write_json w p v).
Proof.
  unfold InstructionsRoute.write_json. destruct (JSON_stringify v).
  - apply disk_only_writeFileSync.
  - apply disk_only_read_only, read_only_throw.
Qed.

Create HintDb disk discriminated.
#[export] Hint Resolve disk_only_mkdirSync disk_only_writeFileSync disk_only_unlinkSync
  disk_only_write_json : disk.
#[export] Hint Extern 3 (disk_only _) => (apply disk_only_read_only; solve [ro]) : disk.

Ltac disk :=
  repeat first
    [ progress auto with disk
    | apply disk_only_bind; [| intros ?]
    | apply disk_only_try_catch; [| intros ?]
    | match goal with
      | |- disk_only (if ?b then _ else _) => destruct b
      | |- disk_only (match ?x with _ => _ end) => destruct x
      | |- disk_only (let _ := _ in _) => cbv zeta
      end ].

Lemma disk_only_getSafeInstructionsDir w :
  disk_only (InstructionsRoute.getSafeInstructionsDir w).
Proof. unfold InstructionsRoute.getSafeInstructionsDir. disk. Qed.

Lemma disk_only_save_locally w d : disk_only (InstructionsRoute.save_locally w d).
Proof.
  unfold InstructionsRoute.save_locally.
  apply disk_only_bind; [apply disk_only_getSafeInstructionsDir|].
  intros [dir|]; disk.
Qed.

Lemma save_locally_returns w d s :
  exists s', InstructionsRoute.save_locally w d s = (Returns tt, s')
             /\ instructionsCache s' = instructionsCache s
             /\ tempFilePath s' = tempFilePath s.
Proof.
  pose proof (disk_only_save_locally w d s) as Hd.
  unfold InstructionsRoute.save_locally in *.
  unfold InstructionsRoute.getSafeInstructionsDir in *.
  match goal with |- context [try_catch ?m (fun _ => ret None)] =>
    destruct (try_catch_ret m (fun _ => None) s) as (dir & s1 & E) end.
  rewrite (bind_returns _ _ _ _ _ E) in *.
  destruct dir as [dir|].
  - match goal with |- context [try_catch ?m (fun _ => ret tt)] =>
      destruct (try_catch_ret m (fun _ => tt) s1) as ([] & s2 & E2) end.
    rewrite E2 in *. now exists s2.
  - now exists s1.
Qed.

Lemma drive_backup_returns w p n s :
  exists driveFile, InstructionsRoute.drive_backup w p n s = (Returns driveFile, s).
Proof.
  assert (R : read_only (InstructionsRoute.drive_backup w p n))
    by (unfold InstructionsRoute.drive_backup; ro).
  rewrite (run_read_only _ s R).
  unfold InstructionsRoute.drive_backup.
  match goal with |- context [try_catch ?m (fun _ => ret ?v)] =>
    destruct (try_catch_ret m (fun _ => v) s) as (x & s1 & E) end.
  rewrite E. now exists x.
Qed.

(** *** Creating an instruction *)

Lemma create_spec w name bytes s :
  let content := InstructionsRoute.instruction_content name bytes in
  let id := InstructionsRoute.instructionId w in
  match InstructionsRoute.save_temporarily w id content s with
  | (Throws e, s1) => InstructionsRoute.create w name bytes s = (Throws e, s1)
  | (Returns path, s1) =>
      exists driveFile s2,
        InstructionsRoute.create w name bytes s
          = (Returns (InstructionsRoute.created id name content driveFile), s2)
        /\ instructionsCache s2
           = <[ id := InstructionsRoute.instructionData w id name content driveFile ]>
               (instructionsCache s)
  end.
Proof.
  intros content id.
  destruct (InstructionsRoute.save_temporarily w id content s) as [[path|e] s1] eqn:S.
  - assert (C1 : instructionsCache s1 = instructionsCache s).
    { revert S. unfold InstructionsRoute.save_temporarily, bind, set_tempFilePath,
        fs.writeFileSync. cbv zeta. simpl.
      destruct (fs_fault w _); [discriminate|].
      destruct (bool_decide _); [discriminate|]. now intros [= _ <-]. }
    destruct (drive_backup_returns w path (id +:+ "_" +:+ name) s1) as [driveFile D].
    set (d := InstructionsRoute.instructionData w id name content driveFile).
    destruct (save_locally_returns w d
                (with_cache (<[ id := d ]> (instructionsCache s1)) s1))
      as (s2 & L & Lc & _).
    exists driveFile, s2. split.
    + unfold InstructionsRoute.create. fold content. fold id.
      rewrite (bind_returns _ _ _ _ _ S), (bind_returns _ _ _ _ _ D).
      cbv zeta. fold d.
      unfold bind. unfold InstructionsRoute.cache_set at 1. now rewrite L.
    + rewrite Lc. simpl. now rewrite C1.
  - unfold InstructionsRoute.create. fold content. fold id.
    now rewrite (bind_throws _ _ _ _ _ S).
Qed.

Lemma POST_instruction w form name bytes s :
  formData_get form "instruction" = Some (Upload name bytes) ->
  InstructionsRoute.POST w (Returns form) s =
    try_finally (try_catch (InstructionsRoute.create w name bytes) InstructionsRoute.on_error)
      (UploadRoute.cleanup w) (start s).
Proof.
  intros F. unfold InstructionsRoute.POST.
  rewrite (bind_returns (set_tempFilePath None) _ s tt (start s) eq_refl).
  unfold try_finally, try_catch.
  rewrite (bind_returns (await (Returns form)) _ _ form _ eq_refl).
  cbv zeta. rewrite F.
  change (negb (entry_truthy (Some (Upload name bytes)))) with false. cbv iota.
  now rewrite (bind_returns (as_file (Some (Upload name bytes))) _ _ (name, bytes) _ eq_refl).
Qed.

Lemma POST_instruction_200 w form name bytes s r s' :
  formData_get form "instruction" = Some (Upload name bytes) ->
  InstructionsRoute.POST w (Returns form) s = (Returns r, s') ->
  status r = 200 ->
  let content := InstructionsRoute.instruction_content name bytes in
  let id := InstructionsRoute.instructionId w in
  exists driveFile,
    r = InstructionsRoute.created id name content driveFile
    /\ instructionsCache s'
       = <[ id := InstructionsRoute.instructionData w id name content driveFile ]>
           (instructionsCache s).
Proof.
  intros F P H200 content id.
  rewrite (POST_instruction _ _ _ _ _ F) in P.
  pose proof (create_spec w name bytes (start s)) as C. cbv zeta in C.
  fold content in C. fold id in C.
  unfold try_finally, try_catch in P.
  destruct (InstructionsRoute.save_temporarily w id content (start s)) as [[path|e] s1].
  - destruct C as (driveFile & s2 & C & Hc). rewrite C in P.
    destruct (cleanup_spec w s2) as (s3 & Cl & _ & _ & Cc & _). rewrite Cl in P.
    injection P as <- <-. exists driveFile. split; [reflexivity|].
    now rewrite Cc, Hc.
  - rewrite C in P. unfold InstructionsRoute.on_error, ret in P.
    destruct (cleanup_spec w s1) as (s3 & Cl & _). rewrite Cl in P.
    injection P as <- _. discriminate H200.
Qed.

(** The staged file makes the request succeed. *)
Lemma POST_instruction_created w form name bytes s path s1 :
  formData_get form "instruction" = Some (Upload name bytes) ->
  InstructionsRoute.save_temporarily w (InstructionsRoute.instructionId w)
    (InstructionsRoute.instruction_content name bytes) (start s) = (Returns path, s1) ->
  exists r s', InstructionsRoute.POST w (Returns form) s = (Returns r, s') /\ status r = 200.
Proof.
  intros F S.
  rewrite (POST_instruction _ _ _ _ _ F).
  pose proof (create_spec w name bytes (start s)) as C. cbv zeta in C. rewrite S in C.
  destruct C as (driveFile & s2 & C & _).
  destruct (cleanup_spec w s2) as (s3 & Cl & _).
  unfold try_finally, try_catch. rewrite C, Cl. now eexists _, _.
Qed.

(** *** The earlier, on-disk revision *)

Lemma on_disk_POST_200 w form name bytes s r s' :
  formData_get form "instruction" = Some (Upload name bytes) ->
  InstructionsRouteOnDisk.POST w (Returns form) s = (Returns r, s') ->
  status r = 200 ->
  let content := InstructionsRoute.instruction_content name bytes in
  let id := InstructionsRoute.instructionId w in
  let localPath := Path.join_paths [InstructionsRouteOnDisk.instructionsDir w; id +:+ ".txt"] in
  let metadataPath :=
    Path.join_paths [InstructionsRouteOnDisk.instructionsDir w; id +:+ ".meta.json"] in
  get_opt (body r) "content" = JStr content
  /\ exists metadata,
       files s' = <[ metadataPath := metadata ]>
                    (<[ localPath := {| bytes := content; mtime := Date_iso w |} ]> (files s)).
Proof.
  intros F P H200 content id localPath metadataPath.
  unfold InstructionsRouteOnDisk.POST in P. unfold try_catch at 1 in P.
  match type of P with context [match ?body s with _ => _ end] =>
    destruct (body s) as [[r0|e] s0] eqn:B end;
    [|injection P as <- _; discriminate H200].
  injection P as -> ->. rename B into P.
  rewrite (bind_returns (await (Returns form)) _ _ form _ eq_refl) in P.
  cbv zeta in P. rewrite F in P.
  change (negb (entry_truthy (Some (Upload name bytes)))) with false in P. cbv iota in P.
  rewrite (bind_returns (as_file (Some (Upload name bytes))) _ _ (name, bytes) _ eq_refl) in P.
  fold content in P. fold id in P. fold localPath in P. fold metadataPath in P.
  unfold bind at 1 in P.
  unfold fs.writeFileSync at 1 in P.
  destruct (fs_fault w (write localPath)); [discriminate P|].
  destruct (bool_decide (localPath ∈ dirs s)); [discriminate P|].
  set (s1 := with_files _ s) in P.
  unfold bind at 1 in P.
  match type of P with context [try_catch ?m (fun _ => ret ?v)] =>
    assert (R : read_only (try_catch m (fun _ => ret v))) by ro;
    destruct (try_catch_ret m (fun _ => v) s1) as (driveFile & s2 & D)
  end.
  pose proof (returns_read_only _ _ _ _ R D) as ->.
  rewrite D in P. clear R D.
  unfold bind at 1 in P. unfold InstructionsRoute.write_json in P.
  match type of P with context [JSON_stringify ?v] =>
    destruct (JSON_stringify v) as [text|] end;
    [|discriminate P].
  unfold fs.writeFileSync in P.
  destruct (fs_fault w (write metadataPath)); [discriminate P|].
  destruct (bool_decide (metadataPath ∈ dirs s1)); [discriminate P|].
  unfold ret in P. injection P as <- <-.
  split; [reflexivity|]. eexists. reflexivity.
Qed.

(** *** The text kept for an instruction *)

(** Counterexample to claim C7 as stated: a [.txt] upload whose bytes are
    Latin-1, not UTF-8.  The creation succeeds, and the stored content is
    not the uploaded bytes: the byte E9 has become U+FFFD. *)
Lemma C7_counterexample :
  exists r s' d,
    has_text_extension "note.txt"
    /\ InstructionsRoute.POST quiet_world (Returns latin1_note) empty_state = (Returns r, s')
    /\ status r = 200
    /\ instructionsCache s' !! "instruction_1700000000000" = Some d
    /\ InstructionData.content d = "caf" +:+ Utf8.FFFD
    /\ InstructionData.content d <> "caf" +:+ String (ascii_of_N 233) EmptyString.
Proof.
  eexists _, _, _.
  split; [exists "note", ".txt"; split; [reflexivity | vm_compute; tauto]|].
  split; [vm_compute; reflexivity|].
  split; [reflexivity|]. split; [vm_compute; reflexivity|].
  split; [vm_compute; reflexivity | vm_compute; discriminate].
Qed.

(** Claim C7, amended.  For an instruction-creation request that succeeds,
    the stored content (the cache entry of the current route, the content
    file of the on-disk revision, and the [content] of the response) is:
    for a name that ends, in any case, in a text extension, the uploaded
    bytes decoded as UTF-8 with every ill-formed sequence replaced by
    U+FFFD, a well-formed text that is the uploaded bytes exactly when
    those were well-formed UTF-8; for any other name, the placeholder
    [[Binary file: name] - Content will be processed by AI when analyzing files.] *)
Theorem C7_instruction_content w form name bytes s :
  formData_get form "instruction" = Some (Upload name bytes) ->
  (forall r s',
     InstructionsRoute.POST w (Returns form) s = (Returns r, s') -> status r = 200 ->
     exists d,
       instructionsCache s' !! InstructionsRoute.instructionId w = Some d
       /\ get_opt (body r) "content" = JStr (InstructionData.content d)
       /\ content_as_stored name bytes (InstructionData.content d))
  /\ (forall r s',
        InstructionsRouteOnDisk.POST w (Returns form) s = (Returns r, s') -> status r = 200 ->
        exists content metadata,
          get_opt (body r) "content" = JStr content
          /\ files s' =
               <[ Path.join_paths [InstructionsRouteOnDisk.instructionsDir w;
                                   InstructionsRoute.instructionId w +:+ ".meta.json"]
                  := metadata ]>
                 (<[ Path.join_paths [InstructionsRouteOnDisk.instructionsDir w;
                                      InstructionsRoute.instructionId w +:+ ".txt"]
                     := {| bytes := content; mtime := Date_iso w |} ]> (files s))
          /\ content_as_stored name bytes content).
Proof.
  intros F. split.
  - intros r s' P H200.
    destruct (POST_instruction_200 _ _ _ _ _ _ _ F P H200) as (driveFile & -> & Hc).
    eexists. split; [rewrite Hc; apply lookup_insert_eq|].
    split; [reflexivity|]. apply instruction_content_stored.
  - intros r s' P H200.
    destruct (on_disk_POST_200 _ _ _ _ _ _ _ F P H200) as (Hr & metadata & Hf).
    exists (InstructionsRoute.instruction_content name bytes), metadata.
    split; [exact Hr|]. split; [exact Hf|]. apply instruction_content_stored.
Qed.

(** The amended C7 at a concrete text file. *)
Lemma C7_instruction_content_witness :
  exists r s' d,
    InstructionsRoute.POST quiet_world (Returns notes) empty_state = (Returns r, s')
    /\ instructionsCache s' !! "instruction_1700000000000" = Some d
    /\ InstructionData.content d = "be brief".
Proof.
  destruct (C7_instruction_content quiet_world notes "Notes.TXT" "be brief" empty_state eq_refl)
    as [H _].
  eexists _, _.
  assert (P : InstructionsRoute.POST quiet_world (Returns notes) empty_state = (_, _))
    by (vm_compute; reflexivity).
  destruct (H _ _ P eq_refl) as (d & L & _ & [T _]).
  exists d. split; [exact P|]. split; [exact L|].
  apply T; [|reflexivity].
  exists "Notes", ".TXT". split; [reflexivity|]. vm_compute. tauto.
Defined.

(** *** The transient file, from its writing to its removal *)

(** The state after the [finally] block, for a handler that assigned [p] to
    [tempFilePath]. *)
Lemma cleanup_at w s1 s' p :
  UploadRoute.cleanup w s1 = (Returns tt, s') ->
  tempFilePath s1 = Some p ->
  tempFilePath s' = Some p
  /\ (fs_fault w (unlink p) = None -> files s' !! p = None).
Proof.
  intros C T.
  destruct (cleanup_spec w s1) as (s2 & C' & Ht & _ & _ & Hf).
  rewrite C in C'. injection C' as <-.
  split; [now rewrite Ht|].
  intros U. rewrite T, U in Hf. rewrite Hf. apply lookup_delete_eq.
Qed.

(** Writing the transient file of an upload: the path is recorded whether
    or not the write succeeds, and after a write that succeeds the file
    holds the uploaded bytes. *)
Lemma save_temporarily_spec w name data s0 :
  exists o s1,
    UploadRoute.save_temporarily w name data s0 = (o, s1)
    /\ tempFilePath s1 = Some (upload_temp_path w name)
    /\ match o with
       | Returns p =>
           p = upload_temp_path w name
           /\ files s1 !! p = Some {| bytes := data; mtime := Date_iso w |}
       | Throws _ => files s1 = files s0
       end.
Proof.
  unfold UploadRoute.save_temporarily, bind, set_tempFilePath, fs.writeFileSync.
  cbv zeta. fold (upload_temp_path w name). simpl.
  destruct (fs_fault w _); [eexists _, _; repeat split|].
  destruct (bool_decide _); [eexists _, _; repeat split|].
  eexists _, _. split; [reflexivity|]. split; [reflexivity|]. split; [reflexivity|].
  simpl. apply lookup_insert_eq.
Qed.

Lemma instruction_save_temporarily_spec w content s0 :
  exists o s1,
    InstructionsRoute.save_temporarily w (InstructionsRoute.instructionId w) content s0
      = (o, s1)
    /\ tempFilePath s1 = Some (instruction_temp_path w)
    /\ instructionsCache s1 = instructionsCache s0
    /\ match o with
       | Returns p =>
           p = instruction_temp_path w
           /\ files s1 !! p = Some {| bytes := content; mtime := Date_iso w |}
       | Throws _ => files s1 = files s0
       end.
Proof.
  unfold InstructionsRoute.save_temporarily, bind, set_tempFilePath, fs.writeFileSync.
  cbv zeta. fold (instruction_temp_path w). simpl.
  destruct (fs_fault w _); [eexists _, _; repeat split|].
  destruct (bool_decide _); [eexists _, _; repeat split|].
  eexists _, _. split; [reflexivity|]. split; [reflexivity|]. split; [reflexivity|].
  split; [reflexivity|]. simpl. apply lookup_insert_eq.
Qed.

(** The steps of the creation that follow the write keep the recorded
    path. *)
Lemma create_keeps_path w name bytes s :
  exists o s2,
    InstructionsRoute.create w name bytes s = (o, s2)
    /\ tempFilePath s2 = Some (instruction_temp_path w).
Proof.
  set (content := InstructionsRoute.instruction_content name bytes).
  set (id := InstructionsRoute.instructionId w).
  destruct (instruction_save_temporarily_spec w content s) as (o & s1 & S & T & _ & _).
  fold id in S.
  unfold InstructionsRoute.create. fold content. fold id.
  destruct o as [path|e].
  - destruct (drive_backup_returns w path (id +:+ "_" +:+ name) s1) as [driveFile D].
    set (d := InstructionsRoute.instructionData w id name content driveFile).
    destruct (save_locally_returns w d
                (with_cache (<[ id := d ]> (instructionsCache s1)) s1))
      as (s2 & L & _ & Lt).
    eexists _, s2. split.
    + rewrite (bind_returns _ _ _ _ _ S), (bind_returns _ _ _ _ _ D).
      cbv zeta. fold d.
      unfold bind. unfold InstructionsRoute.cache_set at 1. now rewrite L.
    + rewrite Lt. exact T.
  - eexists _, s1. split; [|exact T]. now rewrite (bind_throws _ _ _ _ _ S).
Qed.

(** Counterexample to claim C6 as stated: on a disk where removing a file
    fails, the handler answers 200 and the transient file is still there
    when it returns. *)
Lemma C6_counterexample :
  exists r s' p,
    UploadRoute.POST busy_disk (Returns report) empty_state = (Returns r, s')
    /\ status r = 200
    /\ tempFilePath s' = Some p
    /\ files s' !! p = Some {| bytes := "a,b"; mtime := Date_iso busy_disk |}.
Proof.
  eexists _, _, _. split; [vm_compute; reflexivity|].
  split; [reflexivity|]. split; [reflexivity|]. vm_compute. reflexivity.
Qed.

(** Claim C6, amended.  An upload that reaches the writing of its transient
    file (the temp directory is there or was created) is answered, and when
    the handler returns: the path recorded in [tempFilePath] is the one the
    file was written to, [<temp dir>/<timestamp>_<safe name>]; the file
    written there held the uploaded bytes while the chain ran; and that
    path holds no file any more, on the success path and on every failure
    path, unless the removal call itself threw (the [finally] block catches
    that exception and the file stays).  The same holds for the transient
    file [/tmp/<id>.txt] of an instruction creation. *)
Theorem C6_transient_file_removed w s :
  (forall form name data s0,
     formData_get form "file" = Some (Upload name data) ->
     UploadRoute.ensure_tempDir w (start s) = (Returns tt, s0) ->
     exists r s',
       UploadRoute.POST w (Returns form) s = (Returns r, s')
       /\ tempFilePath s' = Some (upload_temp_path w name)
       /\ (forall p s1,
             staging w name data (start s) = (Returns p, s1) ->
             p = upload_temp_path w name
             /\ files s1 !! p = Some {| bytes := data; mtime := Date_iso w |})
       /\ (fs_fault w (unlink (upload_temp_path w name)) = None ->
           files s' !! upload_temp_path w name = None))
  /\ (forall form name bytes,
        formData_get form "instruction" = Some (Upload name bytes) ->
        exists r s',
          InstructionsRoute.POST w (Returns form) s = (Returns r, s')
          /\ tempFilePath s' = Some (instruction_temp_path w)
          /\ (forall p s1,
                InstructionsRoute.save_temporarily w (InstructionsRoute.instructionId w)
                  (InstructionsRoute.instruction_content name bytes) (start s)
                  = (Returns p, s1) ->
                p = instruction_temp_path w
                /\ files s1 !! p
                   = Some {| bytes := InstructionsRoute.instruction_content name bytes;
                             mtime := Date_iso w |})
          /\ (fs_fault w (unlink (instruction_temp_path w)) = None ->
              files s' !! instruction_temp_path w = None)).
Proof.
  split.
  - intros form name data s0 F E.
    destruct (save_temporarily_spec w name data s0) as (o & s1 & S & T & W).
    assert (St : staging w name data (start s) = (o, s1)).
    { unfold staging. now rewrite (bind_returns _ _ _ _ _ E). }
    assert (exists r s', UploadRoute.POST w (Returns form) s = (Returns r, s')
                         /\ UploadRoute.cleanup w s1 = (Returns tt, s'))
      as (r & s' & P & C).
    { destruct o as [p|e].
      - destruct (POST_staged _ _ _ _ _ _ _ F St) as (r & s2 & P & _ & C).
        exists r, s2. split; assumption.
      - destruct (POST_not_staged _ _ _ _ _ _ _ F St) as (s2 & P & C).
        eexists _, s2. split; eassumption. }
    destruct (cleanup_at w s1 s' _ C T) as [T' R].
    exists r, s'. split; [exact P|]. split; [exact T'|]. split; [|exact R].
    intros p s1' St'. rewrite St in St'. injection St' as -> <-. exact W.
  - intros form name bytes F.
    rewrite (POST_instruction _ _ _ _ _ F).
    destruct (create_keeps_path w name bytes (start s)) as (o & s2 & Cr & T).
    assert (exists r, try_catch (InstructionsRoute.create w name bytes)
                        InstructionsRoute.on_error (start s) = (Returns r, s2)) as [r E].
    { unfold try_catch. rewrite Cr. destruct o; eexists; reflexivity. }
    destruct (try_finally_cleanup w _ _ _ _ E) as (s' & P & C).
    destruct (cleanup_at w s2 s' _ C T) as [T' R].
    exists r, s'. split; [exact P|]. split; [exact T'|]. split; [|exact R].
    intros p s1 S.
    destruct (instruction_save_temporarily_spec w
                (InstructionsRoute.instruction_content name bytes) (start s))
      as (o' & s1' & S' & _ & _ & W).
    rewrite S in S'. injection S' as <- <-. exact W.
Qed.

(** The amended C6 at a concrete upload. *)
Lemma C6_transient_file_removed_witness :
  exists r s',
    UploadRoute.POST quiet_world (Returns report) empty_state = (Returns r, s')
    /\ tempFilePath s' = Some "/app/temp/1700000000000_report.txt"
    /\ files (snd (staging quiet_world "report.txt" "a,b" (start empty_state)))
         !! "/app/temp/1700000000000_report.txt"
       = Some {| bytes := "a,b"; mtime := Date_iso quiet_world |}
    /\ files s' !! "/app/temp/1700000000000_report.txt" = None.
Proof.
  destruct (C6_transient_file_removed quiet_world empty_state) as [U _].
  destruct (U report "report.txt" "a,b" _ eq_refl ltac:(vm_compute; reflexivity))
    as (r & s' & P & T & W & R).
  exists r, s'. split; [exact P|]. split; [exact T|].
  split; [vm_compute; reflexivity|]. exact (R eq_refl).
Defined.

Lemma parse_checklist_spec w answer s :
  FillPmpChecklistRoute.parse_checklist w answer s = (Returns (checklist_of answer), s).
Proof.
  unfold FillPmpChecklistRoute.parse_checklist, checklist_of, try_catch.
  destruct (match_braces answer) as [m|]; [|reflexivity].
  unfold bind, JSON_parse_M.
  destruct (Js.JSON_parse m) as [v|]; [|reflexivity].
  unfold ret at 1. unfold prop.
  destruct (get_prop v "checklist"); reflexivity.
Qed.

Lemma load_cached w instructionId c s :
  instructionsCache s !! instructionId = Some c ->
  Instructions.load w (JStr instructionId) s
    = (Returns (Instructions.Found (Some c) (Instructions.metadata_of c)
                  (InstructionData.content c)), s).
Proof.
  intros H. unfold Instructions.load, bind, Instructions.cache_get. now rewrite H.
Qed.

(** *** The sub-actions without the inference key *)

Lemma checklist_key_missing w body instructionId s :
  get_prop body "instructionId" = Some instructionId ->
  truthy instructionId = true ->
  env_truthy w "GEMINI_API_KEY" = false ->
  FillPmpChecklistRoute.POST w (Returns body) s = (Returns Instructions.key_missing, s).
Proof.
  intros Hb Ht Hk. unfold FillPmpChecklistRoute.POST, try_catch.
  rewrite (bind_returns (await (Returns body)) _ _ body _ eq_refl).
  unfold bind, prop. rewrite Hb. unfold ret at 1. now rewrite Ht, Hk.
Qed.

Lemma feedback_key_missing w body instructionId s :
  get_prop body "instructionId" = Some instructionId ->
  truthy instructionId = true ->
  env_truthy w "GEMINI_API_KEY" = false ->
  GenerateFeedbackRoute.POST w (Returns body) s = (Returns Instructions.key_missing, s).
Proof.
  intros Hb Ht Hk. unfold GenerateFeedbackRoute.POST, try_catch.
  rewrite (bind_returns (await (Returns body)) _ _ body _ eq_refl).
  unfold bind, prop. rewrite Hb. unfold ret at 1. now rewrite Ht, Hk.
Qed.

(** *** Generating a checklist for a cached instruction *)

Lemma checklist_cached w instructionId c s answer :
  instructionId <> EmptyString ->
  env_truthy w "GEMINI_API_KEY" = true ->
  instructionsCache s !! instructionId = Some c ->
  generateContent w Instructions.flash
    (FillPmpChecklistRoute.checklistPrompt (InstructionData.content c)
       (InstructionData.customPrompt c)) = Returns answer ->
  answer <> EmptyString ->
  FillPmpChecklistRoute.POST w (Returns (request_for instructionId)) s
    = (Returns (checklist_response (Instructions.metadata_of c) (checklist_of answer)),
       with_cache (<[ instructionId := InstructionData.with_pmpChecklist c (checklist_of answer) ]>
                     (instructionsCache s)) s).
Proof.
  intros Hid Hk Hc Hg Ha.
  unfold FillPmpChecklistRoute.POST, try_catch.
  rewrite (bind_returns (await (Returns (request_for instructionId))) _ _ _ _ eq_refl).
  rewrite (bind_returns (prop (request_for instructionId) "instructionId") _ _
             (JStr instructionId) _ eq_refl).
  assert (Ht : truthy (JStr instructionId) = true).
  { simpl. now destruct (String.eqb_spec instructionId EmptyString). }
  rewrite Ht, Hk. cbn [negb].
  rewrite (bind_returns _ _ _ _ _ (load_cached w _ _ _ Hc)).
  rewrite (bind_returns (prop (Instructions.metadata_of c) "customPrompt") _ _
             (InstructionData.customPrompt c) _ eq_refl).
  unfold bind at 1. unfold await. rewrite Hg.
  destruct (String.eqb_spec answer EmptyString) as [E|_]; [contradiction|].
  rewrite (bind_returns _ _ _ _ _ (parse_checklist_spec w answer s)).
  reflexivity.
Qed.

(** *** A checklist for an instruction kept on disk *)

Lemma stringify_object ind props : exists text, stringify ind (JObj props) = Some text.
Proof.
  cbn [stringify].
  match goal with |- context [match ?parts with _ => _ end] => destruct parts end;
    eexists; reflexivity.
Qed.

Lemma get_prop_spread_with v k x : get_prop (spread_with v k x) k = Some x.
Proof.
  unfold spread_with. cbn [get_prop]. f_equal.
  induction (own_entries v) as [|[k' y] l IH]; cbn [obj_set assoc].
  - now rewrite String.eqb_refl.
  - destruct (String.eqb_spec k k') as [->|Hne]; cbn [assoc].
    + now rewrite String.eqb_refl.
    + destruct (String.eqb_spec k k'); [contradiction|exact IH].
Qed.

Lemma obj_set_other l k x k' : k' <> k -> assoc k' (obj_set l k x) = assoc k' l.
Proof.
  intros Hne. induction l as [|[k0 v] l IH]; cbn [obj_set assoc].
  - destruct (String.eqb_spec k' k); [contradiction | reflexivity].
  - destruct (String.eqb_spec k k0) as [->|Hk]; cbn [assoc].
    + destruct (String.eqb_spec k' k0); [contradiction | reflexivity].
    + destruct (String.eqb_spec k' k0); [reflexivity | exact IH].
Qed.

(** The request for an instruction kept on disk runs up to the rewriting
    of the metadata file, whose outcome decides the answer. *)
Lemma checklist_from_disk w instructionId s metadata body_file customPrompt answer :
  instructionId <> EmptyString ->
  env_truthy w "GEMINI_API_KEY" = true ->
  on_disk_only w instructionId s metadata body_file ->
  get_prop metadata "customPrompt" = Some customPrompt ->
  generateContent w Instructions.flash
    (FillPmpChecklistRoute.checklistPrompt (Utf8.Buffer_toString (bytes body_file))
       customPrompt) = Returns answer ->
  answer <> EmptyString ->
  FillPmpChecklistRoute.POST w (Returns (request_for instructionId)) s
  = match InstructionsRoute.write_json w (Instructions.metaPath w (JStr instructionId))
            (spread_with metadata "pmpChecklist" (checklist_of answer)) s with
    | (Returns _, s1) => (Returns (checklist_response metadata (checklist_of answer)), s1)
    | (Throws e, s1) => Instructions.on_error "checklist" e s1
    end.
Proof.
  intros Hid Hk (Hc & (meta & Hm & Hp) & Hrm & Hb & Hrb) Hcp Hg Ha.
  unfold FillPmpChecklistRoute.POST, try_catch.
  rewrite (bind_returns (await (Returns (request_for instructionId))) _ _ _ _ eq_refl).
  rewrite (bind_returns (prop (request_for instructionId) "instructionId") _ _
             (JStr instructionId) _ eq_refl).
  assert (Htr : truthy (JStr instructionId) = true).
  { simpl. now destruct (String.eqb_spec instructionId EmptyString). }
  rewrite Htr, Hk. cbn [negb].
  assert (L : Instructions.load w (JStr instructionId) s
              = (Returns (Instructions.Found None metadata
                            (Utf8.Buffer_toString (bytes body_file))), s)).
  { unfold Instructions.load, bind, Instructions.cache_get. rewrite Hc.
    unfold fs.existsSync.
    rewrite Hm. rewrite bool_decide_eq_true_2 by eauto. cbn [orb negb]. cbv beta iota.
    unfold fs.readFileSync at 1. rewrite Hrm, Hm.
    unfold JSON_parse_M. rewrite Hp. unfold ret at 1.
    cbn [ToString]. rewrite Hb.
    rewrite bool_decide_eq_true_2 by eauto. cbn [orb negb]. cbv beta iota.
    unfold fs.readFileSync. now rewrite Hrb, Hb. }
  rewrite (bind_returns _ _ _ _ _ L).
  unfold bind at 1. unfold prop. rewrite Hcp. unfold ret at 1.
  unfold bind at 1. unfold await. rewrite Hg.
  destruct (String.eqb_spec answer EmptyString) as [E|_]; [contradiction|].
  rewrite (bind_returns _ _ _ _ _ (parse_checklist_spec w answer s)).
  unfold Instructions.store. unfold bind. unfold fs.existsSync.
  rewrite Hm. rewrite bool_decide_eq_true_2 by eauto. cbn [orb].
  destruct (InstructionsRoute.write_json _ _ _ s) as [[[]|e] s1]; reflexivity.
Qed.

(** Rewriting a metadata file, when the write goes through. *)
Lemma write_json_spec w p props s :
  fs_fault w (write p) = None -> p ∉ dirs s ->
  exists written,
    JSON_stringify (JObj props) = Some written
    /\ InstructionsRoute.write_json w p (JObj props) s
       = (Returns tt, with_files (<[ p := {| bytes := written; mtime := Date_iso w |} ]> (files s)) s).
Proof.
  intros Hw Hd. destruct (stringify_object EmptyString props) as [written Hs].
  exists written. split; [exact Hs|].
  unfold InstructionsRoute.write_json, JSON_stringify. rewrite Hs.
  unfold fs.writeFileSync. rewrite Hw.
  now rewrite bool_decide_eq_false_2 by exact Hd.
Qed.

(** *** Regenerating a checklist *)

(** Counterexample to claim C8 as stated: an instruction holding an
    eight-row checklist is regenerated from an answer with one row; the
    stored checklist is that single row, not an eight-item structure. *)
Lemma C8_counterexample :
  exists r s' d,
    FillPmpChecklistRoute.POST (answering one_row)
      (Returns (request_for "instruction_1700000000000")) plan_cached = (Returns r, s')
    /\ status r = 200
    /\ instructionsCache s' !! "instruction_1700000000000" = Some d
    /\ InstructionData.pmpChecklist d
       = JArr [JObj [("srNo", JInt 1); ("compliance", JStr "Yes")]]
    /\ ~ eight_items (InstructionData.pmpChecklist d).
Proof.
  eexists _, _, _. split; [vm_compute; reflexivity|].
  split; [reflexivity|]. split; [vm_compute; reflexivity|].
  split; [reflexivity|].
  intros (items & E & L). injection E as <-. discriminate L.
Qed.

(** Claim C8, amended.  A successful regeneration replaces the stored
    checklist by [checklist_of answer], a value computed from the model's
    answer alone, of whatever length the answer gave it: nothing of the
    previous checklist is kept, merged or appended.  For a cached
    instruction the record in the cache has the new checklist and every
    other field as before, and the other entries and the disk are
    untouched.  For an instruction kept on disk only, whose metadata file
    can be rewritten, the file holds the JSON text of an object whose
    [pmpChecklist] is the new checklist and whose other properties are those
    of the metadata read, and the cache and the other files are untouched.
    In both cases the response carries the same checklist. *)
Theorem C8_checklist_replaced w instructionId s answer :
  instructionId <> EmptyString ->
  env_truthy w "GEMINI_API_KEY" = true ->
  answer <> EmptyString ->
  (forall c,
     instructionsCache s !! instructionId = Some c ->
     generateContent w Instructions.flash
       (FillPmpChecklistRoute.checklistPrompt (InstructionData.content c)
          (InstructionData.customPrompt c)) = Returns answer ->
     exists r s' d,
       FillPmpChecklistRoute.POST w (Returns (request_for instructionId)) s = (Returns r, s')
       /\ status r = 200
       /\ instructionsCache s' !! instructionId = Some d
       /\ InstructionData.pmpChecklist d = checklist_of answer
       /\ same_but_checklist c d
       /\ get_opt (body r) "checklist" = checklist_of answer
       /\ get_opt (get_opt (body r) "instruction") "pmpChecklist" = checklist_of answer
       /\ (forall k, k <> instructionId -> instructionsCache s' !! k = instructionsCache s !! k)
       /\ files s' = files s)
  /\ (forall metadata body_file customPrompt,
        on_disk_only w instructionId s metadata body_file ->
        get_prop metadata "customPrompt" = Some customPrompt ->
        generateContent w Instructions.flash
          (FillPmpChecklistRoute.checklistPrompt (Utf8.Buffer_toString (bytes body_file))
             customPrompt) = Returns answer ->
        fs_fault w (write (Instructions.metaPath w (JStr instructionId))) = None ->
        Instructions.metaPath w (JStr instructionId) ∉ dirs s ->
        exists r s' updated written,
          FillPmpChecklistRoute.POST w (Returns (request_for instructionId)) s = (Returns r, s')
          /\ status r = 200
          /\ files s' !! Instructions.metaPath w (JStr instructionId)
             = Some {| bytes := written; mtime := Date_iso w |}
          /\ JSON_stringify updated = Some written
          /\ get_prop updated "pmpChecklist" = Some (checklist_of answer)
          /\ (forall k, k <> "pmpChecklist" ->
                        assoc k (own_entries updated) = assoc k (own_entries metadata))
          /\ get_opt (body r) "checklist" = checklist_of answer
          /\ get_opt (body r) "instruction" = updated
          /\ (forall p, p <> Instructions.metaPath w (JStr instructionId) ->
                        files s' !! p = files s !! p)
          /\ instructionsCache s' = instructionsCache s).
Proof.
  intros Hid Hk Ha. split.
  - intros c Hc Hg.
    pose proof (checklist_cached w instructionId _ s answer Hid Hk Hc Hg Ha) as P.
    eexists _, _, _. split; [exact P|].
    split; [reflexivity|]. split; [simpl; now rewrite lookup_insert_eq|].
    split; [reflexivity|]. split; [repeat split|].
    split; [reflexivity|]. split; [reflexivity|].
    split; [|reflexivity].
    intros k Hne. simpl. now rewrite lookup_insert_ne.
  - intros metadata body_file customPrompt D Hcp Hg Hw Hd.
    rewrite (checklist_from_disk _ _ _ _ _ _ _ Hid Hk D Hcp Hg Ha).
    unfold spread_with.
    destruct (write_json_spec w _ (obj_set (own_entries metadata) "pmpChecklist"
                                     (checklist_of answer)) s Hw Hd)
      as (written & Hs & ->).
    eexists _, _, (spread_with metadata "pmpChecklist" (checklist_of answer)), written.
    split; [reflexivity|]. split; [reflexivity|].
    split; [simpl; apply lookup_insert_eq|]. split; [exact Hs|].
    split; [apply get_prop_spread_with|].
    split; [intros k Hne; now apply obj_set_other|].
    split; [reflexivity|]. split; [reflexivity|].
    split; [|reflexivity].
    intros p Hne. simpl. now rewrite lookup_insert_ne.
Qed.

(** The amended C8 at a concrete regeneration, in the cache and on disk. *)
Lemma C8_checklist_replaced_witness :
  (exists r s' d,
     FillPmpChecklistRoute.POST (answering one_row)
       (Returns (request_for "instruction_1700000000000")) plan_cached = (Returns r, s')
     /\ instructionsCache s' !! "instruction_1700000000000" = Some d
     /\ InstructionData.pmpChecklist d
        = JArr [JObj [("srNo", JInt 1); ("compliance", JStr "Yes")]]
     /\ InstructionData.content d = "Version 3, approved by the board.")
  /\ (exists r s' updated written,
        FillPmpChecklistRoute.POST (answering one_row) (Returns (request_for "instruction_7"))
          plan_on_disk = (Returns r, s')
        /\ files s' !! "/app/instructions/instruction_7.meta.json"
           = Some {| bytes := written; mtime := Date_iso (answering one_row) |}
        /\ JSON_stringify updated = Some written
        /\ get_prop updated "pmpChecklist"
           = Some (JArr [JObj [("srNo", JInt 1); ("compliance", JStr "Yes")]])).
Proof.
  split.
  - destruct (C8_checklist_replaced (answering one_row) "instruction_1700000000000"
                plan_cached one_row ltac:(discriminate) eq_refl ltac:(discriminate))
      as [H _].
    destruct (H plan ltac:(vm_compute; reflexivity) eq_refl)
      as (r & s' & d & P & _ & L & N & K & _).
    exists r, s', d. split; [exact P|]. split; [exact L|]. split; [exact N|].
    unfold same_but_checklist, same_elsewhere in K.
    now destruct K as ((_ & _ & -> & _) & _).
  - destruct (C8_checklist_replaced (answering one_row) "instruction_7"
                plan_on_disk one_row ltac:(discriminate) eq_refl ltac:(discriminate))
      as [_ H].
    destruct (H (JObj [("fileName", JStr "plan.txt");
                       ("pmpChecklist", JArr [JInt 1; JInt 2; JInt 3])])
                {| bytes := "Version 3, approved by the board.";
                   mtime := "2023-11-14T22:13:20.000Z" |}
                JUndefined)
      as (r & s' & updated & written & P & _ & L & J & G & _).
    + split; [reflexivity|].
      split; [eexists; split; [vm_compute; reflexivity | vm_compute; reflexivity]|].
      split; [reflexivity|]. split; [vm_compute; reflexivity | reflexivity].
    + reflexivity.
    + reflexivity.
    + reflexivity.
    + vm_compute. set_solver.
    + exists r, s', updated, written. split; [exact P|]. split; [exact L|].
      split; [exact J | exact G].
Defined.

(** *** The answer that cannot be read *)

Lemma fallback_checklist_shape :
  FillPmpChecklistRoute.fallback_checklist =
    JArr (List.map
            (fun n => JObj [ ("srNo", JInt n);
                             ("checklist", JStr ("Checklist item " +:+ string_of_Z n));
                             ("compliance", JStr "Not Found");
                             ("remark", JStr "AI analysis failed to parse response") ])
            [1; 2; 3; 4; 5; 6; 7; 8])
  /\ eight_items FillPmpChecklistRoute.fallback_checklist.
Proof. split; [reflexivity|]. eexists. split; reflexivity. Qed.





(** *** Missing credentials *)

(** A Drive whose creation call throws, as it does without credentials,
    leaves the instruction without a backup. *)
Lemma uploadFile_create_fails w p n t s :
  (forall params, exists e, drive_files_create w params = Throws e) ->
  fst (GoogleDriveService.uploadFile w p n t s) = Returns drive_no_quota
  \/ exists e, fst (GoogleDriveService.uploadFile w p n t s) = Throws e.
Proof.
  intros H. unfold GoogleDriveService.uploadFile, try_catch, bind, get_state, await.
  cbv zeta.
  match goal with |- context [drive_files_create w ?params] =>
    destruct (H params) as [e ->] end.
  destruct (message_includes e _); [left | right; eexists]; reflexivity.
Qed.

Lemma no_backup_flag driveFile :
  get_opt driveFile "success" = JBool false ->
  truthy (js_and driveFile (get_opt driveFile "success")) = false.
Proof.
  intros H. unfold js_and. rewrite H.
  destruct (truthy driveFile) eqn:T; [reflexivity | exact T].
Qed.

Lemma drive_backup_create_fails w p n s :
  (forall params, exists e, drive_files_create w params = Throws e) ->
  exists driveFile,
    InstructionsRoute.drive_backup w p n s = (Returns driveFile, s)
    /\ get_opt driveFile "success" = JBool false.
Proof.
  intros H.
  destruct (drive_backup_returns w p n s) as [driveFile D].
  exists driveFile. split; [exact D|].
  revert D. unfold InstructionsRoute.drive_backup, try_catch.
  destruct (uploadFile_create_fails w p n (Some "text/plain") s H) as [E | [e E]];
    destruct (GoogleDriveService.uploadFile w p n (Some "text/plain") s) as [[up|e'] s1];
    simpl in E; try discriminate E.
  - injection E as ->. now intros [= <- _].
  - now intros [= <- _].
Qed.

(** The creation of an instruction, once its transient file is written. *)
Lemma POST_instruction_backup w form name bytes s path s1 :
  formData_get form "instruction" = Some (Upload name bytes) ->
  InstructionsRoute.save_temporarily w (InstructionsRoute.instructionId w)
    (InstructionsRoute.instruction_content name bytes) (start s) = (Returns path, s1) ->
  exists r s' driveFile,
    InstructionsRoute.POST w (Returns form) s = (Returns r, s')
    /\ r = InstructionsRoute.created (InstructionsRoute.instructionId w) name
             (InstructionsRoute.instruction_content name bytes) driveFile
    /\ InstructionsRoute.drive_backup w path
         (InstructionsRoute.instructionId w +:+ "_" +:+ name) s1 = (Returns driveFile, s1).
Proof.
  intros F S.
  rewrite (POST_instruction _ _ _ _ _ F).
  set (content := InstructionsRoute.instruction_content name bytes) in *.
  set (id := InstructionsRoute.instructionId w) in *.
  destruct (drive_backup_returns w path (id +:+ "_" +:+ name) s1) as [driveFile D].
  set (d := InstructionsRoute.instructionData w id name content driveFile).
  destruct (save_locally_returns w d
              (with_cache (<[ id := d ]> (instructionsCache s1)) s1))
    as (s2 & L & _).
  assert (C : InstructionsRoute.create w name bytes (start s)
              = (Returns (InstructionsRoute.created id name content driveFile), s2)).
  { unfold InstructionsRoute.create. fold content. fold id.
    rewrite (bind_returns _ _ _ _ _ S), (bind_returns _ _ _ _ _ D).
    cbv zeta. fold d.
    unfold bind. unfold InstructionsRoute.cache_set at 1. now rewrite L. }
  destruct (cleanup_spec w s2) as (s3 & Cl & _).
  unfold try_finally, try_catch. rewrite C, Cl.
  now eexists _, _, driveFile.
Qed.

(** The on-disk revision, when both of its files can be written. *)
Lemma on_disk_POST_written w form name bytes s :
  formData_get form "instruction" = Some (Upload name bytes) ->
  let id := InstructionsRoute.instructionId w in
  let localPath := Path.join_paths [InstructionsRouteOnDisk.instructionsDir w; id +:+ ".txt"] in
  let metadataPath :=
    Path.join_paths [InstructionsRouteOnDisk.instructionsDir w; id +:+ ".meta.json"] in
  fs_fault w (write localPath) = None -> localPath ∉ dirs s ->
  fs_fault w (write metadataPath) = None -> metadataPath ∉ dirs s ->
  exists r s' driveFile,
    InstructionsRouteOnDisk.POST w (Returns form) s = (Returns r, s')
    /\ status r = 200
    /\ get_opt (body r) "driveFile" = driveFile
    /\ get_opt (body r) "message"
       = JStr (if truthy (js_and driveFile (get_opt driveFile "success"))
               then "File uploaded successfully with Google Drive backup"
               else "File uploaded successfully (Google Drive backup unavailable)")
    /\ ((forall params, exists e, drive_files_create w params = Throws e) ->
        get_opt driveFile "success" = JBool false).
Proof.
  intros F id localPath metadataPath Hl Hdl Hm Hdm.
  unfold InstructionsRouteOnDisk.POST. unfold try_catch at 1.
  rewrite (bind_returns (await (Returns form)) _ _ form _ eq_refl).
  cbv zeta. rewrite F.
  change (negb (entry_truthy (Some (Upload name bytes)))) with false. cbv iota.
  rewrite (bind_returns (as_file (Some (Upload name bytes))) _ _ (name, bytes) _ eq_refl).
  fold id. fold localPath. fold metadataPath.
  unfold bind at 1. unfold fs.writeFileSync at 1. rewrite Hl.
  rewrite (bool_decide_eq_false_2 _ Hdl).
  set (s1 := with_files _ s).
  unfold bind at 1.
  fold (InstructionsRoute.drive_backup w localPath (id +:+ "_" +:+ name)).
  destruct (drive_backup_returns w localPath (id +:+ "_" +:+ name) s1) as [driveFile D].
  rewrite D.
  unfold bind at 1. unfold InstructionsRoute.write_json.
  match goal with |- context [JSON_stringify (JObj ?props)] =>
    destruct (stringify_object EmptyString props) as [text T];
    unfold JSON_stringify; rewrite T end.
  unfold fs.writeFileSync. rewrite Hm.
  rewrite (bool_decide_eq_false_2 _ Hdm).
  eexists _, _, driveFile. split; [reflexivity|]. split; [reflexivity|].
  split; [reflexivity|]. split; [reflexivity|].
  intros H. destruct (drive_backup_create_fails w localPath (id +:+ "_" +:+ name) s1 H)
    as (driveFile' & D' & Hs).
  rewrite D in D'. now injection D' as ->.
Qed.

(** The listing of the cache revision answers 200, whatever the platform,
    the environment and the disk. *)
Lemma listing_always_answers pf w s :
  exists r s',
    InstructionsRoute.GET pf w s = (Returns r, s')
    /\ status r = 200
    /\ get_opt (body r) "success" = JBool true.
Proof.
  unfold InstructionsRoute.GET, try_catch at 1.
  unfold bind at 1. unfold get_state at 1.
  unfold InstructionsRoute.getSafeInstructionsDir.
  match goal with |- context [try_catch ?m (fun _ => ret None)] =>
    destruct (try_catch_ret m (fun _ => None) s) as (dir & s1 & E) end.
  rewrite (bind_returns _ _ _ _ _ E).
  destruct dir as [dir|].
  - match goal with |- context [try_catch ?m (fun _ => ret ?v)] =>
      destruct (try_catch_ret m (fun _ => v) s1) as (l & s2 & E2) end.
    rewrite (bind_returns _ _ _ _ _ E2). now eexists _, _.
  - now eexists _, _.
Qed.

(** The listing of the on-disk revision reads nothing of the
    environment. *)
Lemma on_disk_listing_env pf w e s :
  InstructionsRouteOnDisk.GET pf (with_env e w) s = InstructionsRouteOnDisk.GET pf w s.
Proof. reflexivity. Qed.

Lemma on_disk_listing_answers pf w s :
  exists r s', InstructionsRouteOnDisk.GET pf w s = (Returns r, s')
               /\ (status r = 200 \/ r = Listing.failed).
Proof.
  unfold InstructionsRouteOnDisk.GET, try_catch.
  match goal with |- context [match ?m s with _ => _ end] =>
    destruct (m s) as [[l|e] s1] eqn:E end.
  - revert E. unfold bind.
    destruct (Listing.readdir _ _ s) as [[files|?] s2]; [|discriminate].
    destruct (mapM _ _ s2) as [[items|?] s3]; [|discriminate].
    intros [= <- <-]. eexists _, _. split; [reflexivity|]. now left.
  - eexists _, _. split; [reflexivity|]. now right.
Qed.

(** The upload, once the file is staged, with the status of each
    dependency. *)
Lemma POST_staged_status w form name data s path s1 :
  formData_get form "file" = Some (Upload name data) ->
  staging w name data (start s) = (Returns path, s1) ->
  exists r s',
    UploadRoute.POST w (Returns form) s = (Returns r, s')
    /\ status r = 200
    /\ (UploadRoute.hasGoogleDrive w = false ->
        get_opt (get_opt (body r) "serviceStatus") "googleDrive"
          = JStr "Google Drive not configured")
    /\ (UploadRoute.hasGemini w = false ->
        get_opt (get_opt (body r) "serviceStatus") "geminiAnalysis"
          = JStr "Gemini API not configured").
Proof.
  intros F S.
  destruct (POST_staged _ _ _ _ _ _ _ F S) as (r & s2 & P & A & _).
  exists r, s2. split; [exact P|].
  destruct (analyse_spec w path name data (formData_get form "instructionFileId") s1)
    as (url & local & up & derr & a & ai & gerr & flag & _ & _ & D & G & _ & _ & A').
  rewrite A' in A. injection A as <-. split; [reflexivity|]. split.
  - intros Hd. rewrite (drive_step_unconfigured _ _ _ _ Hd) in D.
    now injection D as <- <-.
  - intros Hg. rewrite (gemini_step_unconfigured _ _ _ _ _ Hg) in G.
    now injection G as <- <- <-.
Qed.

(** Whether an upload is answered 200 does not depend on the environment:
    it is decided by the staging of the file alone. *)
Lemma upload_status_env w e request s r s1 r' s2 :
  UploadRoute.POST (with_env e w) request s = (Returns r, s1) ->
  UploadRoute.POST w request s = (Returns r', s2) ->
  status r = 200 -> status r' = 200.
Proof.
  intros P P' H.
  destruct (POST_200 _ _ _ _ _ P H) as (form & name & data & path & s0 & -> & F & S & _).
  change (staging (with_env e w) name data (start s)) with (staging w name data (start s)) in S.
  destruct (POST_staged _ _ _ _ _ _ _ F S) as (r0 & s3 & P0 & A & _).
  rewrite P' in P0. injection P0 as <- <-.
  destruct (analyse_spec w path name data (formData_get form "instructionFileId") s0)
    as (? & ? & ? & ? & ? & ? & ? & ? & _ & _ & _ & _ & _ & _ & A').
  rewrite A' in A. now injection A as <-.
Qed.

(** Counterexample to claim C5 as stated: without GEMINI_API_KEY both
    sub-actions reject the request with status 500, while the same
    checklist request succeeds once the key is set. *)
Lemma C5_counterexample :
  FillPmpChecklistRoute.POST (with_env ∅ (answering one_row))
    (Returns (request_for "instruction_1700000000000")) plan_cached
    = (Returns Instructions.key_missing, plan_cached)
  /\ GenerateFeedbackRoute.POST (with_env ∅ (answering one_row))
       (Returns (request_for "instruction_1700000000000")) plan_cached
     = (Returns Instructions.key_missing, plan_cached)
  /\ status Instructions.key_missing = 500
  /\ exists r s',
       FillPmpChecklistRoute.POST (answering one_row)
         (Returns (request_for "instruction_1700000000000")) plan_cached = (Returns r, s')
       /\ status r = 200.
Proof.
  split; [vm_compute; reflexivity|]. split; [vm_compute; reflexivity|].
  split; [reflexivity|].
  eexists _, _. split; [vm_compute; reflexivity|reflexivity].
Qed.

(** Claim C5, amended.  The two AI sub-actions are the exception: without
    GEMINI_API_KEY they reject every request that names an instruction with
    status 500 and change nothing.  On every other endpoint a missing
    credential rejects nothing.  The upload answers 200 once its file is
    staged and reports a dependency without credentials as not configured;
    an upload that is answered 200 with some environment is answered 200
    with any other.  The creation of an instruction, in both revisions,
    answers 200 once its files are written, and when the Drive call fails,
    as it does without credentials, reports that there is no backup.  The
    status route answers 200 and shows a dependency without credentials as
    not available.  The listing of the instructions reads no credential: in
    the cache revision it always answers 200, and in the on-disk revision
    its outcome is the same whatever the environment holds. *)
Theorem C5_missing_credentials pf w s :
  (forall form name data path s1,
     formData_get form "file" = Some (Upload name data) ->
     staging w name data (start s) = (Returns path, s1) ->
     exists r s',
       UploadRoute.POST w (Returns form) s = (Returns r, s')
       /\ status r = 200
       /\ (UploadRoute.hasGoogleDrive w = false ->
           get_opt (get_opt (body r) "serviceStatus") "googleDrive"
             = JStr "Google Drive not configured")
       /\ (UploadRoute.hasGemini w = false ->
           get_opt (get_opt (body r) "serviceStatus") "geminiAnalysis"
             = JStr "Gemini API not configured"))
  /\ (forall e request r s1 r' s2,
        UploadRoute.POST (with_env e w) request s = (Returns r, s1) ->
        UploadRoute.POST w request s = (Returns r', s2) ->
        status r = 200 -> status r' = 200)
  /\ (forall form name bytes path s1,
        formData_get form "instruction" = Some (Upload name bytes) ->
        InstructionsRoute.save_temporarily w (InstructionsRoute.instructionId w)
          (InstructionsRoute.instruction_content name bytes) (start s) = (Returns path, s1) ->
        exists r s',
          InstructionsRoute.POST w (Returns form) s = (Returns r, s')
          /\ status r = 200
          /\ ((forall params, exists e, drive_files_create w params = Throws e) ->
              get_opt (get_opt (body r) "driveFile") "success" = JBool false
              /\ get_opt (body r) "message"
                 = JStr "File stored in session (configure Google Drive for persistence)"))
  /\ (forall form name bytes,
        formData_get form "instruction" = Some (Upload name bytes) ->
        let id := InstructionsRoute.instructionId w in
        let localPath :=
          Path.join_paths [InstructionsRouteOnDisk.instructionsDir w; id +:+ ".txt"] in
        let metadataPath :=
          Path.join_paths [InstructionsRouteOnDisk.instructionsDir w; id +:+ ".meta.json"] in
        fs_fault w (write localPath) = None -> localPath ∉ dirs s ->
        fs_fault w (write metadataPath) = None -> metadataPath ∉ dirs s ->
        exists r s',
          InstructionsRouteOnDisk.POST w (Returns form) s = (Returns r, s')
          /\ status r = 200
          /\ ((forall params, exists e, drive_files_create w params = Throws e) ->
              get_opt (get_opt (body r) "driveFile") "success" = JBool false
              /\ get_opt (body r) "message"
                 = JStr "File uploaded successfully (Google Drive backup unavailable)"))
  /\ (exists r,
        StatusRoute.GET w s = (Returns r, s)
        /\ status r = 200
        /\ get_opt (get_opt (get_opt (body r) "services") "googleDrive") "available"
           = JBool (UploadRoute.hasGoogleDrive w)
        /\ get_opt (get_opt (get_opt (body r) "services") "geminiAnalysis") "available"
           = JBool (UploadRoute.hasGemini w))
  /\ (exists r s',
        InstructionsRoute.GET pf w s = (Returns r, s')
        /\ status r = 200
        /\ get_opt (body r) "success" = JBool true)
  /\ ((forall e, InstructionsRouteOnDisk.GET pf (with_env e w) s
                 = InstructionsRouteOnDisk.GET pf w s)
      /\ exists r s', InstructionsRouteOnDisk.GET pf w s = (Returns r, s')
                      /\ (status r = 200 \/ r = Listing.failed))
  /\ (forall body instructionId,
        get_prop body "instructionId" = Some instructionId ->
        truthy instructionId = true ->
        env_truthy w "GEMINI_API_KEY" = false ->
        GenerateFeedbackRoute.POST w (Returns body) s = (Returns Instructions.key_missing, s)
        /\ FillPmpChecklistRoute.POST w (Returns body) s = (Returns Instructions.key_missing, s)
        /\ status Instructions.key_missing = 500).
Proof.
  split; [intros; eapply POST_staged_status; eauto|].
  split; [intros e request r s1 r' s2; apply upload_status_env|].
  split.
  { intros form name bytes path s1 F S.
    destruct (POST_instruction_backup _ _ _ _ _ _ _ F S) as (r & s' & driveFile & P & -> & D).
    eexists _, s'. split; [exact P|]. split; [reflexivity|].
    intros H.
    destruct (drive_backup_create_fails w path
                (InstructionsRoute.instructionId w +:+ "_" +:+ name) s1 H)
      as (driveFile' & D' & Hs).
    rewrite D in D'. injection D' as <-.
    split; [exact Hs|].
    unfold InstructionsRoute.created. rewrite (no_backup_flag _ Hs). reflexivity. }
  split.
  { intros form name bytes F id localPath metadataPath Hl Hdl Hm Hdm.
    destruct (on_disk_POST_written w form name bytes s F Hl Hdl Hm Hdm)
      as (r & s' & driveFile & P & S200 & Hdf & Hmsg & Hfail).
    exists r, s'. split; [exact P|]. split; [exact S200|].
    intros H. specialize (Hfail H). rewrite Hdf. split; [exact Hfail|].
    rewrite Hmsg. now rewrite (no_backup_flag _ Hfail). }
  split; [eexists; repeat split|].
  split; [apply listing_always_answers|].
  split; [split; [intros e; apply on_disk_listing_env | apply on_disk_listing_answers]|].
  intros body instructionId Hb Ht Hk. split; [|split; [|reflexivity]].
  - now apply feedback_key_missing with (instructionId := instructionId).
  - now apply checklist_key_missing with (instructionId := instructionId).
Qed.

(** The amended C5 in a world without any credential. *)
Lemma C5_missing_credentials_witness :
  (exists r s',
     UploadRoute.POST quiet_world (Returns report) empty_state = (Returns r, s')
     /\ status r = 200
     /\ get_opt (get_opt (body r) "serviceStatus") "googleDrive"
        = JStr "Google Drive not configured"
     /\ get_opt (get_opt (body r) "serviceStatus") "geminiAnalysis"
        = JStr "Gemini API not configured")
  /\ (exists r s',
        InstructionsRoute.POST quiet_world (Returns notes) empty_state = (Returns r, s')
        /\ status r = 200
        /\ get_opt (body r) "message"
           = JStr "File stored in session (configure Google Drive for persistence)")
  /\ FillPmpChecklistRoute.POST quiet_world
       (Returns (request_for "instruction_1700000000000")) plan_cached
     = (Returns Instructions.key_missing, plan_cached).
Proof.
  destruct (C5_missing_credentials plain_platform quiet_world empty_state)
    as (U & _ & I & _).
  destruct (C5_missing_credentials plain_platform quiet_world plan_cached)
    as (_ & _ & _ & _ & _ & _ & _ & K).
  split; [|split].
  - destruct (U report "report.txt" "a,b" _ _ eq_refl ltac:(vm_compute; reflexivity))
      as (r & s' & P & S & D & G).
    exists r, s'. split; [exact P|]. split; [exact S|].
    split; [exact (D eq_refl) | exact (G eq_refl)].
  - destruct (I notes "Notes.TXT" "be brief" _ _ eq_refl ltac:(vm_compute; reflexivity))
      as (r & s' & P & S & M).
    exists r, s'. split; [exact P|]. split; [exact S|].
    apply M. intros params. eexists. reflexivity.
  - apply (K (request_for "instruction_1700000000000") (JStr "instruction_1700000000000")
             eq_refl eq_refl eq_refl).
Defined.

(** *** Deleting an unknown instruction *)

Lemma delete_known w instructionId s :
  DeleteRoute.present w instructionId s = true ->
  exists r s', DeleteRoute.DELETE w (Some instructionId) s = (Returns r, s')
               /\ status r = 200
               /\ instructionsCache s' !! instructionId = None.
Proof.
  intros H. unfold DeleteRoute.DELETE, bind, get_state. rewrite H.
  unfold DeleteRoute.cache_delete.
  set (s1 := with_cache _ s).
  assert (D : forall p, disk_only (DeleteRoute.remove_file w p))
    by (intros p; unfold DeleteRoute.remove_file; disk).
  destruct (try_catch_ret (fs.unlinkSync w (DeleteRoute.contentPath w instructionId))
              (fun _ => tt) s1) as ([] & s2 & E2).
  pose proof (D (DeleteRoute.contentPath w instructionId) s1) as [C2 _].
  unfold DeleteRoute.remove_file in *. rewrite E2 in *. simpl in C2.
  destruct (try_catch_ret (fs.unlinkSync w (DeleteRoute.metadataPath w instructionId))
              (fun _ => tt) s2) as ([] & s3 & E3).
  pose proof (D (DeleteRoute.metadataPath w instructionId) s2) as [C3 _].
  rewrite E3 in *. simpl in C3.
  eexists _, s3. split; [reflexivity|]. split; [reflexivity|].
  rewrite C3, C2. apply lookup_delete_eq.
Qed.

(** Claim C9.  Deleting an id that is neither in the in-memory map nor on
    disk answers with the not-found response (status 404) and leaves the
    whole state, map and files, as it was. *)
Theorem C9_delete_unknown w instructionId s :
  instructionsCache s !! instructionId = None ->
  files s !! DeleteRoute.contentPath w instructionId = None ->
  files s !! DeleteRoute.metadataPath w instructionId = None ->
  exists r,
    DeleteRoute.DELETE w (Some instructionId) s = (Returns r, s)
    /\ status r = 404
    /\ get_opt (body r) "success" = JBool false
    /\ get_opt (body r) "error" = JStr "Instruction not found".
Proof.
  intros Hc Hf Hm.
  assert (P : DeleteRoute.present w instructionId s = false).
  { unfold DeleteRoute.present. rewrite Hc, Hf, Hm.
    rewrite !bool_decide_eq_false_2 by (intros [? ?]; discriminate). reflexivity. }
  unfold DeleteRoute.DELETE, bind, get_state. rewrite P.
  eexists. repeat split.
Qed.

(** Claim C9 at a concrete unknown id. *)
Lemma C9_delete_unknown_witness :
  exists r,
    DeleteRoute.DELETE quiet_world (Some "instruction_42") plan_cached = (Returns r, plan_cached)
    /\ status r = 404.
Proof.
  destruct (C9_delete_unknown quiet_world "instruction_42" plan_cached
              ltac:(vm_compute; reflexivity) ltac:(vm_compute; reflexivity)
              ltac:(vm_compute; reflexivity))
    as (r & P & S & _).
  now exists r.
Defined.

(* ===================================================================== *)
(** ** Further properties of the code *)
(* ===================================================================== *)

(** *** The sanitised file name *)

Lemma safe_char_ascii c : UploadRoute.is_safe_char c = true -> (code c < 128)%N.
Proof.
  unfold UploadRoute.is_safe_char. cbv zeta.
  rewrite !orb_true_iff, !andb_true_iff, !N.leb_le, !N.eqb_eq. lia.
Qed.

Lemma safe_name_chars s : all_chars in_safe_class (UploadRoute.safe_name s) = true.
Proof.
  induction s as [|c s IH]; [reflexivity|].
  cbn [UploadRoute.safe_name]. cbv zeta.
  destruct (UploadRoute.is_safe_char c) eqn:S.
  - cbn [all_chars]. unfold in_safe_class at 1. now rewrite S, IH.
  - repeat match goal with |- context [if ?b then _ else _] => destruct b end;
      rewrite ?append_cons, ?append_empty_l; cbn [all_chars]; now rewrite ?IH.
Qed.

Lemma safe_name_fixed t :
  all_chars in_safe_class t = true -> UploadRoute.safe_name t = t.
Proof.
  induction t as [|c t IH]; [reflexivity|].
  cbn [all_chars UploadRoute.safe_name]. cbv zeta.
  rewrite andb_true_iff. intros [C T]. rewrite (IH T).
  destruct (UploadRoute.is_safe_char c) eqn:S; [reflexivity|].
  unfold in_safe_class in C. rewrite S in C. simpl in C.
  apply N.eqb_eq in C. unfold code in C.
  rewrite <- (ascii_N_embedding c), C. reflexivity.
Qed.

Lemma safe_name_length s :
  Z.of_nat (String.length (UploadRoute.safe_name s)) = js_length s.
Proof.
  induction s as [|c s IH]; [reflexivity|].
  cbn [UploadRoute.safe_name js_length]. cbv zeta.
  destruct (UploadRoute.is_safe_char c) eqn:S.
  - apply safe_char_ascii in S.
    cbn [String.length]. rewrite Nat2Z.inj_succ, IH.
    destruct (N.leb_spec 128 (code c)); [lia|]. simpl.
    destruct (N.leb_spec 240 (code c)); lia.
  - destruct (N.ltb_spec (code c) 128).
    + rewrite append_cons, append_empty_l. cbn [String.length].
      rewrite Nat2Z.inj_succ, IH.
      destruct (N.leb_spec 128 (code c)); [lia|]. simpl.
      destruct (N.leb_spec 240 (code c)); lia.
    + destruct (N.ltb_spec (code c) 192).
      * rewrite IH. destruct (N.leb_spec 128 (code c)); [|lia]. simpl. lia.
      * destruct (N.leb_spec 128 (code c)); [|lia]. simpl.
        destruct (N.ltb_spec (code c) 240).
        -- rewrite append_cons, append_empty_l. cbn [String.length].
           rewrite Nat2Z.inj_succ, IH.
           destruct (N.leb_spec 240 (code c)); lia.
        -- rewrite !append_cons, append_empty_l. cbn [String.length].
           rewrite !Nat2Z.inj_succ, IH.
           destruct (N.leb_spec 240 (code c)); lia.
Qed.

(** X1.  The name under which an upload is staged is made of the
    characters [a-zA-Z0-9.-] and the underscore only, has exactly as many
    characters as the original name has UTF-16 units, and sanitising it again
    changes nothing. *)
Theorem X1_safe_name_sanitised name :
  all_chars in_safe_class (UploadRoute.safe_name name) = true
  /\ Z.of_nat (String.length (UploadRoute.safe_name name)) = js_length name
  /\ UploadRoute.safe_name (UploadRoute.safe_name name) = UploadRoute.safe_name name.
Proof.
  split; [apply safe_name_chars|]. split; [apply safe_name_length|].
  apply safe_name_fixed, safe_name_chars.
Qed.

(** *** The upload route and the instruction cache *)

Section CacheBlind.
Context {A B : Type}.

Lemma cache_blind_bind (m : M A) (k : A -> M B) :
  cache_blind m -> (forall a, cache_blind (k a)) -> cache_blind (bind m k).
Proof.
  intros Hm Hk s c. unfold bind. rewrite Hm.
  destruct (m s) as [[a|e] s1]; simpl; [apply Hk | reflexivity].
Qed.

Lemma cache_blind_try_catch (m : M A) (h : Thrown -> M A) :
  cache_blind m -> (forall e, cache_blind (h e)) -> cache_blind (try_catch m h).
Proof.
  intros Hm Hh s c. unfold try_catch. rewrite Hm.
  destruct (m s) as [[a|e] s1]; simpl; [reflexivity | apply Hh].
Qed.

Lemma cache_blind_try_finally (m : M A) (f : M unit) :
  cache_blind m -> cache_blind f -> cache_blind (try_finally m f).
Proof.
  intros Hm Hf s c. unfold try_finally. rewrite Hm.
  destruct (m s) as [r s1]; simpl. rewrite Hf.
  destruct (f s1) as [[[]|e] s2]; reflexivity.
Qed.

Lemma cache_blind_ret (a : A) : cache_blind (ret a).
Proof. intros s c. reflexivity. Qed.

Lemma cache_blind_throw e : cache_blind (@throw A e).
Proof. intros s c. reflexivity. Qed.

Lemma cache_blind_await (o : Outcome A) : cache_blind (await o).
Proof. intros s c. reflexivity. Qed.

(** Reading the state is allowed when what is done with it does not depend
    on the cache. *)
Lemma cache_blind_get_state (k : St -> M A) :
  (forall s c, k (with_cache c s) = k s) -> (forall s, cache_blind (k s)) ->
  cache_blind (bind get_state k).
Proof.
  intros Hk Hb s c. unfold bind, get_state. rewrite Hk. apply Hb.
Qed.

End CacheBlind.

Lemma cache_blind_set_tempFilePath p : cache_blind (set_tempFilePath p).
Proof. intros s c. reflexivity. Qed.

Lemma cache_blind_existsSync p : cache_blind (fs.existsSync p).
Proof. intros s c. reflexivity. Qed.

Lemma cache_blind_mkdirSync w p : cache_blind (fs.mkdirSync w p).
Proof.
  intros s c. unfold fs.mkdirSync. cbn [files with_cache].
  destruct (fs_fault w (mkdir p)); [reflexivity|].
  destruct (files s !! p); reflexivity.
Qed.

Lemma cache_blind_writeFileSync w p d : cache_blind (fs.writeFileSync w p d).
Proof.
  intros s c. unfold fs.writeFileSync. cbn [dirs with_cache].
  destruct (fs_fault w (write p)); [reflexivity|].
  destruct (bool_decide (p ∈ dirs s)); reflexivity.
Qed.

Lemma cache_blind_readFileSync w p : cache_blind (fs.readFileSync w p).
Proof.
  intros s c. unfold fs.readFileSync. cbn [files dirs with_cache].
  destruct (fs_fault w (read p)); [reflexivity|].
  destruct (files s !! p); reflexivity.
Qed.

Lemma cache_blind_statSync w p : cache_blind (fs.statSync w p).
Proof.
  intros s c. unfold fs.statSync. cbn [files dirs with_cache].
  destruct (fs_fault w (stat p)); [reflexivity|].
  destruct (files s !! p); [reflexivity|].
  destruct (bool_decide (p ∈ dirs s)); reflexivity.
Qed.

Lemma cache_blind_unlinkSync w p : cache_blind (fs.unlinkSync w p).
Proof.
  intros s c. unfold fs.unlinkSync. cbn [files dirs with_cache].
  destruct (fs_fault w (unlink p)); [reflexivity|].
  destruct (files s !! p); reflexivity.
Qed.

Lemma cache_blind_prop v k : cache_blind (prop v k).
Proof.
  unfold prop. destruct (get_prop v k); [apply cache_blind_ret | apply cache_blind_throw].
Qed.

Lemma cache_blind_JSON_parse_M w t : cache_blind (JSON_parse_M w t).
Proof.
  unfold JSON_parse_M.
  destruct (Js.JSON_parse t); [apply cache_blind_ret | apply cache_blind_throw].
Qed.

Create HintDb blind discriminated.
#[export] Hint Resolve cache_blind_ret cache_blind_throw cache_blind_await
  cache_blind_set_tempFilePath cache_blind_existsSync cache_blind_mkdirSync
  cache_blind_writeFileSync cache_blind_readFileSync cache_blind_statSync
  cache_blind_unlinkSync cache_blind_prop cache_blind_JSON_parse_M : blind.

Ltac blind :=
  repeat first
    [ progress auto with blind
    | match goal with
      | |- cache_blind (bind get_state _) =>
          apply cache_blind_get_state; [intros ? ?; reflexivity | intros ?]
      | |- cache_blind (bind _ _) => apply cache_blind_bind; [| intros ?]
      | |- cache_blind (try_catch _ _) => apply cache_blind_try_catch; [| intros ?]
      | |- cache_blind (try_finally _ _) => apply cache_blind_try_finally
      | |- cache_blind (if ?b then _ else _) => destruct b
      | |- cache_blind (match ?x with _ => _ end) => destruct x
      | |- cache_blind (let _ := _ in _) => cbv zeta
      end ].

Lemma cache_blind_analyzeFile w p n u : cache_blind (LocalAnalyzer.analyzeFile w p n u).
Proof. unfold LocalAnalyzer.analyzeFile. blind. Qed.

Lemma cache_blind_uploadFile w p n t : cache_blind (GoogleDriveService.uploadFile w p n t).
Proof. unfold GoogleDriveService.uploadFile. blind. Qed.

Lemma cache_blind_new w : cache_blind (GeminiService.new w).
Proof. unfold GeminiService.new. blind. Qed.

Lemma cache_blind_analyzeFileWithInstruction w a b :
  cache_blind (GeminiService.analyzeFileWithInstruction w a b).
Proof. unfold GeminiService.analyzeFileWithInstruction. blind. Qed.

#[export] Hint Resolve cache_blind_analyzeFile cache_blind_uploadFile cache_blind_new
  cache_blind_analyzeFileWithInstruction : blind.

Lemma cache_blind_cleanup w : cache_blind (UploadRoute.cleanup w).
Proof. unfold UploadRoute.cleanup. blind. Qed.

Lemma cache_blind_analyse w p n b i : cache_blind (UploadRoute.analyse w p n b i).
Proof.
  unfold UploadRoute.analyse, UploadRoute.instruction_url, UploadRoute.drive_step,
    UploadRoute.gemini_step.
  blind.
Qed.

#[export] Hint Resolve cache_blind_cleanup cache_blind_analyse : blind.

Lemma cache_blind_POST w request : cache_blind (UploadRoute.POST w request).
Proof.
  unfold UploadRoute.POST, UploadRoute.ensure_tempDir, UploadRoute.save_temporarily,
    UploadRoute.on_error, as_file.
  blind.
Qed.

Lemma with_cache_same s : with_cache (instructionsCache s) s = s.
Proof. now destruct s. Qed.

(** X3.  The upload route neither reads nor writes the instruction cache:
    started with any other cache it gives the same answer and leaves the same
    disk, and the cache it was started with is still there when it returns.
    An instruction that exists only in memory is invisible to an upload that
    names it. *)
Theorem X3_upload_ignores_cache w request s c :
  UploadRoute.POST w request (with_cache c s)
    = (fst (UploadRoute.POST w request s), with_cache c (snd (UploadRoute.POST w request s)))
  /\ instructionsCache (snd (UploadRoute.POST w request s)) = instructionsCache s.
Proof.
  split; [apply cache_blind_POST|].
  assert (H := cache_blind_POST w request s (instructionsCache s)).
  rewrite with_cache_same in H.
  destruct (UploadRoute.POST w request s) as [r s'] eqn:E. simpl in *.
  injection H as H. rewrite H at 1. reflexivity.
Qed.

(** *** The outcomes of the storage and inference steps *)

Lemma uploadFile_throws w p n t s e s' :
  GoogleDriveService.uploadFile w p n t s = (Throws e, s') ->
  e = Err "Failed to upload file to Google Drive".
Proof.
  unfold GoogleDriveService.uploadFile, try_catch.
  match goal with |- context [match ?body s with _ => _ end] =>
    destruct (body s) as [[v|e0] s1] end; [discriminate|].
  destruct (message_includes e0 _); [discriminate|].
  unfold throw. now intros [= <- _].
Qed.

(** X7.  [uploadFile] has three outcomes and no other: the success object
    built around the id Drive returned, the fallback object for a service
    account without storage quota, or the error
    [Failed to upload file to Google Drive]; the provider's own error never
    reaches the caller, and the state is left as it was. *)
Theorem X7_uploadFile_outcomes w p n t s :
  exists o, GoogleDriveService.uploadFile w p n t s = (o, s)
    /\ ((exists fileId, o = Returns (drive_success fileId))
        \/ o = Returns drive_no_quota
        \/ o = Throws (Err "Failed to upload file to Google Drive")).
Proof.
  rewrite (run_read_only _ s (read_only_uploadFile w p n t)).
  destruct (GoogleDriveService.uploadFile w p n t s) as [[up|e] s1] eqn:E; simpl.
  - exists (Returns up). split; [reflexivity|].
    destruct (uploadFile_shape _ _ _ _ _ _ _ E) as [_ [[fileId ->] | ->]].
    + left. now exists fileId.
    + right. now left.
  - exists (Throws e). split; [reflexivity|].
    right. right. now rewrite (uploadFile_throws _ _ _ _ _ _ _ E).
Qed.

Lemma drive_step_cases w p n s up derr s' :
  UploadRoute.drive_step w p n s = (Returns (up, derr), s') ->
  (derr = JNull /\ exists fileId, up = drive_success fileId)
  \/ (up = JNull /\ exists d, derr = JStr d /\ In d (tl drive_statuses)).
Proof.
  unfold UploadRoute.drive_step.
  destruct (UploadRoute.hasGoogleDrive w).
  - unfold try_catch, bind.
    destruct (GoogleDriveService.uploadFile w p n None s) as [[r|e] s1] eqn:E.
    + destruct (uploadFile_shape _ _ _ _ _ _ _ E) as [_ [[fileId ->] | ->]]; simpl.
      * intros [= <- <- _]. left. split; [reflexivity | now exists fileId].
      * intros [= <- <- _]. right. split; [reflexivity|].
        eexists. split; [reflexivity|]. simpl. tauto.
    + rewrite (uploadFile_throws _ _ _ _ _ _ _ E). simpl.
      intros [= <- <- _]. right. split; [reflexivity|].
      eexists. split; [reflexivity|]. simpl. tauto.
  - intros [= <- <- _]. right. split; [reflexivity|].
    eexists. split; [reflexivity|]. simpl. tauto.
Qed.

Lemma analyzeFileWithInstruction_throws w a b s e s' :
  GeminiService.analyzeFileWithInstruction w a b s = (Throws e, s') ->
  exists m, e = Err m
    /\ In m [ "Gemini API rate limit exceeded. Please try again in a few minutes.";
              "Gemini API key not configured or invalid";
              "Failed to analyze file with instruction" ].
Proof.
  unfold GeminiService.analyzeFileWithInstruction, try_catch, bind, await. cbv zeta.
  destruct (generateContent w _ _) as [text|e0]; [discriminate|].
  repeat match goal with |- context [if ?c then _ else _] => destruct c end;
    unfold throw; intros [= <- _]; eexists; (split; [reflexivity|]); simpl; tauto.
Qed.

Lemma gemini_step_cases w local up url s a ai gerr s' :
  UploadRoute.gemini_step w local up url s = (Returns (a, ai, gerr), s') ->
  (a = ai /\ gerr = JNull /\ truthy up = true
   /\ exists text, ai = JObj [ ("success", JBool true); ("feedback", JStr text);
                               ("timestamp", JStr (Date_iso w)) ])
  \/ (a = local /\ ai = JNull
      /\ ((gerr = JNull /\ truthy up = true /\ truthy (get_opt up "directUrl") = false)
          \/ (exists g, gerr = JStr g /\ In g (tl gemini_statuses)
                        /\ (UploadRoute.hasGemini w = false -> g = "Gemini API not configured")))).
Proof.
  unfold UploadRoute.gemini_step.
  destruct (UploadRoute.hasGemini w) eqn:G; simpl.
  - destruct (truthy up) eqn:U; simpl.
    + destruct (truthy (get_opt up "directUrl")) eqn:D.
      * unfold try_catch, bind. rewrite (new_configured _ _ G).
        destruct (GeminiService.analyzeFileWithInstruction w _ url s) as [[r|e] s1] eqn:E.
        -- destruct (analyzeFileWithInstruction_shape _ _ _ _ _ _ E) as [_ [text ->]]. simpl.
           intros [= <- <- <- _]. left. repeat split. now exists text.
        -- destruct (analyzeFileWithInstruction_throws _ _ _ _ _ _ E) as [m [-> Hm]]. simpl.
           intros [= <- <- <- _]. right. repeat split. right.
           exists m. repeat split; [|discriminate].
           simpl in *. tauto.
      * intros [= <- <- <- _]. right. repeat split. now left.
    + intros [= <- <- <- _]. right. repeat split. right.
      eexists. repeat split; [|discriminate]. simpl. tauto.
  - intros [= <- <- <- _]. right. repeat split. right.
    eexists. repeat split. simpl. tauto.
Qed.

(** The answer of a request that got as far as the chain. *)
Lemma POST_200_respond w request s r s' :
  UploadRoute.POST w request s = (Returns r, s') ->
  status r = 200 ->
  exists name data path s1 url local up derr a ai gerr flag,
    UploadRoute.drive_step w path name s1 = (Returns (up, derr), s1)
    /\ UploadRoute.gemini_step w local up url s1 = (Returns (a, ai, gerr), s1)
    /\ get_prop a "success" = Some flag
    /\ r = UploadRoute.respond name data up derr a ai gerr flag.
Proof.
  intros P H200.
  destruct (POST_200 _ _ _ _ _ P H200) as (form & name & data & path & s1 & _ & _ & _ & A).
  destruct (analyse_spec w path name data (formData_get form "instructionFileId") s1)
    as (url & local & up & derr & a & ai & gerr & flag & _ & _ & Hd & Hg & Hf & _ & A').
  rewrite A in A'. injection A' as ->.
  now exists name, data, path, s1, url, local, up, derr, a, ai, gerr, flag.
Qed.

(** X4.  The storage status of an upload response is one of four strings:
    [success], [Google Drive not configured], the shared-drive message, or
    [Failed to upload file to Google Drive]; the fallbacks [Upload failed],
    [Unknown error] and [failed] written in the handler never appear.  With
    [success] the two URLs are the ones built around the file id; with any
    other status the id and both URLs are null. *)
Theorem X4_drive_status w request s r s' :
  UploadRoute.POST w request s = (Returns r, s') ->
  status r = 200 ->
  exists d,
    get_opt (get_opt (body r) "serviceStatus") "googleDrive" = JStr d
    /\ In d drive_statuses
    /\ (d = "success" ->
        exists fileId,
          get_opt (get_opt (body r) "file") "publicUrl"
            = JStr ("https://drive.google.com/file/d/" +:+ ToString fileId +:+ "/view?usp=sharing")
          /\ get_opt (get_opt (body r) "file") "directUrl"
             = JStr ("https://drive.google.com/uc?id=" +:+ ToString fileId +:+ "&export=download"))
    /\ (d <> "success" ->
        get_opt (get_opt (body r) "file") "fileId" = JNull
        /\ get_opt (get_opt (body r) "file") "publicUrl" = JNull
        /\ get_opt (get_opt (body r) "file") "directUrl" = JNull).
Proof.
  intros P H200.
  destruct (POST_200_respond _ _ _ _ _ P H200)
    as (name & data & path & s1 & url & local & up & derr & a & ai & gerr & flag & Hd & _ & _ & ->).
  destruct (drive_step_cases _ _ _ _ _ _ _ Hd) as [[-> [fileId ->]] | [-> [d [-> Hin]]]].
  - exists "success". repeat split.
    + simpl. tauto.
    + intros _. exists fileId. split; reflexivity.
    + congruence.
    + congruence.
    + congruence.
  - exists d. split.
    + simpl in Hin. destruct Hin as [<- | [<- | [<- | []]]]; reflexivity.
    + split; [now right|]. split.
      * intros ->. simpl in Hin. destruct Hin as [H | [H | [H | []]]]; discriminate H.
      * intros _. repeat split.
Qed.

(** X4 at a concrete request in a world without credentials. *)
Lemma X4_drive_status_witness :
  exists r s' d,
    UploadRoute.POST quiet_world (Returns report) empty_state = (Returns r, s')
    /\ get_opt (get_opt (body r) "serviceStatus") "googleDrive" = JStr d
    /\ In d drive_statuses.
Proof.
  eexists _, _.
  assert (P : UploadRoute.POST quiet_world (Returns report) empty_state = (_, _))
    by (vm_compute; reflexivity).
  destruct (X4_drive_status quiet_world (Returns report) empty_state _ _ P eq_refl)
    as (d & Hd & Hin & _).
  exists d. split; [exact P|]. split; [exact Hd | exact Hin].
Defined.

(** X5.  The inference status of an upload response is one of six strings:
    [success], [Gemini API not configured], [No file URL available for AI
    analysis], or one of the three errors of the Gemini service; the
    fallbacks [Analysis failed], [Unknown error] and [unavailable] never
    appear.  Without the inference key it is [Gemini API not configured].
    It is [success] only when the storage status is [success] too, and then
    the message is the one for a full success and the local-analysis flag is
    the model's [true]. *)
Theorem X5_gemini_status w request s r s' :
  UploadRoute.POST w request s = (Returns r, s') ->
  status r = 200 ->
  exists g,
    get_opt (get_opt (body r) "serviceStatus") "geminiAnalysis" = JStr g
    /\ In g gemini_statuses
    /\ (UploadRoute.hasGemini w = false -> g = "Gemini API not configured")
    /\ (g = "success" ->
        get_opt (get_opt (body r) "serviceStatus") "googleDrive" = JStr "success"
        /\ get_opt (get_opt (body r) "serviceStatus") "localAnalysis" = JBool true
        /\ get_opt (body r) "message"
           = JStr "File uploaded to Google Drive and analyzed with AI successfully!").
Proof.
  intros P H200.
  destruct (POST_200_respond _ _ _ _ _ P H200)
    as (name & data & path & s1 & url & local & up & derr & a & ai & gerr & flag
        & Hd & Hg & Hflag & ->).
  destruct (gemini_step_cases _ _ _ _ _ _ _ _ _ Hg)
    as [(-> & -> & U & text & ->) | (-> & -> & [(-> & U & D) | (g & -> & Hin & Hcfg)])].
  - exists "success". split; [reflexivity|]. split; [simpl; tauto|]. split.
    + intros G. unfold UploadRoute.gemini_step in Hg. rewrite G in Hg. discriminate Hg.
    + intros _. unfold UploadRoute.respond. rewrite U.
      simpl in Hflag. injection Hflag as <-.
      repeat split.
  - exfalso.
    destruct (drive_step_cases _ _ _ _ _ _ _ Hd) as [[_ [fileId ->]] | [-> _]];
      discriminate.
  - exists g. split.
    + simpl in Hin. destruct Hin as [<- | [<- | [<- | [<- | [<- | []]]]]]; reflexivity.
    + split; [now right|]. split; [exact Hcfg|].
      intros ->. simpl in Hin.
      destruct Hin as [H | [H | [H | [H | [H | []]]]]]; discriminate H.
Qed.

(** X5 at a concrete request with both services answering. *)
Lemma X5_gemini_status_witness :
  exists r s' g,
    UploadRoute.POST all_services (Returns report) empty_state = (Returns r, s')
    /\ get_opt (get_opt (body r) "serviceStatus") "geminiAnalysis" = JStr g
    /\ In g gemini_statuses.
Proof.
  eexists _, _.
  assert (P : UploadRoute.POST all_services (Returns report) empty_state = (_, _))
    by (vm_compute; reflexivity).
  destruct (X5_gemini_status all_services (Returns report) empty_state _ _ P eq_refl)
    as (g & Hg & Hin & _).
  exists g. split; [exact P|]. split; [exact Hg | exact Hin].
Defined.

(** X6.  When Drive answers the creation without a file id, the upload is
    still counted as stored: the permission call is skipped, the storage
    status of the response is [success], its [fileId] is null, and the direct
    URL is the template filled with the text of the missing id. *)
Theorem X6_upload_without_id w form name data s path s1 fileId :
  formData_get form "file" = Some (Upload name data) ->
  staging w name data (start s) = (Returns path, s1) ->
  UploadRoute.hasGoogleDrive w = true ->
  (forall params, drive_files_create w params = Returns fileId) ->
  truthy fileId = false ->
  exists r s2,
    UploadRoute.POST w (Returns form) s = (Returns r, s2)
    /\ status r = 200
    /\ get_opt (get_opt (body r) "serviceStatus") "googleDrive" = JStr "success"
    /\ get_opt (get_opt (body r) "file") "fileId" = JNull
    /\ get_opt (get_opt (body r) "file") "directUrl"
       = JStr ("https://drive.google.com/uc?id=" +:+ ToString fileId +:+ "&export=download").
Proof.
  intros F S Hd Hc Hf.
  destruct (POST_staged _ _ _ _ _ _ _ F S) as (r & s2 & P & A & _).
  exists r, s2. split; [exact P|].
  destruct (analyse_spec w path name data (formData_get form "instructionFileId") s1)
    as (url & local & up & derr & a & ai & gerr & flag & _ & _ & D & _ & _ & _ & A').
  rewrite A in A'. injection A' as ->.
  assert (U : GoogleDriveService.uploadFile w path name None s1
              = (Returns (drive_success fileId), s1)).
  { unfold GoogleDriveService.uploadFile, try_catch, bind, get_state, await. cbv zeta.
    rewrite Hc, Hf. reflexivity. }
  unfold UploadRoute.drive_step in D. rewrite Hd in D.
  unfold try_catch, bind in D. rewrite U in D. simpl in D.
  injection D as <- <-.
  unfold UploadRoute.respond, drive_success.
  repeat split; cbn -[truthy ToString String.append]; unfold js_or; now rewrite ?Hf.
Qed.

(** X6 at a concrete request on a Drive that returns no id. *)
Lemma X6_upload_without_id_witness :
  exists r s2,
    UploadRoute.POST drive_without_id (Returns report) empty_state = (Returns r, s2)
    /\ get_opt (get_opt (body r) "serviceStatus") "googleDrive" = JStr "success"
    /\ get_opt (get_opt (body r) "file") "directUrl"
       = JStr "https://drive.google.com/uc?id=undefined&export=download".
Proof.
  destruct (X6_upload_without_id drive_without_id report "report.txt" "a,b" empty_state
              _ _ JUndefined eq_refl ltac:(vm_compute; reflexivity) eq_refl
              (fun _ => eq_refl) eq_refl)
    as (r & s2 & P & _ & G & _ & D).
  exists r, s2. split; [exact P|]. split; [exact G | exact D].
Defined.

(** *** The sub-actions change the store only when they succeed *)

Section Guarded.
Context {A : Type}.

Lemma guarded_bind (m : M A) (k : A -> M Response) :
  read_only m -> (forall a, guarded (k a)) -> guarded (bind m k).
Proof.
  intros Hm Hk s. unfold bind. specialize (Hm s).
  destruct (m s) as [[a|e] s1]; simpl in Hm; subst s1; [apply Hk | reflexivity].
Qed.

End Guarded.

Lemma guarded_ret r : guarded (ret r).
Proof. intros s. now right. Qed.

Lemma store_throws w instructionId cached f updated s e s' :
  Instructions.store w instructionId cached f updated s = (Throws e, s') -> s' = s.
Proof.
  unfold Instructions.store. destruct cached as [c|]; [discriminate|].
  unfold bind, fs.existsSync.
  destruct (_ || _); [|discriminate].
  unfold InstructionsRoute.write_json.
  destruct (JSON_stringify updated); [|now intros [= _ <-]].
  unfold fs.writeFileSync.
  destruct (fs_fault w _); [now intros [= _ <-]|].
  destruct (bool_decide _); [now intros [= _ <-] | discriminate].
Qed.

Lemma guarded_store w instructionId cached f updated b :
  guarded (Instructions.store w instructionId cached f updated >> ret (json b)).
Proof.
  intros s. unfold bind.
  destruct (Instructions.store w instructionId cached f updated s) as [[[]|e] s1] eqn:E.
  - now left.
  - exact (store_throws _ _ _ _ _ _ _ _ E).
Qed.

Lemma read_only_cache_get i : read_only (Instructions.cache_get i).
Proof. intros s. reflexivity. Qed.

Lemma read_only_load w i : read_only (Instructions.load w i).
Proof.
  unfold Instructions.load.
  apply read_only_bind; [apply read_only_cache_get|]. intros [c|]; ro.
Qed.

Lemma read_only_parse_checklist w a : read_only (FillPmpChecklistRoute.parse_checklist w a).
Proof. unfold FillPmpChecklistRoute.parse_checklist. ro. Qed.

Lemma read_only_toLowerCase_of v : read_only (GenerateFeedbackRoute.toLowerCase_of v).
Proof. unfold GenerateFeedbackRoute.toLowerCase_of. destruct v; ro. Qed.

Ltac guarding :=
  repeat first
    [ apply guarded_ret
    | apply guarded_store
    | match goal with
      | |- guarded (bind _ _) =>
          apply guarded_bind;
          [ first [ apply read_only_load | apply read_only_parse_checklist
                  | apply read_only_toLowerCase_of | solve [ro] ]
          | intros ? ]
      | |- guarded (if ?b then _ else _) => destruct b
      | |- guarded (match ?x with _ => _ end) => destruct x
      | |- guarded (let _ := _ in _) => cbv zeta
      end ].

Lemma guarded_checklist_body w request :
  guarded
    (let! body := await request in
     let! instructionId := prop body "instructionId" in
     if negb (truthy instructionId) then ret (Instructions.failure "Instruction ID is required" 400)
     else if negb (env_truthy w "GEMINI_API_KEY") then ret Instructions.key_missing
     else
       let! loaded := Instructions.load w instructionId in
       match loaded with
       | Instructions.Missing response => ret response
       | Instructions.Found cachedInstruction metadata content =>
           let! customPrompt := prop metadata "customPrompt" in
           let! aiResponse :=
             await (generateContent w Instructions.flash
                      (FillPmpChecklistRoute.checklistPrompt content customPrompt)) in
           if String.eqb aiResponse EmptyString
           then ret (Instructions.failure "Failed to generate checklist analysis" 500)
           else
             let! pmpChecklist := FillPmpChecklistRoute.parse_checklist w aiResponse in
             let updatedMetadata := spread_with metadata "pmpChecklist" pmpChecklist in
             Instructions.store w instructionId cachedInstruction
               (fun c => InstructionData.with_pmpChecklist c pmpChecklist) updatedMetadata >>
             ret (json (JObj [ ("success", JBool true);
                               ("checklist", pmpChecklist);
                               ("instruction", updatedMetadata) ]))
       end).
Proof. guarding. Qed.

Lemma guarded_feedback_body w request :
  guarded
    (let! body := await request in
     let! instructionId := prop body "instructionId" in
     if negb (truthy instructionId) then ret (Instructions.failure "Instruction ID is required" 400)
     else if negb (env_truthy w "GEMINI_API_KEY") then ret Instructions.key_missing
     else
       let! loaded := Instructions.load w instructionId in
       match loaded with
       | Instructions.Missing response => ret response
       | Instructions.Found cachedInstruction metadata content =>
           let! isPMPA := prop metadata "isPMPA" in
           let instructionType :=
             if truthy isPMPA then "PMP-A (Project Management Professional - Assessment)"
             else "general instruction" in
           let! fileName0 := prop metadata "fileName" in
           let fileName := js_or fileName0 (JStr "unknown") in
           let! lower := GenerateFeedbackRoute.toLowerCase_of fileName in
           let isExcelFile := endsWith lower ".xlsx" || endsWith lower ".xls" in
           let isSpreadsheetData :=
             includes content "BDM_PMPA.xlsx" || includes content "PMP-A" || isExcelFile in
           let! customPrompt := prop metadata "customPrompt" in
           let! inputData := prop metadata "inputData" in
           let! generatedFeedback :=
             await (generateContent w Instructions.flash
                      (GenerateFeedbackRoute.feedbackPrompt instructionType fileName isExcelFile
                         isSpreadsheetData isPMPA customPrompt inputData content)) in
           if String.eqb generatedFeedback EmptyString
           then ret (Instructions.failure "Failed to generate feedback" 500)
           else
             let updatedMetadata := spread_with metadata "feedback" (JStr generatedFeedback) in
             Instructions.store w instructionId cachedInstruction
               (fun c => InstructionData.with_feedback c (JStr generatedFeedback))
               updatedMetadata >>
             ret (json (JObj [ ("success", JBool true);
                               ("feedback", JStr generatedFeedback);
                               ("instruction", updatedMetadata) ]))
       end).
Proof. guarding. Qed.

Lemma on_error_status what e s :
  exists r, Instructions.on_error what e s = (Returns r, s) /\ status r <> 200.
Proof.
  unfold Instructions.on_error.
  destruct (message_includes e "API_KEY"); eexists; (split; [reflexivity|]); discriminate.
Qed.

Lemma guarded_handler_answers (body : M Response) what s :
  guarded body ->
  exists r s', try_catch body (Instructions.on_error what) s = (Returns r, s')
               /\ (status r <> 200 -> s' = s).
Proof.
  intros G. specialize (G s). unfold try_catch.
  destruct (body s) as [[r|e] s1].
  - exists r, s1. split; [reflexivity|]. intros N. destruct G; [contradiction | assumption].
  - subst s1. destruct (on_error_status what e s) as (r & -> & N).
    exists r, s. now split.
Qed.

(** X14.  Both AI sub-actions answer every request.  A request that is not
    answered with status 200 leaves the cache as it was and touches no file
    other than the metadata file of an instruction; and when no write of a
    metadata file fails, it leaves the whole state, cache and disk, exactly
    as it was: the record is written only as the last step of a successful
    generation. *)
Theorem X14_subactions_failure_frame w request s :
  (exists r s',
     FillPmpChecklistRoute.POST w request s = (Returns r, s')
     /\ (status r <> 200 ->
         untouched_but_metadata w s s'
         /\ ((forall instructionId,
                fs_fault w (write (Instructions.metaPath w instructionId)) = None) ->
             s' = s)))
  /\ (exists r s',
        GenerateFeedbackRoute.POST w request s = (Returns r, s')
        /\ (status r <> 200 ->
            untouched_but_metadata w s s'
            /\ ((forall instructionId,
                   fs_fault w (write (Instructions.metaPath w instructionId)) = None) ->
                s' = s))).
Proof.
  split.
  - destruct (guarded_handler_answers _ "checklist" s (guarded_checklist_body w request))
      as (r & s' & P & Q).
    exists r, s'. split; [exact P|]. intros N. rewrite (Q N). now repeat split.
  - destruct (guarded_handler_answers _ "feedback" s (guarded_feedback_body w request))
      as (r & s' & P & Q).
    exists r, s'. split; [exact P|]. intros N. rewrite (Q N). now repeat split.
Qed.

(** X14 at a request for an instruction nobody created, without a key. *)
Lemma X14_subactions_failure_frame_witness :
  exists r s',
    FillPmpChecklistRoute.POST quiet_world (Returns (request_for "instruction_1")) empty_state
      = (Returns r, s')
    /\ status r <> 200 /\ s' = empty_state.
Proof.
  destruct (X14_subactions_failure_frame quiet_world (Returns (request_for "instruction_1"))
              empty_state) as [(r & s' & P & Q) _].
  assert (N : status r <> 200).
  { assert (E : r = answer_of (FillPmpChecklistRoute.POST quiet_world
                                 (Returns (request_for "instruction_1")) empty_state))
      by (unfold answer_of; rewrite P; reflexivity).
    rewrite E. vm_compute. discriminate. }
  exists r, s'. split; [exact P|]. split; [exact N|].
  apply (Q N). reflexivity.
Defined.

(** *** Requests that name no file or no instruction *)

(** X22.  A request without the expected input is rejected with status 400
    before anything is touched: the upload route and the instruction route
    when the form has no file (or an empty text in its place), the two AI
    sub-actions when the body has no instruction id, or a falsy one, whether
    or not the inference key is configured.  No directory is created, no
    file written, and the cache is as it was. *)
Theorem X22_missing_input_rejected w s :
  (forall form,
     entry_truthy (formData_get form "file") = false ->
     UploadRoute.POST w (Returns form) s
       = (Returns (json_status (JObj [("error", JStr "No file provided")]) 400), start s))
  /\ (forall form,
        entry_truthy (formData_get form "instruction") = false ->
        InstructionsRoute.POST w (Returns form) s
          = (Returns (json_status (JObj [("error", JStr "No instruction file provided")]) 400),
             start s))
  /\ (forall body instructionId,
        get_prop body "instructionId" = Some instructionId ->
        truthy instructionId = false ->
        FillPmpChecklistRoute.POST w (Returns body) s
          = (Returns (Instructions.failure "Instruction ID is required" 400), s)
        /\ GenerateFeedbackRoute.POST w (Returns body) s
           = (Returns (Instructions.failure "Instruction ID is required" 400), s)).
Proof.
  split; [|split].
  - intros form F. unfold UploadRoute.POST.
    rewrite (bind_returns (set_tempFilePath None) _ s tt (start s) eq_refl).
    unfold try_finally, try_catch.
    rewrite (bind_returns (await (Returns form)) _ _ form _ eq_refl).
    cbv zeta. rewrite F. reflexivity.
  - intros form F. unfold InstructionsRoute.POST.
    rewrite (bind_returns (set_tempFilePath None) _ s tt (start s) eq_refl).
    unfold try_finally, try_catch.
    rewrite (bind_returns (await (Returns form)) _ _ form _ eq_refl).
    cbv zeta. rewrite F. reflexivity.
  - intros body instructionId Hb Ht. split.
    + unfold FillPmpChecklistRoute.POST, try_catch.
      rewrite (bind_returns (await (Returns body)) _ _ body _ eq_refl).
      unfold bind, prop. rewrite Hb. unfold ret at 1. now rewrite Ht.
    + unfold GenerateFeedbackRoute.POST, try_catch.
      rewrite (bind_returns (await (Returns body)) _ _ body _ eq_refl).
      unfold bind, prop. rewrite Hb. unfold ret at 1. now rewrite Ht.
Qed.

(** X22 at an empty form and an empty body. *)
Lemma X22_missing_input_rejected_witness :
  UploadRoute.POST quiet_world (Returns empty_form) plan_cached
    = (Returns (json_status (JObj [("error", JStr "No file provided")]) 400), start plan_cached)
  /\ FillPmpChecklistRoute.POST quiet_world (Returns (JObj [])) plan_cached
     = (Returns (Instructions.failure "Instruction ID is required" 400), plan_cached).
Proof.
  destruct (X22_missing_input_rejected quiet_world plan_cached) as (U & _ & S).
  split.
  - apply (U empty_form). reflexivity.
  - apply (S (JObj []) JUndefined eq_refl eq_refl).
Defined.

(** *** An instruction that is not there *)

Lemma truthy_id instructionId : instructionId <> EmptyString -> truthy (JStr instructionId) = true.
Proof. intros H. simpl. now destruct (String.eqb_spec instructionId EmptyString). Qed.

Lemma load_unknown w instructionId s :
  instructionsCache s !! instructionId = None ->
  files s !! Instructions.metaPath w (JStr instructionId) = None ->
  Instructions.metaPath w (JStr instructionId) ∉ dirs s ->
  Instructions.load w (JStr instructionId) s
    = (Returns (Instructions.Missing (Instructions.failure "Instruction not found" 404)), s).
Proof.
  intros Hc Hf Hd. unfold Instructions.load, bind, Instructions.cache_get. rewrite Hc.
  unfold fs.existsSync. rewrite Hf.
  rewrite bool_decide_eq_false_2 by (intros [? ?]; discriminate).
  now rewrite bool_decide_eq_false_2 by assumption.
Qed.

(** X15.  With the inference key configured, a sub-action that names an
    instruction found neither in the cache nor on disk (no metadata file)
    answers 404 [Instruction not found], whatever the model would have said,
    and changes nothing. *)
Theorem X15_unknown_instruction w instructionId s :
  instructionId <> EmptyString ->
  env_truthy w "GEMINI_API_KEY" = true ->
  instructionsCache s !! instructionId = None ->
  files s !! Instructions.metaPath w (JStr instructionId) = None ->
  Instructions.metaPath w (JStr instructionId) ∉ dirs s ->
  FillPmpChecklistRoute.POST w (Returns (request_for instructionId)) s
    = (Returns (Instructions.failure "Instruction not found" 404), s)
  /\ GenerateFeedbackRoute.POST w (Returns (request_for instructionId)) s
     = (Returns (Instructions.failure "Instruction not found" 404), s).
Proof.
  intros Hid Hk Hc Hf Hd.
  pose proof (truthy_id _ Hid) as Ht.
  pose proof (load_unknown w _ _ Hc Hf Hd) as L.
  split.
  - unfold FillPmpChecklistRoute.POST, try_catch.
    rewrite (bind_returns (await (Returns (request_for instructionId))) _ _ _ _ eq_refl).
    rewrite (bind_returns (prop (request_for instructionId) "instructionId") _ _
               (JStr instructionId) _ eq_refl).
    rewrite Ht, Hk. cbn [negb].
    now rewrite (bind_returns _ _ _ _ _ L).
  - unfold GenerateFeedbackRoute.POST, try_catch.
    rewrite (bind_returns (await (Returns (request_for instructionId))) _ _ _ _ eq_refl).
    rewrite (bind_returns (prop (request_for instructionId) "instructionId") _ _
               (JStr instructionId) _ eq_refl).
    rewrite Ht, Hk. cbn [negb].
    now rewrite (bind_returns _ _ _ _ _ L).
Qed.

(** X15 at an id that nothing holds. *)
Lemma X15_unknown_instruction_witness :
  FillPmpChecklistRoute.POST (answering one_row) (Returns (request_for "instruction_42"))
    plan_cached
    = (Returns (Instructions.failure "Instruction not found" 404), plan_cached)
  /\ GenerateFeedbackRoute.POST (answering one_row) (Returns (request_for "instruction_42"))
       plan_cached
     = (Returns (Instructions.failure "Instruction not found" 404), plan_cached).
Proof.
  apply (X15_unknown_instruction (answering one_row) "instruction_42" plan_cached);
    [discriminate | reflexivity | reflexivity | reflexivity | vm_compute; set_solver].
Defined.

(** *** A cached instruction and the model's outcome *)

Lemma checklist_cached_call w instructionId c s :
  instructionId <> EmptyString ->
  env_truthy w "GEMINI_API_KEY" = true ->
  instructionsCache s !! instructionId = Some c ->
  FillPmpChecklistRoute.POST w (Returns (request_for instructionId)) s
    = try_catch
        (let! aiResponse :=
           await (generateContent w Instructions.flash
                    (FillPmpChecklistRoute.checklistPrompt (InstructionData.content c)
                       (InstructionData.customPrompt c))) in
         if String.eqb aiResponse EmptyString
         then ret (Instructions.failure "Failed to generate checklist analysis" 500)
         else
           let! pmpChecklist := FillPmpChecklistRoute.parse_checklist w aiResponse in
           let updatedMetadata :=
             spread_with (Instructions.metadata_of c) "pmpChecklist" pmpChecklist in
           Instructions.store w (JStr instructionId) (Some c)
             (fun c => InstructionData.with_pmpChecklist c pmpChecklist) updatedMetadata >>
           ret (json (JObj [ ("success", JBool true);
                             ("checklist", pmpChecklist);
                             ("instruction", updatedMetadata) ])))
        (Instructions.on_error "checklist") s.
Proof.
  intros Hid Hk Hc.
  unfold FillPmpChecklistRoute.POST, try_catch.
  rewrite (bind_returns (await (Returns (request_for instructionId))) _ _ _ _ eq_refl).
  rewrite (bind_returns (prop (request_for instructionId) "instructionId") _ _
             (JStr instructionId) _ eq_refl).
  rewrite (truthy_id _ Hid), Hk. cbn [negb].
  rewrite (bind_returns _ _ _ _ _ (load_cached w _ _ _ Hc)).
  now rewrite (bind_returns (prop (Instructions.metadata_of c) "customPrompt") _ _
                 (InstructionData.customPrompt c) _ eq_refl).
Qed.

Lemma feedback_cached_call w instructionId c s :
  instructionId <> EmptyString ->
  env_truthy w "GEMINI_API_KEY" = true ->
  instructionsCache s !! instructionId = Some c ->
  GenerateFeedbackRoute.POST w (Returns (request_for instructionId)) s
    = try_catch
        (let! generatedFeedback :=
           await (generateContent w Instructions.flash (feedback_prompt_of c)) in
         if String.eqb generatedFeedback EmptyString
         then ret (Instructions.failure "Failed to generate feedback" 500)
         else
           let updatedMetadata :=
             spread_with (Instructions.metadata_of c) "feedback" (JStr generatedFeedback) in
           Instructions.store w (JStr instructionId) (Some c)
             (fun c => InstructionData.with_feedback c (JStr generatedFeedback))
             updatedMetadata >>
           ret (json (JObj [ ("success", JBool true);
                             ("feedback", JStr generatedFeedback);
                             ("instruction", updatedMetadata) ])))
        (Instructions.on_error "feedback") s.
Proof.
  intros Hid Hk Hc.
  unfold GenerateFeedbackRoute.POST, try_catch.
  rewrite (bind_returns (await (Returns (request_for instructionId))) _ _ _ _ eq_refl).
  rewrite (bind_returns (prop (request_for instructionId) "instructionId") _ _
             (JStr instructionId) _ eq_refl).
  rewrite (truthy_id _ Hid), Hk. cbn [negb].
  rewrite (bind_returns _ _ _ _ _ (load_cached w _ _ _ Hc)).
  rewrite (bind_returns (prop (Instructions.metadata_of c) "isPMPA") _ _
             (InstructionData.isPMPA c) _ eq_refl).
  cbv zeta.
  rewrite (bind_returns (prop (Instructions.metadata_of c) "fileName") _ _
             (JStr (InstructionData.fileName c)) _ eq_refl).
  assert (L : GenerateFeedbackRoute.toLowerCase_of
                (js_or (JStr (InstructionData.fileName c)) (JStr "unknown")) s
              = (Returns (toLowerCase (ToString (js_or (JStr (InstructionData.fileName c))
                                                       (JStr "unknown")))), s)).
  { unfold js_or. now destruct (truthy (JStr (InstructionData.fileName c))). }
  rewrite (bind_returns _ _ _ _ _ L).
  rewrite (bind_returns (prop (Instructions.metadata_of c) "customPrompt") _ _
             (InstructionData.customPrompt c) _ eq_refl).
  rewrite (bind_returns (prop (Instructions.metadata_of c) "inputData") _ _
             (InstructionData.inputData c) _ eq_refl).
  reflexivity.
Qed.

(** X16.  When the model answers a cached instruction with the empty
    string, the checklist route answers 500 [Failed to generate checklist
    analysis], the feedback route 500 [Failed to generate feedback], and the
    cached record keeps the checklist and the feedback it had. *)
Theorem X16_empty_answer w instructionId c s :
  instructionId <> EmptyString ->
  env_truthy w "GEMINI_API_KEY" = true ->
  instructionsCache s !! instructionId = Some c ->
  (forall model prompt, generateContent w model prompt = Returns EmptyString) ->
  FillPmpChecklistRoute.POST w (Returns (request_for instructionId)) s
    = (Returns (Instructions.failure "Failed to generate checklist analysis" 500), s)
  /\ GenerateFeedbackRoute.POST w (Returns (request_for instructionId)) s
     = (Returns (Instructions.failure "Failed to generate feedback" 500), s).
Proof.
  intros Hid Hk Hc Hg. split.
  - rewrite (checklist_cached_call _ _ _ _ Hid Hk Hc).
    unfold try_catch, bind, await. now rewrite Hg.
  - rewrite (feedback_cached_call _ _ _ _ Hid Hk Hc).
    unfold try_catch, bind, await. now rewrite Hg.
Qed.

(** X16 at a concrete cached instruction. *)
Lemma X16_empty_answer_witness :
  FillPmpChecklistRoute.POST (constant_model (Returns EmptyString))
    (Returns (request_for "instruction_1700000000000")) plan_cached
    = (Returns (Instructions.failure "Failed to generate checklist analysis" 500), plan_cached)
  /\ GenerateFeedbackRoute.POST (constant_model (Returns EmptyString))
       (Returns (request_for "instruction_1700000000000")) plan_cached
     = (Returns (Instructions.failure "Failed to generate feedback" 500), plan_cached).
Proof.
  apply (X16_empty_answer (constant_model (Returns EmptyString)) "instruction_1700000000000"
           plan plan_cached);
    [discriminate | reflexivity | reflexivity | reflexivity].
Defined.

(** X17.  When the model call fails for a cached instruction, the answer
    depends on the error's message alone: 401 [Gemini API authentication
    failed...] if it is an Error whose message contains [API_KEY], and
    otherwise 500 [Internal server error while generating checklist] (or
    [feedback]); the record is left as it was. *)
Theorem X17_model_failure w instructionId c s e :
  instructionId <> EmptyString ->
  env_truthy w "GEMINI_API_KEY" = true ->
  instructionsCache s !! instructionId = Some c ->
  (forall model prompt, generateContent w model prompt = Throws e) ->
  FillPmpChecklistRoute.POST w (Returns (request_for instructionId)) s
    = (Returns (if message_includes e "API_KEY"
                then Instructions.failure
                       "Gemini API authentication failed. Please check your API key." 401
                else Instructions.failure
                       "Internal server error while generating checklist" 500), s)
  /\ GenerateFeedbackRoute.POST w (Returns (request_for instructionId)) s
     = (Returns (if message_includes e "API_KEY"
                 then Instructions.failure
                        "Gemini API authentication failed. Please check your API key." 401
                 else Instructions.failure
                        "Internal server error while generating feedback" 500), s).
Proof.
  intros Hid Hk Hc Hg. split.
  - rewrite (checklist_cached_call _ _ _ _ Hid Hk Hc).
    unfold try_catch, bind, await. rewrite Hg. unfold Instructions.on_error.
    now destruct (message_includes e "API_KEY").
  - rewrite (feedback_cached_call _ _ _ _ Hid Hk Hc).
    unfold try_catch, bind, await. rewrite Hg. unfold Instructions.on_error.
    now destruct (message_includes e "API_KEY").
Qed.

(** X17 at a provider error that mentions the key. *)
Lemma X17_model_failure_witness :
  FillPmpChecklistRoute.POST (constant_model (Throws (Err "API_KEY_INVALID: rejected")))
    (Returns (request_for "instruction_1700000000000")) plan_cached
    = (Returns (Instructions.failure
                  "Gemini API authentication failed. Please check your API key." 401),
       plan_cached).
Proof.
  apply (X17_model_failure (constant_model (Throws (Err "API_KEY_INVALID: rejected")))
           "instruction_1700000000000" plan plan_cached (Err "API_KEY_INVALID: rejected"));
    [discriminate | reflexivity | reflexivity | reflexivity].
Defined.

(** *** Creation, lookup and replacement in the cache *)

(** X12.  An instruction that was created with status 200 is found by the
    sub-actions under the id the response gave, in the cache, whatever
    happened to the disk and the Drive backup, and in any world: the loaded
    content is the text kept at creation and the metadata is built from the
    cached record. *)
Theorem X12_created_instruction_is_loaded w form name bytes s r s' w2 :
  formData_get form "instruction" = Some (Upload name bytes) ->
  InstructionsRoute.POST w (Returns form) s = (Returns r, s') ->
  status r = 200 ->
  exists d,
    Instructions.load w2 (get_opt (body r) "instructionId") s'
      = (Returns (Instructions.Found (Some d) (Instructions.metadata_of d)
                    (InstructionsRoute.instruction_content name bytes)), s')
    /\ InstructionData.id d = InstructionsRoute.instructionId w
    /\ InstructionData.fileName d = name
    /\ InstructionData.content d = InstructionsRoute.instruction_content name bytes.
Proof.
  intros F P H200.
  destruct (POST_instruction_200 _ _ _ _ _ _ _ F P H200) as (driveFile & -> & Hc).
  exists (InstructionsRoute.instructionData w (InstructionsRoute.instructionId w) name
            (InstructionsRoute.instruction_content name bytes) driveFile).
  split; [|repeat split].
  cbn [body InstructionsRoute.created json].
  change (get_opt (JObj _) "instructionId") with (JStr (InstructionsRoute.instructionId w)).
  apply (load_cached w2 (InstructionsRoute.instructionId w)). rewrite Hc. apply lookup_insert_eq.
Qed.

(** X12 at a concrete creation. *)
Lemma X12_created_instruction_is_loaded_witness :
  exists r s' d,
    InstructionsRoute.POST quiet_world (Returns notes) empty_state = (Returns r, s')
    /\ Instructions.load (answering one_row) (get_opt (body r) "instructionId") s'
       = (Returns (Instructions.Found (Some d) (Instructions.metadata_of d) "be brief"), s').
Proof.
  set (run := InstructionsRoute.POST quiet_world (Returns notes) empty_state).
  assert (P : run = (Returns (answer_of run), snd run)) by (vm_compute; reflexivity).
  destruct (X12_created_instruction_is_loaded quiet_world notes "Notes.TXT" "be brief"
              empty_state _ _ (answering one_row) eq_refl P ltac:(vm_compute; reflexivity))
    as (d & L & _).
  exists (answer_of run), (snd run), d. split; [exact P | exact L].
Defined.

(** X13.  The id of an instruction is the millisecond clock alone, so two
    instructions created within the same millisecond get the same id: the
    second takes the place of the first in the cache, which ends up as if
    the first had never been created. *)
Theorem X13_same_millisecond_collision w form1 name1 bytes1 form2 name2 bytes2 s r1 s1 r2 s2 :
  formData_get form1 "instruction" = Some (Upload name1 bytes1) ->
  formData_get form2 "instruction" = Some (Upload name2 bytes2) ->
  InstructionsRoute.POST w (Returns form1) s = (Returns r1, s1) -> status r1 = 200 ->
  InstructionsRoute.POST w (Returns form2) s1 = (Returns r2, s2) -> status r2 = 200 ->
  get_opt (body r1) "instructionId" = get_opt (body r2) "instructionId"
  /\ exists d,
       instructionsCache s2 = <[ InstructionsRoute.instructionId w := d ]> (instructionsCache s)
       /\ InstructionData.fileName d = name2
       /\ InstructionData.content d = InstructionsRoute.instruction_content name2 bytes2.
Proof.
  intros F1 F2 P1 H1 P2 H2.
  destruct (POST_instruction_200 _ _ _ _ _ _ _ F1 P1 H1) as (drive1 & -> & C1).
  destruct (POST_instruction_200 _ _ _ _ _ _ _ F2 P2 H2) as (drive2 & -> & C2).
  split; [reflexivity|].
  exists (InstructionsRoute.instructionData w (InstructionsRoute.instructionId w) name2
            (InstructionsRoute.instruction_content name2 bytes2) drive2).
  split; [|split; reflexivity].
  rewrite C2, C1. apply insert_insert_eq.
Qed.

(** X13 at two concrete creations in the same world. *)
Lemma X13_same_millisecond_collision_witness :
  exists r1 s1 r2 s2 d,
    InstructionsRoute.POST quiet_world (Returns notes) empty_state = (Returns r1, s1)
    /\ InstructionsRoute.POST quiet_world (Returns rules) s1 = (Returns r2, s2)
    /\ instructionsCache s2
       = <[ InstructionsRoute.instructionId quiet_world := d ]> (instructionsCache empty_state)
    /\ InstructionData.fileName d = "rules.md".
Proof.
  set (run1 := InstructionsRoute.POST quiet_world (Returns notes) empty_state).
  set (run2 := InstructionsRoute.POST quiet_world (Returns rules) (snd run1)).
  assert (P1 : run1 = (Returns (answer_of run1), snd run1)) by (vm_compute; reflexivity).
  assert (P2 : run2 = (Returns (answer_of run2), snd run2)) by (vm_compute; reflexivity).
  destruct (X13_same_millisecond_collision quiet_world notes "Notes.TXT" "be brief"
              rules "rules.md" "# Rules" empty_state _ _ _ _
              eq_refl eq_refl P1 ltac:(vm_compute; reflexivity)
              P2 ltac:(vm_compute; reflexivity)) as (_ & d & C & N & _).
  exists (answer_of run1), (snd run1), (answer_of run2), (snd run2), d.
  split; [exact P1|]. split; [exact P2|]. split; [exact C | exact N].
Defined.

(** *** Feedback and checklist on the same record *)

Lemma feedback_cached w instructionId c s text :
  instructionId <> EmptyString ->
  env_truthy w "GEMINI_API_KEY" = true ->
  instructionsCache s !! instructionId = Some c ->
  generateContent w Instructions.flash (feedback_prompt_of c) = Returns text ->
  text <> EmptyString ->
  GenerateFeedbackRoute.POST w (Returns (request_for instructionId)) s
    = (Returns (feedback_response (Instructions.metadata_of c) text),
       with_cache (<[ instructionId := InstructionData.with_feedback c (JStr text) ]>
                     (instructionsCache s)) s).
Proof.
  intros Hid Hk Hc Hg Ht.
  rewrite (feedback_cached_call _ _ _ _ Hid Hk Hc).
  unfold try_catch, bind at 1. unfold await. rewrite Hg.
  destruct (String.eqb_spec text EmptyString) as [E|_]; [contradiction|].
  reflexivity.
Qed.

(** X18.  Feedback and checklist live side by side in a cached record:
    generating the one keeps the other.  After a feedback generation
    followed by a checklist generation the record holds the new feedback and
    the new checklist, with every other field as before, and the two
    requests in the other order leave the very same record. *)
Theorem X18_feedback_and_checklist w instructionId c s text answer :
  instructionId <> EmptyString ->
  env_truthy w "GEMINI_API_KEY" = true ->
  instructionsCache s !! instructionId = Some c ->
  generateContent w Instructions.flash (feedback_prompt_of c) = Returns text ->
  text <> EmptyString ->
  generateContent w Instructions.flash
    (FillPmpChecklistRoute.checklistPrompt (InstructionData.content c)
       (InstructionData.customPrompt c)) = Returns answer ->
  answer <> EmptyString ->
  let request := Returns (request_for instructionId) in
  exists r1 s1 r2 s2 r1' s1' r2' s2' d,
    GenerateFeedbackRoute.POST w request s = (Returns r1, s1)
    /\ FillPmpChecklistRoute.POST w request s1 = (Returns r2, s2)
    /\ instructionsCache s2 !! instructionId = Some d
    /\ FillPmpChecklistRoute.POST w request s = (Returns r1', s1')
    /\ GenerateFeedbackRoute.POST w request s1' = (Returns r2', s2')
    /\ instructionsCache s2' !! instructionId = Some d
    /\ InstructionData.feedback d = JStr text
    /\ InstructionData.pmpChecklist d = checklist_of answer
    /\ same_elsewhere c d
    /\ status r1 = 200 /\ status r2 = 200 /\ status r1' = 200 /\ status r2' = 200.
Proof.
  intros Hid Hk Hc Hf Ht Hg Ha request.
  pose proof (feedback_cached w _ _ s _ Hid Hk Hc Hf Ht) as F1.
  pose proof (checklist_cached w _ _ s _ Hid Hk Hc Hg Ha) as C1.
  match type of F1 with _ = (_, ?s1) =>
    assert (L1 : instructionsCache s1 !! instructionId
                 = Some (InstructionData.with_feedback c (JStr text)))
      by apply lookup_insert_eq;
    pose proof (checklist_cached w _ _ s1 answer Hid Hk L1 Hg Ha) as C2
  end.
  match type of C1 with _ = (_, ?s1) =>
    assert (L2 : instructionsCache s1 !! instructionId
                 = Some (InstructionData.with_pmpChecklist c (checklist_of answer)))
      by apply lookup_insert_eq;
    pose proof (feedback_cached w _ _ s1 text Hid Hk L2 Hf Ht) as F2
  end.
  eexists _, _, _, _, _, _, _, _, _.
  split; [exact F1|]. split; [exact C2|]. split; [apply lookup_insert_eq|].
  split; [exact C1|]. split; [exact F2|]. split; [apply lookup_insert_eq|].
  repeat split.
Qed.

(** X18 at a concrete record and a model that tells the two prompts apart. *)
Lemma X18_feedback_and_checklist_witness :
  exists r1 s1 r2 s2 d,
    GenerateFeedbackRoute.POST (two_answers (feedback_prompt_of plan) "Looks fine." one_row)
      (Returns (request_for "instruction_1700000000000")) plan_cached = (Returns r1, s1)
    /\ FillPmpChecklistRoute.POST (two_answers (feedback_prompt_of plan) "Looks fine." one_row)
         (Returns (request_for "instruction_1700000000000")) s1 = (Returns r2, s2)
    /\ instructionsCache s2 !! "instruction_1700000000000" = Some d
    /\ InstructionData.feedback d = JStr "Looks fine."
    /\ InstructionData.pmpChecklist d
       = JArr [JObj [("srNo", JInt 1); ("compliance", JStr "Yes")]].
Proof.
  destruct (X18_feedback_and_checklist
              (two_answers (feedback_prompt_of plan) "Looks fine." one_row)
              "instruction_1700000000000" plan plan_cached "Looks fine." one_row
              ltac:(discriminate) eq_refl eq_refl
              ltac:(vm_compute; reflexivity) ltac:(discriminate)
              ltac:(vm_compute; reflexivity) ltac:(discriminate))
    as (r1 & s1 & r2 & s2 & r1' & s1' & r2' & s2' & d & F & C & L & _ & _ & _ & Hf & Hc & _).
  exists r1, s1, r2, s2, d. split; [exact F|]. split; [exact C|]. split; [exact L|].
  split; [exact Hf | exact Hc].
Defined.

(** *** The JSON object inside the model's answer *)

Lemma from_first_open_skips pre rest :
  no_char 123 pre = true ->
  from_first_open (pre +:+ open_brace +:+ rest) = Some (open_brace +:+ rest).
Proof.
  induction pre as [|c pre IH]; [reflexivity|].
  unfold no_char. cbn [all_chars]. rewrite andb_true_iff. intros [C R].
  rewrite append_cons. cbn [from_first_open].
  apply negb_true_iff in C. rewrite C. now apply IH.
Qed.

Lemma through_last_close_none post :
  no_char 125 post = true -> through_last_close post = None.
Proof.
  induction post as [|c post IH]; [reflexivity|].
  unfold no_char. cbn [all_chars]. rewrite andb_true_iff. intros [C R].
  cbn [through_last_close]. rewrite (IH R).
  apply negb_true_iff in C. now rewrite C.
Qed.

Lemma through_last_close_stops mid post :
  no_char 125 post = true ->
  through_last_close (mid +:+ close_brace +:+ post) = Some (mid +:+ close_brace).
Proof.
  intros P. induction mid as [|c mid IH].
  - rewrite !append_empty_l. unfold close_brace. rewrite append_cons, append_empty_l.
    cbn [through_last_close]. now rewrite (through_last_close_none _ P).
  - rewrite !append_cons. cbn [through_last_close]. now rewrite IH.
Qed.

Lemma match_braces_span pre mid post :
  no_char 123 pre = true -> no_char 125 post = true ->
  match_braces (pre +:+ (open_brace +:+ mid +:+ close_brace) +:+ post)
    = Some (open_brace +:+ mid +:+ close_brace).
Proof.
  intros Hpre Hpost. unfold match_braces.
  rewrite !append_assoc. rewrite (from_first_open_skips _ _ Hpre).
  unfold open_brace at 1 2. rewrite !append_cons, !append_empty_l.
  cbn [through_last_close].
  now rewrite (through_last_close_stops _ _ Hpost).
Qed.

Lemma from_first_open_split t u :
  from_first_open t = Some u ->
  exists pre rest, t = pre +:+ u /\ u = open_brace +:+ rest /\ no_char 123 pre = true.
Proof.
  induction t as [|c t IH]; [discriminate|].
  cbn [from_first_open].
  destruct (N.eqb_spec (code c) 123) as [E|N].
  - intros [= <-]. exists EmptyString, t.
    split; [reflexivity|]. split; [|reflexivity].
    unfold open_brace. rewrite append_cons, append_empty_l. f_equal.
    unfold code in E. rewrite <- (ascii_N_embedding c), E. reflexivity.
  - intros H. destruct (IH H) as (pre & rest & -> & -> & P).
    exists (String c pre), rest.
    split; [reflexivity|]. split; [reflexivity|].
    unfold no_char. cbn [all_chars]. fold (no_char 123 pre). rewrite P.
    now destruct (N.eqb_spec (code c) 123).
Qed.

Lemma through_last_close_split u m :
  through_last_close u = Some m ->
  exists body post, u = m +:+ post /\ m = body +:+ close_brace /\ no_char 125 post = true.
Proof.
  revert m. induction u as [|c u IH]; [discriminate|].
  intros m. cbn [through_last_close].
  destruct (through_last_close u) as [t|] eqn:T.
  - intros [= <-]. destruct (IH t eq_refl) as (body & post & -> & -> & P).
    exists (String c body), post.
    split; [reflexivity|]. split; [reflexivity | exact P].
  - destruct (N.eqb_spec (code c) 125) as [E|N]; [|discriminate].
    intros [= <-]. exists EmptyString, u.
    split; [reflexivity|]. split.
    + rewrite append_empty_l. unfold close_brace. f_equal.
      unfold code in E. rewrite <- (ascii_N_embedding c), E. reflexivity.
    + clear IH. induction u as [|d u IHu]; [reflexivity|].
      cbn [through_last_close] in T.
      destruct (through_last_close u); [discriminate|].
      destruct (N.eqb_spec (code d) 125) as [|Nd]; [discriminate|].
      unfold no_char. cbn [all_chars]. fold (no_char 125 u). rewrite (IHu eq_refl).
      now destruct (N.eqb_spec (code d) 125).
Qed.

(** X19.  The checklist route reads the JSON object out of the model's
    answer from its first opening brace to its last closing brace.  Prose
    before the object (without an opening brace) and after it (without a
    closing brace) is ignored: the checklist is the one the object alone
    would give.  Conversely, whatever span is matched starts at the first
    opening brace of the answer and ends at its last closing brace. *)
Theorem X19_prose_around_json w pre mid post s :
  no_char 123 pre = true ->
  no_char 125 post = true ->
  let object := open_brace +:+ mid +:+ close_brace in
  match_braces (pre +:+ object +:+ post) = Some object
  /\ FillPmpChecklistRoute.parse_checklist w (pre +:+ object +:+ post) s
     = FillPmpChecklistRoute.parse_checklist w object s
  /\ (forall answer span,
        match_braces answer = Some span ->
        exists before body after,
          answer = before +:+ span +:+ after
          /\ span = open_brace +:+ body
          /\ (exists body', span = body' +:+ close_brace)
          /\ no_char 123 before = true /\ no_char 125 after = true).
Proof.
  intros Hpre Hpost object.
  assert (M : match_braces (pre +:+ object +:+ post) = Some object)
    by apply (match_braces_span _ _ _ Hpre Hpost).
  assert (M0 : match_braces object = Some object).
  { pose proof (match_braces_span EmptyString mid EmptyString eq_refl eq_refl) as H.
    now rewrite append_empty_l, append_empty_r in H. }
  split; [exact M|]. split.
  - unfold FillPmpChecklistRoute.parse_checklist. now rewrite M, M0.
  - intros answer span. unfold match_braces.
    destruct (from_first_open answer) as [u|] eqn:F; [|discriminate].
    intros T.
    destruct (from_first_open_split _ _ F) as (before & rest & -> & -> & B).
    destruct (through_last_close_split _ _ T) as (body' & after & E & -> & A).
    unfold open_brace in E. rewrite append_cons, append_empty_l in E.
    destruct body' as [|c body'].
    + rewrite append_empty_l in E. unfold close_brace in E.
      rewrite append_cons in E. discriminate E.
    + rewrite !append_cons in E. injection E as <- E.
      exists before, (body' +:+ close_brace), after.
      split; [|split; [|split; [|split]]].
      * rewrite E. unfold open_brace. now rewrite !append_cons, !append_empty_l.
      * reflexivity.
      * now exists (String (chr 123) body').
      * exact B.
      * exact A.
Qed.

(** X19 at an answer that wraps its object in prose. *)
Lemma X19_prose_around_json_witness :
  match_braces ("Here you go: " +:+ (open_brace +:+ "}, {" +:+ close_brace) +:+ " Done.")
    = Some (open_brace +:+ "}, {" +:+ close_brace).
Proof.
  apply (X19_prose_around_json quiet_world "Here you go: " "}, {" " Done." empty_state
           eq_refl eq_refl).
Defined.

(** *** The status probe *)

(** X20.  The status probe always answers 200 and changes nothing.  Its
    [available] flags are the two configuration tests of the upload route,
    and its list of recommendations is empty exactly when the three Drive
    credentials, the shared drive id and the inference key are all set. *)
Theorem X20_status_recommendations w s :
  exists r,
    StatusRoute.GET w s = (Returns r, s)
    /\ status r = 200
    /\ get_opt (get_opt (get_opt (body r) "services") "googleDrive") "available"
       = JBool (UploadRoute.hasGoogleDrive w)
    /\ get_opt (get_opt (get_opt (body r) "services") "geminiAnalysis") "available"
       = JBool (UploadRoute.hasGemini w)
    /\ (get_opt (body r) "recommendations" = JArr [] <->
        UploadRoute.hasGoogleDrive w = true
        /\ env_truthy w "GOOGLE_SHARED_DRIVE_ID" = true
        /\ UploadRoute.hasGemini w = true).
Proof.
  eexists. split; [reflexivity|]. split; [reflexivity|].
  split; [reflexivity|]. split; [reflexivity|].
  cbn [body json get_opt get_prop assoc String.eqb Ascii.eqb Bool.eqb default from_option].
  destruct (UploadRoute.hasGoogleDrive w), (env_truthy w "GOOGLE_SHARED_DRIVE_ID"),
    (UploadRoute.hasGemini w); cbn; split; intros H;
    try discriminate H; try tauto;
    destruct H as (? & ? & ?); discriminate.
Qed.

(** *** The directory of the instruction files *)

(** X21.  [getSafeInstructionsDir] never throws and never touches a file or
    the cache.  When it gives a directory, that is [/tmp/instructions] on a
    serverless platform and [instructions] under the working directory
    otherwise, and the path exists when it returns; when the directory
    cannot be created it gives null and the state is as before. *)
Theorem X21_safe_instructions_dir w s :
  exists r s',
    InstructionsRoute.getSafeInstructionsDir w s = (Returns r, s')
    /\ files s' = files s
    /\ instructionsCache s' = instructionsCache s
    /\ tempFilePath s' = tempFilePath s
    /\ match r with
       | None => s' = s
       | Some dir =>
           dir = (if env_truthy w "VERCEL" || env_truthy w "AWS_LAMBDA_FUNCTION_NAME"
                  then "/tmp/instructions"
                  else Path.join_paths [cwd w; "instructions"])
           /\ fst (fs.existsSync dir s') = Returns true
       end.
Proof.
  unfold InstructionsRoute.getSafeInstructionsDir.
  set (dir := if env_truthy w "VERCEL" || env_truthy w "AWS_LAMBDA_FUNCTION_NAME"
              then "/tmp/instructions" else Path.join_paths [cwd w; "instructions"]).
  assert (E : forall d,
    exists r s',
      try_catch
        (let! found := fs.existsSync d in
         (if negb found then fs.mkdirSync w d else ret tt) >> ret (Some d))
        (fun _ => ret None) s = (Returns r, s')
      /\ files s' = files s /\ instructionsCache s' = instructionsCache s
      /\ tempFilePath s' = tempFilePath s
      /\ match r with
         | None => s' = s
         | Some d' => d' = d /\ fst (fs.existsSync d' s') = Returns true
         end).
  { intros d. unfold try_catch, bind, fs.existsSync.
    destruct (bool_decide (is_Some (files s !! d)) || bool_decide (d ∈ dirs s)) eqn:X.
    - cbn [negb]. eexists _, _. split; [reflexivity|]. repeat split. cbn [fst]. now rewrite X.
    - cbn [negb]. unfold fs.mkdirSync.
      destruct (fs_fault w (mkdir d)); [eexists _, _; split; [reflexivity|]; repeat split|].
      destruct (files s !! d); [eexists _, _; split; [reflexivity|]; repeat split|].
      eexists _, _. split; [reflexivity|]. repeat split.
      cbn [fst with_dirs dirs files].
      rewrite (bool_decide_eq_true_2 (d ∈ {[d]} ∪ dirs s)) by set_solver.
      now rewrite orb_true_r. }
  subst dir.
  destruct (env_truthy w "VERCEL" || env_truthy w "AWS_LAMBDA_FUNCTION_NAME"); apply E.
Qed.

(** *** The on-disk revision writes in two steps *)

(** X23.  In the on-disk revision of the instruction route the content file
    and the metadata file are written one after the other, with nothing to
    undo the first: when the content is written and the metadata write fails,
    the request is answered 500 and the content file stays on disk without
    its metadata. *)
Theorem X23_on_disk_partial_write w form name bytes s msg :
  formData_get form "instruction" = Some (Upload name bytes) ->
  let content := InstructionsRoute.instruction_content name bytes in
  let id := InstructionsRoute.instructionId w in
  let localPath := Path.join_paths [InstructionsRouteOnDisk.instructionsDir w; id +:+ ".txt"] in
  let metadataPath :=
    Path.join_paths [InstructionsRouteOnDisk.instructionsDir w; id +:+ ".meta.json"] in
  fs_fault w (write localPath) = None ->
  localPath ∉ dirs s ->
  fs_fault w (write metadataPath) = Some msg ->
  InstructionsRouteOnDisk.POST w (Returns form) s
    = (Returns (json_status (JObj [("error", JStr "Failed to upload instruction file")]) 500),
       with_files (<[ localPath := {| bytes := content; mtime := Date_iso w |} ]> (files s)) s).
Proof.
  intros F content id localPath metadataPath Hl Hd Hm.
  unfold InstructionsRouteOnDisk.POST. unfold try_catch at 1.
  rewrite (bind_returns (await (Returns form)) _ _ form _ eq_refl).
  cbv zeta. rewrite F.
  change (negb (entry_truthy (Some (Upload name bytes)))) with false. cbv iota.
  rewrite (bind_returns (as_file (Some (Upload name bytes))) _ _ (name, bytes) _ eq_refl).
  fold content. fold id. fold localPath. fold metadataPath.
  unfold bind at 1. unfold fs.writeFileSync at 1. rewrite Hl.
  rewrite (bool_decide_eq_false_2 _ Hd).
  set (s1 := with_files _ s).
  unfold bind at 1.
  match goal with |- context [try_catch ?m (fun _ => ret ?v)] =>
    assert (R : read_only (try_catch m (fun _ => ret v))) by ro;
    destruct (try_catch_ret m (fun _ => v) s1) as (driveFile & s2 & D)
  end.
  pose proof (returns_read_only _ _ _ _ R D) as ->.
  rewrite D. clear R D.
  unfold bind at 1. unfold InstructionsRoute.write_json.
  match goal with |- context [JSON_stringify (JObj ?props)] =>
    destruct (stringify_object EmptyString props) as [text T];
    unfold JSON_stringify; rewrite T end.
  unfold fs.writeFileSync. rewrite Hm. reflexivity.
Qed.

(** X23 on a disk that fills up between the two writes. *)
Lemma X23_on_disk_partial_write_witness :
  exists s',
    InstructionsRouteOnDisk.POST full_disk (Returns notes) empty_state
      = (Returns (json_status (JObj [("error", JStr "Failed to upload instruction file")]) 500),
         s')
    /\ files s' !! "/app/instructions/instruction_1700000000000.txt"
       = Some {| bytes := "be brief"; mtime := Date_iso full_disk |}
    /\ files s' !! "/app/instructions/instruction_1700000000000.meta.json" = None.
Proof.
  eexists. split.
  - apply (X23_on_disk_partial_write full_disk notes "Notes.TXT" "be brief" empty_state
             "ENOSPC: no space left on device" eq_refl);
      [reflexivity | vm_compute; set_solver | reflexivity].
  - split; vm_compute; reflexivity.
Defined.

(** *** An instruction the upload cannot look up *)

Lemma instruction_url_lost w fid s :
  let metadataPath :=
    Path.join_paths [cwd w; "instructions"; entry_toString fid +:+ ".meta.json"] in
  (files s !! metadataPath = None /\ metadataPath ∉ dirs s)
  \/ fs_fault w (read metadataPath) <> None ->
  UploadRoute.instruction_url w fid s = (Returns JNull, s).
Proof.
  intros metadataPath H. unfold UploadRoute.instruction_url.
  destruct (entry_truthy fid); [|reflexivity].
  fold metadataPath. unfold try_catch, bind, fs.existsSync.
  destruct H as [[Hf Hd] | Hr].
  - rewrite Hf. rewrite bool_decide_eq_false_2 by (intros [? ?]; discriminate).
    now rewrite bool_decide_eq_false_2 by assumption.
  - destruct (_ || _); [|reflexivity].
    unfold fs.readFileSync.
    destruct (fs_fault w (read metadataPath)); [reflexivity | contradiction].
Qed.

(** X27.  An upload that names an instruction whose metadata file is not on
    disk when it is looked up, or cannot be read, is processed exactly as the
    same upload without an instruction: same response, same final state. *)
Theorem X27_lost_instruction w form form' name data s path s1 :
  formData_get form "file" = Some (Upload name data) ->
  formData_get form' "file" = Some (Upload name data) ->
  formData_get form' "instructionFileId" = None ->
  staging w name data (start s) = (Returns path, s1) ->
  let metadataPath :=
    Path.join_paths [cwd w; "instructions";
                     entry_toString (formData_get form "instructionFileId") +:+ ".meta.json"] in
  (files s1 !! metadataPath = None /\ metadataPath ∉ dirs s1)
  \/ fs_fault w (read metadataPath) <> None ->
  UploadRoute.POST w (Returns form) s = UploadRoute.POST w (Returns form') s.
Proof.
  intros F F' N S metadataPath H.
  rewrite (POST_upload _ _ _ _ _ F), (POST_upload _ _ _ _ _ F').
  unfold try_finally, try_catch.
  rewrite !(bind_returns _ _ _ _ _ S).
  assert (A : UploadRoute.analyse w path name data (formData_get form "instructionFileId") s1
              = UploadRoute.analyse w path name data (formData_get form' "instructionFileId") s1).
  { unfold UploadRoute.analyse.
    rewrite (bind_returns _ _ _ _ _
               (instruction_url_lost w (formData_get form "instructionFileId") s1 H)).
    rewrite N.
    now rewrite (bind_returns (UploadRoute.instruction_url w None) _ s1 JNull s1 eq_refl). }
  now rewrite A.
Qed.

(** X27 on a disk that cannot be read. *)
Lemma X27_lost_instruction_witness :
  UploadRoute.POST unreadable_disk (Returns report_with_instruction) empty_state
    = UploadRoute.POST unreadable_disk (Returns report) empty_state.
Proof.
  apply (X27_lost_instruction unreadable_disk report_with_instruction report "report.txt" "a,b"
           empty_state _ _ eq_refl eq_refl eq_refl ltac:(vm_compute; reflexivity)).
  right. discriminate.
Defined.

(** *** Substrings *)

Lemma includes_unfold s sub :
  includes s sub
  = startsWith s sub || match s with
                        | EmptyString => false
                        | String _ r => includes r sub
                        end.
Proof. now destruct s. Qed.

Lemma includes_prefix a b : includes (a +:+ b) a = true.
Proof.
  assert (S : startsWith (a +:+ b) a = true) by (apply startsWith_spec; now exists b).
  rewrite includes_unfold. now rewrite S.
Qed.

Lemma includes_skip a b sub : includes b sub = true -> includes (a +:+ b) sub = true.
Proof.
  intros H. induction a as [|c a IH]; [exact H|].
  rewrite append_cons. cbn [includes]. rewrite IH. apply orb_true_r.
Qed.

Lemma includes_spec s sub :
  includes s sub = true <-> exists pre post, s = pre +:+ sub +:+ post.
Proof.
  split.
  - induction s as [|c s IH].
    + cbn [includes]. rewrite orb_false_r. intros H.
      apply startsWith_spec in H as [r H]. exists EmptyString, r. exact H.
    + cbn [includes]. rewrite orb_true_iff. intros [H|H].
      * apply startsWith_spec in H as [r H]. exists EmptyString, r. exact H.
      * destruct (IH H) as (pre & post & ->). exists (String c pre), post. reflexivity.
  - intros (pre & post & ->). apply includes_skip, includes_prefix.
Qed.

Lemma includes_left a b sub : includes a sub = true -> includes (a +:+ b) sub = true.
Proof.
  intros H. apply includes_spec in H as (pre & post & ->).
  apply includes_spec. exists pre, (post +:+ b). now rewrite !append_assoc.
Qed.

Lemma includes_part s a b : includes s (a +:+ b) = true -> includes s b = true.
Proof.
  intros H. apply includes_spec in H as (pre & post & ->).
  apply includes_spec. exists (pre +:+ a), post. now rewrite !append_assoc.
Qed.

(** *** The local analyzer *)

(** X8.  The check for mixed line endings of the local analyzer fires on
    every text that contains a carriage return followed by a line feed, also
    when all its line endings are of that kind: the report then has a
    section of potential issues whose first entry is
    [Mixed line endings detected]. *)
Theorem X8_crlf_is_reported_as_mixed content :
  includes content LocalAnalyzer.crlf = true ->
  includes (LocalAnalyzer.analyzeTextContent content)
    ("### Potential Issues" +:+ nl +:+ "- Mixed line endings detected") = true.
Proof.
  intros H.
  assert (N : includes content nl = true).
  { apply (includes_part content (String (chr 13) EmptyString) nl). exact H. }
  unfold LocalAnalyzer.analyzeTextContent. cbv zeta. rewrite H, N. cbn [andb app].
  apply includes_skip.
  destruct (includes content LocalAnalyzer.tab && includes content "  ");
    vm_compute; reflexivity.
Qed.

(** X8 at a file with nothing but CRLF line endings. *)
Lemma X8_crlf_is_reported_as_mixed_witness :
  includes (LocalAnalyzer.analyzeTextContent ("a" +:+ LocalAnalyzer.crlf +:+ "b" +:+ LocalAnalyzer.crlf))
    ("### Potential Issues" +:+ nl +:+ "- Mixed line endings detected") = true.
Proof.
  apply (X8_crlf_is_reported_as_mixed ("a" +:+ LocalAnalyzer.crlf +:+ "b" +:+ LocalAnalyzer.crlf)).
  reflexivity.
Defined.

Lemma statSync_file w p s f :
  files s !! p = Some f -> fs_fault w (stat p) = None ->
  fs.statSync w p s
    = (Returns {| fs.size := Z.of_nat (String.length (bytes f)); fs.stat_mtime := mtime f |}, s).
Proof. intros F S. unfold fs.statSync. now rewrite S, F. Qed.

(** X9.  A text file that can be stat-ed but not read still gets a report
    from the local analyzer: the result has [success] true, the size of the
    file, and a feedback text whose content section is the sentence
    [Could not read file content for analysis.] *)
Theorem X9_unreadable_text_file w p name u s f msg :
  files s !! p = Some f ->
  fs_fault w (stat p) = None ->
  fs_fault w (read p) = Some msg ->
  LocalAnalyzer.isTextFile (toLowerCase (Path.extname name)) = true ->
  exists v text,
    LocalAnalyzer.analyzeFile w p name u s = (Returns v, s)
    /\ get_opt v "success" = JBool true
    /\ get_opt v "feedback" = JStr text
    /\ includes text "Could not read file content for analysis." = true
    /\ get_opt (get_opt v "fileInfo") "size" = JInt (Z.of_nat (String.length (bytes f))).
Proof.
  intros F S R T.
  unfold LocalAnalyzer.analyzeFile, try_catch.
  rewrite (bind_returns _ _ _ _ _ (statSync_file w p s f F S)).
  cbv zeta. rewrite T.
  unfold bind at 1. unfold try_catch, bind, fs.readFileSync. rewrite R.
  unfold ret at 1. cbv iota beta.
  eexists _, _. split; [reflexivity|].
  split; [reflexivity|]. split; [reflexivity|]. split; [|reflexivity].
  do 11 apply includes_skip. apply includes_prefix.
Qed.

(** X9 on a disk that cannot be read. *)
Lemma X9_unreadable_text_file_witness :
  exists v text,
    LocalAnalyzer.analyzeFile unreadable_disk "/app/temp/notes.txt" "notes.txt" JNull
      (one_file "/app/temp/notes.txt" "be brief")
      = (Returns v, one_file "/app/temp/notes.txt" "be brief")
    /\ get_opt v "success" = JBool true
    /\ get_opt v "feedback" = JStr text
    /\ includes text "Could not read file content for analysis." = true.
Proof.
  destruct (X9_unreadable_text_file unreadable_disk "/app/temp/notes.txt" "notes.txt" JNull
              (one_file "/app/temp/notes.txt" "be brief")
              {| bytes := "be brief"; mtime := "2023-11-14T22:13:20.000Z" |}
              "EACCES: permission denied"
              ltac:(vm_compute; reflexivity) eq_refl eq_refl eq_refl)
    as (v & text & A & S & Fb & I & _).
  exists v, text. repeat split; assumption.
Defined.

(** X11.  Neither analyzer opens a file whose extension is not in its list
    of text extensions: the local analyzer and [analyzeFileDirectly] give the
    same outcome in a world where every read of a file fails. *)
Theorem X11_binary_files_are_not_read w fault p name u ic cp s :
  (forall c, (forall q, c <> read q) -> fault c = fs_fault w c) ->
  (LocalAnalyzer.isTextFile (toLowerCase (Path.extname name)) = false ->
   LocalAnalyzer.analyzeFile (with_fault fault w) p name u s
     = LocalAnalyzer.analyzeFile w p name u s)
  /\ (GeminiService.isTextFile
        (GoogleDriveService.after_last_dot EmptyString (toLowerCase name)) = false ->
      GeminiService.analyzeFileDirectly (with_fault fault w) p name ic cp s
        = GeminiService.analyzeFileDirectly w p name ic cp s).
Proof.
  intros H.
  assert (S : fs.statSync (with_fault fault w) p s = fs.statSync w p s).
  { unfold fs.statSync. cbn [fs_fault with_fault]. now rewrite H by discriminate. }
  split; intros T.
  - unfold LocalAnalyzer.analyzeFile, try_catch, bind. rewrite S, T. reflexivity.
  - unfold GeminiService.analyzeFileDirectly, try_catch, bind. rewrite S, T. reflexivity.
Qed.

(** X11 at an image on a disk that cannot be read. *)
Lemma X11_binary_files_are_not_read_witness :
  LocalAnalyzer.analyzeFile unreadable_disk "/app/temp/photo.png" "photo.png" JNull
    (one_file "/app/temp/photo.png" "PNG")
  = LocalAnalyzer.analyzeFile quiet_world "/app/temp/photo.png" "photo.png" JNull
      (one_file "/app/temp/photo.png" "PNG").
Proof.
  refine (proj1 (X11_binary_files_are_not_read quiet_world
                   (fun c => match c with
                             | read _ => Some "EACCES: permission denied"
                             | _ => None
                             end)
                   "/app/temp/photo.png" "photo.png" JNull JNull JNull
                   (one_file "/app/temp/photo.png" "PNG") _) eq_refl).
  intros c Hc. destruct c; try reflexivity. now destruct (Hc p).
Defined.

(** *** The errors of the Gemini service *)

Lemma rethrow_spec {A} fallback e s :
  exists e', @GeminiService.rethrow A fallback e s = (Throws e', s)
             /\ In e' (gemini_errors fallback)
             /\ (forall m, e = Err m -> looks_rate_limited m = true ->
                 e' = Err "Gemini API rate limit exceeded. Please try again in a few minutes.").
Proof.
  unfold GeminiService.rethrow, looks_rate_limited.
  destruct e as [m|]; cbn [message_includes].
  - destruct (includes m "429" || includes m "Too Many Requests" || includes m "quota") eqn:R.
    + eexists. split; [reflexivity|]. split; [simpl; tauto|]. reflexivity.
    + destruct (includes m "GEMINI_API_KEY");
        (eexists; split; [reflexivity|]; split; [simpl; tauto|]);
        intros m' [= <-] R'; rewrite R in R'; discriminate.
  - eexists. split; [reflexivity|]. split; [simpl; tauto|]. discriminate.
Qed.

Lemma try_catch_rethrow {A} (m : M A) fallback s e s' :
  read_only m ->
  try_catch m (GeminiService.rethrow fallback) s = (Throws e, s') ->
  s' = s /\ In e (gemini_errors fallback).
Proof.
  intros R. unfold try_catch. specialize (R s).
  destruct (m s) as [[a|e0] s1]; simpl in R; subst s1; [discriminate|].
  destruct (rethrow_spec (A := A) fallback e0 s) as (e' & -> & I & _).
  now intros [= <- <-].
Qed.

Lemma read_only_rethrow {A} fallback e : read_only (@GeminiService.rethrow A fallback e).
Proof. unfold GeminiService.rethrow. ro. Qed.

(** X24.  Whatever goes wrong inside a method of the Gemini service, the
    caller sees one of three errors: the rate-limit error, the key error, or
    the method's own message; the provider's message and the messages of the
    file system never get out, and the state is left as it was. *)
Theorem X24_gemini_errors w a b p name ic cp s e s' :
  (GeminiService.analyzeFile w a b s = (Throws e, s') ->
   s' = s /\ In e (gemini_errors "Failed to analyze file with Gemini API"))
  /\ (GeminiService.analyzeFileWithInstruction w a b s = (Throws e, s') ->
      s' = s /\ In e (gemini_errors "Failed to analyze file with instruction"))
  /\ (GeminiService.analyzeWithCustomPrompt w a b s = (Throws e, s') ->
      s' = s /\ In e (gemini_errors "Failed to analyze file with custom prompt"))
  /\ (GeminiService.analyzeFileDirectly w p name ic cp s = (Throws e, s') ->
      s' = s /\ In e (gemini_errors "Failed to analyze file directly with Gemini API")).
Proof.
  split; [|split; [|split]].
  - unfold GeminiService.analyzeFile. cbv zeta. apply try_catch_rethrow. ro.
  - intros H. split.
    + pose proof (read_only_analyzeFileWithInstruction w a b s) as R.
      rewrite H in R. exact R.
    + destruct (analyzeFileWithInstruction_throws _ _ _ _ _ _ H) as (m & -> & I).
      destruct I as [<- | [<- | [<- | []]]];
        [left | right; left | right; right; left]; reflexivity.
  - unfold GeminiService.analyzeWithCustomPrompt. apply try_catch_rethrow. ro.
  - unfold GeminiService.analyzeFileDirectly. cbv zeta. apply try_catch_rethrow. ro.
Qed.

(** X24 at a provider that cannot be reached. *)
Lemma X24_gemini_errors_witness :
  exists e,
    GeminiService.analyzeFile (with_env all_credentials quiet_world)
      (JStr "https://drive.google.com/uc?id=1AbC&export=download") JUndefined empty_state
      = (Throws e, empty_state)
    /\ In e (gemini_errors "Failed to analyze file with Gemini API").
Proof.
  exists (Err "Failed to analyze file with Gemini API").
  assert (H : GeminiService.analyzeFile (with_env all_credentials quiet_world)
                (JStr "https://drive.google.com/uc?id=1AbC&export=download") JUndefined
                empty_state
              = (Throws (Err "Failed to analyze file with Gemini API"), empty_state))
    by (vm_compute; reflexivity).
  split; [exact H|].
  exact (proj2 (proj1 (X24_gemini_errors (with_env all_credentials quiet_world)
                         (JStr "https://drive.google.com/uc?id=1AbC&export=download")
                         JUndefined EmptyString EmptyString JUndefined JUndefined
                         empty_state (Err "Failed to analyze file with Gemini API")
                         empty_state) H)).
Defined.

(** X25.  [analyzeFileDirectly] inspects the message of every error raised
    in its body, those of the file system included: when [fs.statSync] fails
    with a message that contains [429], [Too Many Requests] or [quota], the
    caller gets the rate-limit error although the model was never called.
    This is what happens for a missing file whose path contains [429]. *)
Theorem X25_file_error_as_rate_limit w p name ic cp s :
  (forall m,
     fst (fs.statSync w p s) = Throws (Err m) ->
     looks_rate_limited m = true ->
     GeminiService.analyzeFileDirectly w p name ic cp s
       = (Throws (Err "Gemini API rate limit exceeded. Please try again in a few minutes."), s))
  /\ (files s !! p = None -> p ∉ dirs s -> fs_fault w (stat p) = None ->
      includes p "429" = true ->
      GeminiService.analyzeFileDirectly w p name ic cp s
        = (Throws (Err "Gemini API rate limit exceeded. Please try again in a few minutes."), s)).
Proof.
  assert (G : forall m,
    fst (fs.statSync w p s) = Throws (Err m) ->
    looks_rate_limited m = true ->
    GeminiService.analyzeFileDirectly w p name ic cp s
      = (Throws (Err "Gemini API rate limit exceeded. Please try again in a few minutes."), s)).
  { intros m S L.
    rewrite (run_read_only _ s (read_only_statSync w p)) in S. simpl in S.
    unfold GeminiService.analyzeFileDirectly. cbv zeta. unfold try_catch.
    rewrite (bind_throws _ _ s (Err m) s)
      by (rewrite (run_read_only _ s (read_only_statSync w p)); now rewrite S).
    destruct (rethrow_spec (A := JsValue) "Failed to analyze file directly with Gemini API"
                (Err m) s) as (e' & -> & _ & R).
    now rewrite (R m eq_refl L). }
  split; [exact G|].
  intros F D S I.
  apply (G ("ENOENT: no such file or directory, stat '" +:+ p +:+ "'")).
  - unfold fs.statSync. rewrite S, F. now rewrite bool_decide_eq_false_2 by assumption.
  - unfold looks_rate_limited.
    assert (X : includes ("ENOENT: no such file or directory, stat '" +:+ p +:+ "'") "429"
                = true) by (apply includes_skip, includes_left, I).
    now rewrite X.
Qed.

(** X25 at a staged file that has gone, named after the millisecond clock. *)
Lemma X25_file_error_as_rate_limit_witness :
  GeminiService.analyzeFileDirectly (with_env all_credentials quiet_world)
    "/app/temp/1700000429000_data.bin" "data.bin" JUndefined JUndefined empty_state
  = (Throws (Err "Gemini API rate limit exceeded. Please try again in a few minutes."),
     empty_state).
Proof.
  apply (proj2 (X25_file_error_as_rate_limit (with_env all_credentials quiet_world)
                  "/app/temp/1700000429000_data.bin" "data.bin" JUndefined JUndefined
                  empty_state));
    [reflexivity | vm_compute; set_solver | reflexivity | vm_compute; reflexivity].
Defined.

(** *** The local report of a staged file *)

Lemma staged_file_content w name data s0 path s1 :
  staging w name data s0 = (Returns path, s1) ->
  files s1 !! path = Some {| bytes := data; mtime := Date_iso w |}.
Proof.
  unfold staging, bind.
  destruct (UploadRoute.ensure_tempDir w s0) as [[[]|?] s2]; [|discriminate].
  unfold UploadRoute.save_temporarily, bind, set_tempFilePath, fs.writeFileSync.
  cbv zeta. simpl.
  destruct (fs_fault w _); [discriminate|].
  destruct (bool_decide _); [discriminate|].
  intros [= <- <-]. simpl. apply lookup_insert_eq.
Qed.

(** X10.  The local analyzer reports on exactly the bytes that were
    uploaded: for a staged file that can be stat-ed and read, the result has
    [success] true, its [fileInfo.size] is the byte count of the upload, its
    [fileInfo.name] the original name, and, for a text extension, the content
    section of the report is [analyzeTextContent] of the uploaded bytes
    decoded as UTF-8. *)
Theorem X10_report_of_staged_file w name data s0 path s1 u :
  staging w name data s0 = (Returns path, s1) ->
  fs_fault w (stat path) = None ->
  fs_fault w (read path) = None ->
  exists v text,
    LocalAnalyzer.analyzeFile w path name u s1 = (Returns v, s1)
    /\ get_opt v "success" = JBool true
    /\ get_opt v "feedback" = JStr text
    /\ get_opt (get_opt v "fileInfo") "size" = JInt (Z.of_nat (String.length data))
    /\ get_opt (get_opt v "fileInfo") "name" = JStr name
    /\ (LocalAnalyzer.isTextFile (toLowerCase (Path.extname name)) = true ->
        includes text (LocalAnalyzer.analyzeTextContent (Buffer_toString data)) = true).
Proof.
  intros St S R.
  pose proof (staged_file_content _ _ _ _ _ _ St) as F.
  unfold LocalAnalyzer.analyzeFile, try_catch.
  rewrite (bind_returns _ _ _ _ _ (statSync_file w path s1 _ F S)).
  cbv zeta. cbn [fs.size fs.stat_mtime bytes mtime].
  destruct (LocalAnalyzer.isTextFile (toLowerCase (Path.extname name))) eqn:T.
  - unfold bind at 1. unfold try_catch, bind, fs.readFileSync. rewrite R, F.
    unfold ret at 1 2. cbv iota beta. cbn [bytes].
    eexists _, _. split; [reflexivity|].
    split; [reflexivity|]. split; [reflexivity|]. split; [reflexivity|]. split.
    + reflexivity.
    + intros _. do 11 apply includes_skip. apply includes_prefix.
  - rewrite (bind_returns (ret EmptyString) _ s1 EmptyString s1 eq_refl).
    eexists _, _. split; [reflexivity|].
    split; [reflexivity|]. split; [reflexivity|]. split; [reflexivity|]. split.
    + reflexivity.
    + discriminate.
Qed.

(** X10 at a concrete text file. *)
Lemma X10_report_of_staged_file_witness :
  exists v text,
    LocalAnalyzer.analyzeFile quiet_world "/app/temp/1700000000000_report.txt" "report.txt"
      (JStr EmptyString) (snd (staging quiet_world "report.txt" "a,b" empty_state))
      = (Returns v, snd (staging quiet_world "report.txt" "a,b" empty_state))
    /\ get_opt v "feedback" = JStr text
    /\ get_opt (get_opt v "fileInfo") "size" = JInt 3
    /\ includes text (LocalAnalyzer.analyzeTextContent "a,b") = true.
Proof.
  destruct (X10_report_of_staged_file quiet_world "report.txt" "a,b" empty_state
              "/app/temp/1700000000000_report.txt"
              (snd (staging quiet_world "report.txt" "a,b" empty_state)) (JStr EmptyString)
              ltac:(vm_compute; reflexivity) eq_refl eq_refl)
    as (v & text & A & _ & Fb & Sz & _ & Tx).
  exists v, text. split; [exact A|]. split; [exact Fb|]. split; [exact Sz|].
  apply Tx. reflexivity.
Defined.

(** *** Paths *)

Section Paths.

Lemma split_slash_app cur a b :
  Path.split_slash cur (a +:+ "/" +:+ b) = Path.split_slash cur a ++ Path.split_slash EmptyString b.
Proof.
  revert cur. induction a as [|c a IH]; intros cur.
  - reflexivity.
  - rewrite append_cons. cbn [Path.split_slash].
    destruct (Path.is_slash c); now rewrite IH.
Qed.

Lemma no_char_cons n c s :
  no_char n (String c s) = negb (code c =? n)%N && no_char n s.
Proof. reflexivity. Qed.

Lemma no_char_app n a b : no_char n (a +:+ b) = no_char n a && no_char n b.
Proof.
  induction a as [|c a IH]; [reflexivity|].
  rewrite append_cons, !no_char_cons, IH. now rewrite andb_assoc.
Qed.

Lemma split_slash_plain cur seg :
  no_char 47 seg = true -> Path.split_slash cur seg = [cur +:+ seg].
Proof.
  revert cur. induction seg as [|c seg IH]; intros cur.
  - intros _. cbn [Path.split_slash]. now rewrite append_empty_r.
  - rewrite no_char_cons, andb_true_iff. intros [C S].
    cbn [Path.split_slash]. unfold Path.is_slash.
    apply negb_true_iff in C. rewrite C, (IH _ S).
    now rewrite append_assoc.
Qed.

Lemma normal_segment_spec seg :
  normal_segment seg = true <->
  seg <> EmptyString /\ seg <> "." /\ seg <> ".." /\ no_char 47 seg = true.
Proof.
  unfold normal_segment. rewrite !andb_true_iff, !negb_true_iff.
  destruct (String.eqb_spec seg EmptyString), (String.eqb_spec seg "."),
    (String.eqb_spec seg ".."); intuition congruence.
Qed.

Lemma resolve_normal b stack seg segs :
  normal_segment seg = true ->
  Path.resolve b stack (seg :: segs) = Path.resolve b (seg :: stack) segs.
Proof.
  intros N. apply normal_segment_spec in N as (N1 & N2 & N3 & _).
  cbn [Path.resolve].
  destruct (String.eqb_spec seg EmptyString); [contradiction|].
  destruct (String.eqb_spec seg "."); [contradiction|].
  destruct (String.eqb_spec seg ".."); [contradiction|].
  reflexivity.
Qed.

Lemma resolve_app b stack l1 l2 :
  Path.resolve b stack (l1 ++ l2) = Path.resolve b (rev (Path.resolve b stack l1)) l2.
Proof.
  revert stack. induction l1 as [|seg l1 IH]; intros stack.
  - cbn [app Path.resolve]. now rewrite rev_involutive.
  - cbn [app Path.resolve].
    destruct (String.eqb seg EmptyString || String.eqb seg "."); [apply IH|].
    destruct (String.eqb seg "..").
    + destruct stack as [|top below].
      * destruct b; apply IH.
      * destruct (String.eqb top ".."); apply IH.
    + apply IH.
Qed.

Lemma resolve_nil b stack : Path.resolve b stack [] = rev stack.
Proof. reflexivity. Qed.

Lemma resolve_push b l seg :
  normal_segment seg = true ->
  Path.resolve b [] (l ++ [seg]) = Path.resolve b [] l ++ [seg].
Proof.
  intros N. rewrite resolve_app, (resolve_normal _ _ _ _ N), resolve_nil.
  cbn [rev]. now rewrite rev_involutive.
Qed.

Lemma resolve_normals b stack segs :
  Forall (fun seg => normal_segment seg = true) segs ->
  Path.resolve b stack segs = rev stack ++ segs.
Proof.
  intros F. revert stack. induction F as [|seg segs N F IH]; intros stack.
  - cbn [Path.resolve]. now rewrite app_nil_r.
  - rewrite (resolve_normal _ _ _ _ N), IH. cbn [rev]. now rewrite <- app_assoc.
Qed.

Lemma rev_repeat {A} (x : A) k : rev (repeat x k) = repeat x k.
Proof.
  induction k as [|k IH]; [reflexivity|].
  cbn [repeat rev]. rewrite IH. clear IH.
  induction k as [|k IH]; [reflexivity|]. cbn [repeat app]. now rewrite IH.
Qed.

Lemma resolve_dotdots b j k segs :
  (k <> O -> b = true) ->
  Forall (fun seg => normal_segment seg = true) segs ->
  Path.resolve b (repeat ".." j) (repeat ".." k ++ segs) = repeat ".." (j + k) ++ segs.
Proof.
  intros B F. revert j. induction k as [|k IH]; intros j.
  - cbn [repeat app]. rewrite (resolve_normals _ _ _ F), rev_repeat.
    now rewrite Nat.add_0_r.
  - assert (b = true) as -> by now apply B.
    cbn [repeat app Path.resolve].
    change (String.eqb ".." EmptyString || String.eqb ".." ".") with false.
    change (String.eqb ".." "..") with true. cbv iota.
    destruct j as [|j].
    + cbn [repeat]. exact (IH (fun _ => eq_refl) 1%nat).
    + cbn [repeat]. change (String.eqb ".." "..") with true. cbv iota.
      change (".." :: ".." :: repeat ".." j) with (repeat ".." (S (S j))).
      rewrite (IH (fun _ => eq_refl) (S (S j))).
      now rewrite Nat.add_succ_r.
Qed.

(** Resolving the segments of a normalized path gives them back. *)
Lemma resolve_fixed b stack :
  stack_ok b stack -> Path.resolve b [] (rev stack) = rev stack.
Proof.
  intros (k & normals & -> & F & B).
  rewrite rev_app_distr, rev_repeat.
  apply (resolve_dotdots b 0 k (rev normals) B).
  now apply Forall_rev.
Qed.

Lemma stack_ok_push b stack seg :
  stack_ok b stack -> normal_segment seg = true -> stack_ok b (seg :: stack).
Proof.
  intros (k & normals & -> & F & B) N.
  exists k, (seg :: normals). split; [reflexivity|]. split; [now constructor | exact B].
Qed.

Lemma resolve_stack_ok b segs :
  Forall (fun seg => no_char 47 seg = true) segs ->
  forall stack, stack_ok b stack ->
  exists stack', Path.resolve b stack segs = rev stack' /\ stack_ok b stack'.
Proof.
  induction 1 as [|seg segs Hs _ IH]; intros stack OK.
  - exists stack. now split.
  - cbn [Path.resolve].
    destruct (String.eqb_spec seg EmptyString) as [|N1]; [now apply IH|].
    destruct (String.eqb_spec seg ".") as [|N2]; [now apply IH|].
    cbn [orb].
    destruct (String.eqb_spec seg "..") as [->|N3].
    + destruct OK as (k & normals & -> & F & B).
      destruct normals as [|n normals].
      * cbn [app]. destruct k as [|k].
        -- cbn [repeat]. destruct b.
           ++ apply IH. exists 1%nat, []. repeat split. constructor.
           ++ apply IH. exists O, []. repeat split; [constructor | congruence].
        -- cbn [repeat]. change (String.eqb ".." "..") with true. cbv iota.
           apply IH. exists (S (S k)), []. repeat split; [constructor|].
           intros _. now apply B.
      * cbn [app].
        inversion F as [|? ? Hn F']; subst.
        apply normal_segment_spec in Hn as (_ & _ & Hn & _).
        destruct (String.eqb_spec n ".."); [contradiction|].
        apply IH. now exists k, normals.
    + apply IH, stack_ok_push; [exact OK|].
      apply normal_segment_spec. now repeat split.
Qed.

Lemma split_slash_no_slash s :
  forall cur, no_char 47 cur = true ->
  Forall (fun seg => no_char 47 seg = true) (Path.split_slash cur s).
Proof.
  induction s as [|c s IH]; intros cur C.
  - now repeat constructor.
  - cbn [Path.split_slash]. unfold Path.is_slash.
    destruct (N.eqb_spec (code c) 47) as [E|N].
    + constructor; [exact C | now apply IH].
    + apply IH. rewrite no_char_app, C, no_char_cons.
      now destruct (N.eqb_spec (code c) 47).
Qed.

Lemma join_snoc l seg :
  Str.join "/" (l ++ [seg])
  = match l with
    | [] => seg
    | _ => Str.join "/" l +:+ "/" +:+ seg
    end.
Proof.
  induction l as [|x l IH]; [reflexivity|].
  destruct l as [|y l]; [reflexivity|].
  change (Str.join "/" ((x :: y :: l) ++ [seg]))
    with (x +:+ "/" +:+ Str.join "/" ((y :: l) ++ [seg])).
  rewrite IH.
  change (Str.join "/" (x :: y :: l)) with (x +:+ "/" +:+ Str.join "/" (y :: l)).
  now rewrite !append_assoc.
Qed.

Lemma append_nonempty_r a b : b <> EmptyString -> a +:+ b <> EmptyString.
Proof. destruct a, b; intros N E; try discriminate E; now apply N. Qed.

Lemma join_snoc_nonempty l seg : seg <> EmptyString -> Str.join "/" (l ++ [seg]) <> EmptyString.
Proof.
  intros N. rewrite join_snoc. destruct l; [exact N|].
  rewrite <- append_assoc. now apply append_nonempty_r.
Qed.

Lemma no_char_rev n s : no_char n (rev_string s) = no_char n s.
Proof.
  induction s as [|c s IH]; [reflexivity|].
  cbn [rev_string]. rewrite no_char_app, IH, !no_char_cons.
  cbn. now rewrite andb_true_r, andb_comm.
Qed.

(** A path that ends in a segment without a slash does not end in a slash. *)
Lemma endsWith_slash_segment d seg :
  seg <> EmptyString -> no_char 47 seg = true -> endsWith (d +:+ "/" +:+ seg) "/" = false.
Proof.
  intros N S. unfold endsWith. rewrite !rev_string_append.
  rewrite <- (no_char_rev 47 seg) in S.
  replace (rev_string "/") with "/" by reflexivity.
  destruct (rev_string seg) as [|c r] eqn:R.
  - exfalso. apply N. rewrite <- (rev_string_involutive seg), R. reflexivity.
  - rewrite no_char_cons, andb_true_iff in S. destruct S as [C _].
    apply negb_true_iff in C.
    rewrite !append_cons. cbn [startsWith].
    destruct (Ascii.eqb_spec c "/") as [->|]; [discriminate C | reflexivity].
Qed.

(** Normalizing [d/seg] for a normal segment [seg]. *)
Lemma normalize_join d seg :
  d <> EmptyString -> normal_segment seg = true ->
  Path.normalize (d +:+ "/" +:+ seg)
  = root (first_is_slash d)
    +:+ Str.join "/" (Path.resolve (negb (first_is_slash d)) [] (Path.split_slash EmptyString d)
                      ++ [seg]).
Proof.
  intros D N. pose proof N as N'. apply normal_segment_spec in N' as (N1 & _ & _ & N4).
  destruct d as [|c d]; [contradiction|].
  rewrite append_cons. unfold Path.normalize. rewrite <- append_cons.
  rewrite (endsWith_slash_segment _ _ N1 N4).
  rewrite split_slash_app, (split_slash_plain _ _ N4), append_empty_l.
  rewrite (resolve_push _ _ _ N).
  cbn [first_is_slash]. unfold root.
  match goal with |- context [Str.join "/" ?l] =>
    pose proof (join_snoc_nonempty
                  (Path.resolve (negb (Path.is_slash c)) []
                     (Path.split_slash EmptyString (String c d))) seg N1) as J;
    destruct (Str.join "/" l) eqn:B
  end; [contradiction|].
  now rewrite append_empty_r.
Qed.

Lemma join_paths_two d seg :
  d <> EmptyString -> seg <> EmptyString ->
  Path.join_paths [d; seg] = Path.normalize (d +:+ "/" +:+ seg).
Proof.
  intros D S. unfold Path.join_paths. cbn [List.filter].
  destruct (String.eqb_spec d EmptyString); [contradiction|].
  destruct (String.eqb_spec seg EmptyString); [contradiction|].
  reflexivity.
Qed.

Lemma stack_ok_nil b : stack_ok b [].
Proof. exists O, []. repeat split; [constructor | congruence]. Qed.

Lemma stack_ok_segments b stack :
  stack_ok b stack ->
  Forall (fun seg => seg <> EmptyString /\ no_char 47 seg = true) stack.
Proof.
  intros (k & normals & -> & F & _). apply Forall_app. split.
  - eapply Forall_impl; [exact F|]. intros seg N.
    apply normal_segment_spec in N. tauto.
  - clear. induction k; constructor; [split; [discriminate | reflexivity] | assumption].
Qed.

Lemma split_join l :
  l <> [] -> Forall (fun seg => no_char 47 seg = true) l ->
  Path.split_slash EmptyString (Str.join "/" l) = l.
Proof.
  intros N F. induction F as [|x l X F IH]; [contradiction|].
  destruct l as [|y l].
  - cbn [Str.join]. now rewrite (split_slash_plain _ _ X).
  - change (Str.join "/" (x :: y :: l)) with (x +:+ "/" +:+ Str.join "/" (y :: l)).
    rewrite split_slash_app, (split_slash_plain _ _ X), IH by discriminate.
    reflexivity.
Qed.

Lemma first_is_slash_join x l :
  x <> EmptyString -> no_char 47 x = true -> first_is_slash (Str.join "/" (x :: l)) = false.
Proof.
  intros N S. destruct x as [|c x]; [contradiction|].
  rewrite no_char_cons, andb_true_iff in S. destruct S as [C _].
  apply negb_true_iff in C.
  destruct l; cbn [Str.join]; rewrite ?append_cons; exact C.
Qed.

Lemma endsWith_slash_plain seg :
  seg <> EmptyString -> no_char 47 seg = true -> endsWith seg "/" = false.
Proof.
  intros N S. unfold endsWith.
  rewrite <- (no_char_rev 47 seg) in S.
  replace (rev_string "/") with "/" by reflexivity.
  destruct (rev_string seg) as [|c r] eqn:R.
  - exfalso. apply N. rewrite <- (rev_string_involutive seg), R. reflexivity.
  - rewrite no_char_cons, andb_true_iff in S. destruct S as [C _].
    apply negb_true_iff in C. cbn [startsWith].
    destruct (Ascii.eqb_spec c "/") as [->|]; [discriminate C | reflexivity].
Qed.

Lemma split_slash_root s :
  Path.split_slash EmptyString (String "/" s) = EmptyString :: Path.split_slash EmptyString s.
Proof. reflexivity. Qed.

Lemma resolve_skip_empty b stack segs :
  Path.resolve b stack (EmptyString :: segs) = Path.resolve b stack segs.
Proof. reflexivity. Qed.

(** What [path.join] does with a normalized directory and a normal segment:
    it appends the segment. *)
Lemma normalized_extend p seg :
  normalized p -> normal_segment seg = true ->
  Path.join_paths [p; seg] = p +:+ "/" +:+ seg /\ normalized (p +:+ "/" +:+ seg).
Proof.
  intros (isAbsolute & stack & -> & NE & OK) N.
  pose proof N as N'. apply normal_segment_spec in N' as (N1 & _ & _ & _).
  pose proof (stack_ok_segments _ _ OK) as Segs. apply Forall_rev in Segs.
  assert (RNE : rev stack <> []).
  { intros E. apply NE. rewrite <- (rev_involutive stack), E. reflexivity. }
  destruct (rev stack) as [|x l] eqn:R; [contradiction|].
  inversion Segs as [|? ? [Seg1 Seg2] Segs']; subst.
  set (p := root isAbsolute +:+ Str.join "/" (x :: l)).
  assert (J : Str.join "/" (x :: l) <> EmptyString).
  { destruct x; [contradiction|]. destruct l; cbn [Str.join]; [discriminate|].
    rewrite append_cons. discriminate. }
  assert (P : p <> EmptyString) by (apply append_nonempty_r; exact J).
  assert (A : first_is_slash p = isAbsolute).
  { unfold p, root. destruct isAbsolute; [reflexivity|].
    rewrite append_empty_l. now apply first_is_slash_join. }
  assert (S : Path.resolve (negb isAbsolute) [] (Path.split_slash EmptyString p) = x :: l).
  { assert (SF : Forall (fun seg => no_char 47 seg = true) (x :: l)).
    { constructor; [exact Seg2|]. eapply Forall_impl; [exact Segs'|]. now intros ? [_ ?]. }
    assert (Sp : Path.split_slash EmptyString (Str.join "/" (x :: l)) = x :: l)
      by (apply split_join; [discriminate | exact SF]).
    unfold p, root. destruct isAbsolute.
    - change ("/" +:+ Str.join "/" (x :: l)) with (String "/" (Str.join "/" (x :: l))).
      rewrite split_slash_root, Sp, resolve_skip_empty, <- R. now apply resolve_fixed.
    - rewrite append_empty_l, Sp, <- R. now apply resolve_fixed. }
  assert (E : Path.join_paths [p; seg] = p +:+ "/" +:+ seg).
  { rewrite (join_paths_two _ _ P N1), (normalize_join _ _ P N), A, S.
    rewrite join_snoc. unfold p. now rewrite !append_assoc. }
  split; [exact E|].
  exists isAbsolute, (seg :: stack). split; [|split].
  - cbn [rev]. rewrite R, join_snoc. unfold p. now rewrite !append_assoc.
  - discriminate.
  - now apply stack_ok_push.
Qed.

Lemma normalize_segment seg : normal_segment seg = true -> Path.normalize seg = seg.
Proof.
  intros N. pose proof N as N'. apply normal_segment_spec in N' as (N1 & _ & _ & N4).
  destruct seg as [|c r] eqn:E; [contradiction|]. rewrite <- E in *.
  unfold Path.normalize. rewrite E at 1.
  assert (T : endsWith seg "/" = false) by (apply endsWith_slash_plain; assumption).
  rewrite T, (split_slash_plain _ _ N4), append_empty_l.
  rewrite (resolve_normals _ [] [seg]) by (now repeat constructor).
  cbn [rev app Str.join].
  assert (A : Path.is_slash c = false).
  { rewrite E, no_char_cons, andb_true_iff in N4. destruct N4 as [C _].
    now apply negb_true_iff in C. }
  rewrite A. rewrite E at 1. now rewrite append_empty_l, append_empty_r.
Qed.

(** [path.join(d, seg)] is a normalized path that ends in [/seg], or [seg]
    itself, for every directory [d]. *)
Lemma join_paths_normalized d seg :
  normal_segment seg = true -> normalized (Path.join_paths [d; seg]).
Proof.
  intros N. pose proof N as N'. apply normal_segment_spec in N' as (N1 & _ & _ & N4).
  destruct (String.eqb_spec d EmptyString) as [->|D].
  - unfold Path.join_paths. cbn [List.filter]. change (String.eqb EmptyString EmptyString) with true.
    cbn [negb]. destruct (String.eqb_spec seg EmptyString); [contradiction|]. cbn [negb].
    cbn [Str.join]. rewrite (normalize_segment _ N).
    exists false, [seg]. split; [reflexivity|]. split; [discriminate|].
    apply stack_ok_push; [apply stack_ok_nil | exact N].
  - rewrite (join_paths_two _ _ D N1), (normalize_join _ _ D N).
    destruct (resolve_stack_ok (negb (first_is_slash d)) (Path.split_slash EmptyString d)
                (split_slash_no_slash d EmptyString eq_refl) [] (stack_ok_nil _))
      as (stack & -> & OK).
    exists (first_is_slash d), (seg :: stack). split; [reflexivity|].
    split; [discriminate | now apply stack_ok_push].
Qed.

End Paths.

(** *** Where the upload is staged *)

Lemma all_chars_impl (P Q : ascii -> bool) s :
  (forall c, P c = true -> Q c = true) -> all_chars P s = true -> all_chars Q s = true.
Proof.
  intros H. induction s as [|c s IH]; [reflexivity|].
  cbn [all_chars]. rewrite !andb_true_iff. intros [C S]. split; [now apply H | now apply IH].
Qed.

Lemma no_slash_safe_name name : no_char 47 (UploadRoute.safe_name name) = true.
Proof.
  unfold no_char. apply (all_chars_impl in_safe_class); [|apply safe_name_chars].
  intros c. unfold in_safe_class, UploadRoute.is_safe_char. cbv zeta.
  rewrite negb_true_iff, !orb_true_iff, !andb_true_iff, !N.leb_le, !N.eqb_eq, N.eqb_neq. lia.
Qed.

Lemma no_slash_uint d : no_char 47 (NilEmpty.string_of_uint d) = true.
Proof. induction d; cbn [NilEmpty.string_of_uint]; try reflexivity; now rewrite no_char_cons, IHd. Qed.

Lemma no_slash_string_of_Z z : no_char 47 (string_of_Z z) = true.
Proof.
  unfold string_of_Z, NilZero.string_of_int, NilZero.string_of_uint.
  destruct (Z.to_int z) as [d|d]; destruct d; try reflexivity;
    rewrite ?no_char_cons; cbn [negb andb]; try apply (no_slash_uint (Decimal.D0 d));
    try apply (no_slash_uint (Decimal.D1 d)); try apply (no_slash_uint (Decimal.D2 d));
    try apply (no_slash_uint (Decimal.D3 d)); try apply (no_slash_uint (Decimal.D4 d));
    try apply (no_slash_uint (Decimal.D5 d)); try apply (no_slash_uint (Decimal.D6 d));
    try apply (no_slash_uint (Decimal.D7 d)); try apply (no_slash_uint (Decimal.D8 d));
    try apply (no_slash_uint (Decimal.D9 d)).
Qed.

(** A name with an underscore in it and no slash is a normal segment. *)
Lemma normal_with_underscore a b :
  no_char 47 a = true -> no_char 47 b = true -> normal_segment (a +:+ "_" +:+ b) = true.
Proof.
  intros A B.
  assert (I : includes (a +:+ "_" +:+ b) "_" = true) by apply includes_skip, includes_prefix.
  apply normal_segment_spec. repeat split.
  - intros E. rewrite E in I. discriminate I.
  - intros E. rewrite E in I. discriminate I.
  - intros E. rewrite E in I. discriminate I.
  - now rewrite !no_char_app, A, B.
Qed.

Lemma normal_staged_name w name : normal_segment (staged_name w name) = true.
Proof.
  apply normal_with_underscore; [apply no_slash_string_of_Z | apply no_slash_safe_name].
Qed.

Lemma tempDir_normalized w : normalized (UploadRoute.tempDir w).
Proof. apply join_paths_normalized. reflexivity. Qed.

(** X2.  Whatever name the client gives the file, the upload is staged
    directly inside the temp directory: the path assigned to [tempFilePath]
    is the temp directory, a slash, and a single segment made of the
    millisecond clock, an underscore and the sanitised name, which has no
    slash in it. *)
Theorem X2_staged_inside_temp_dir w name buffer s path s' :
  UploadRoute.save_temporarily w name buffer s = (Returns path, s') ->
  path = UploadRoute.tempDir w +:+ "/" +:+ staged_name w name
  /\ no_char 47 (staged_name w name) = true
  /\ tempFilePath s' = Some path
  /\ files s' !! path = Some {| bytes := buffer; mtime := Date_iso w |}.
Proof.
  destruct (normalized_extend _ _ (tempDir_normalized w) (normal_staged_name w name))
    as [E _].
  unfold UploadRoute.save_temporarily, bind, set_tempFilePath, fs.writeFileSync.
  cbv zeta. fold (staged_name w name). rewrite E. simpl.
  destruct (fs_fault w _); [discriminate|].
  destruct (bool_decide _); [discriminate|].
  intros [= <- <-]. split; [reflexivity|]. split.
  - pose proof (normal_staged_name w name) as N.
    apply normal_segment_spec in N. tauto.
  - split; [reflexivity|]. simpl. apply lookup_insert_eq.
Qed.

(** X2 at a file name that tries to climb out of the temp directory. *)
Lemma X2_staged_inside_temp_dir_witness :
  exists s',
    UploadRoute.save_temporarily quiet_world "../../etc/passwd" "root" empty_state
      = (Returns "/app/temp/1700000000000_.._.._etc_passwd", s')
    /\ "/app/temp/1700000000000_.._.._etc_passwd"
       = UploadRoute.tempDir quiet_world +:+ "/" +:+ staged_name quiet_world "../../etc/passwd".
Proof.
  eexists. 
  assert (P : UploadRoute.save_temporarily quiet_world "../../etc/passwd" "root" empty_state
              = (Returns "/app/temp/1700000000000_.._.._etc_passwd", _))
    by (vm_compute; reflexivity).
  split; [exact P|].
  exact (proj1 (X2_staged_inside_temp_dir quiet_world "../../etc/passwd" "root" empty_state
                  _ _ P)).
Defined.

(** *** The stored instruction text *)

Lemma append_cancel_l a b c : a +:+ b = a +:+ c -> b = c.
Proof.
  induction a as [|x a IH]; [exact id|].
  rewrite !append_cons. intros [= E]. now apply IH.
Qed.

Lemma normal_instruction_file w ext :
  no_char 47 ext = true ->
  normal_segment (InstructionsRoute.instructionId w +:+ ext) = true.
Proof.
  intros E.
  change (InstructionsRoute.instructionId w +:+ ext)
    with ("instruction" +:+ "_" +:+ (string_of_Z (Date_now w) +:+ ext)).
  apply normal_with_underscore; [reflexivity|].
  now rewrite no_char_app, no_slash_string_of_Z.
Qed.

Lemma instructionsDir_normalized w : normalized (InstructionsRouteOnDisk.instructionsDir w).
Proof. apply join_paths_normalized. reflexivity. Qed.

Lemma on_disk_paths_differ w :
  Path.join_paths [InstructionsRouteOnDisk.instructionsDir w;
                   InstructionsRoute.instructionId w +:+ ".meta.json"]
  <> Path.join_paths [InstructionsRouteOnDisk.instructionsDir w;
                      InstructionsRoute.instructionId w +:+ ".txt"].
Proof.
  destruct (normalized_extend _ _ (instructionsDir_normalized w)
              (normal_instruction_file w ".meta.json" eq_refl)) as [-> _].
  destruct (normalized_extend _ _ (instructionsDir_normalized w)
              (normal_instruction_file w ".txt" eq_refl)) as [-> _].
  intros E. do 3 apply append_cancel_l in E. discriminate E.
Qed.

(** X26.  The on-disk revision keeps the text of an instruction in
    [<id>.txt].  For a file with a text extension, whatever bytes were
    uploaded (valid UTF-8 or not), reading that file back as UTF-8, as the
    listing and the AI sub-actions do, gives exactly the [content] the upload
    reported: decoding a second time changes nothing. *)
Theorem X26_stored_text_reads_back w w' form name data s r s' :
  formData_get form "instruction" = Some (Upload name data) ->
  InstructionsRoute.isTextFile name = true ->
  InstructionsRouteOnDisk.POST w (Returns form) s = (Returns r, s') ->
  status r = 200 ->
  let localPath :=
    Path.join_paths [InstructionsRouteOnDisk.instructionsDir w;
                     InstructionsRoute.instructionId w +:+ ".txt"] in
  fs_fault w' (read localPath) = None ->
  exists content,
    get_prop (body r) "content" = Some (JStr content)
    /\ fs.readFileSync w' localPath s' = (Returns content, s').
Proof.
  intros F T P S localPath R.
  exists (Utf8.Buffer_toString data).
  revert P. unfold InstructionsRouteOnDisk.POST. unfold try_catch at 1.
  rewrite (bind_returns (await (Returns form)) _ _ form _ eq_refl).
  cbv zeta. rewrite F.
  change (negb (entry_truthy (Some (Upload name data)))) with false. cbv iota.
  rewrite (bind_returns (as_file (Some (Upload name data))) _ _ (name, data) _ eq_refl).
  unfold InstructionsRoute.instruction_content. rewrite T.
  fold localPath.
  set (metadataPath := Path.join_paths [_; _ +:+ ".meta.json"]).
  assert (D : metadataPath <> localPath) by apply on_disk_paths_differ.
  unfold bind at 1. unfold fs.writeFileSync at 1.
  destruct (fs_fault w (write localPath));
    [intros [= <- <-]; discriminate S|].
  destruct (bool_decide (localPath ∈ dirs s));
    [intros [= <- <-]; discriminate S|].
  set (s1 := with_files _ s).
  unfold bind at 1.
  match goal with |- context [try_catch ?m (fun _ => ret ?v)] =>
    assert (Q : read_only (try_catch m (fun _ => ret v))) by ro;
    destruct (try_catch_ret m (fun _ => v) s1) as (driveFile & s2 & E)
  end.
  pose proof (returns_read_only _ _ _ _ Q E) as ->.
  rewrite E. clear Q E.
  unfold bind at 1. unfold InstructionsRoute.write_json.
  match goal with |- context [JSON_stringify (JObj ?props)] =>
    destruct (stringify_object EmptyString props) as [text X];
    unfold JSON_stringify; rewrite X end.
  unfold fs.writeFileSync.
  destruct (fs_fault w (write metadataPath));
    [intros [= <- <-]; discriminate S|].
  destruct (bool_decide (metadataPath ∈ dirs s1));
    [intros [= <- <-]; discriminate S|].
  intros [= <- <-]. split; [reflexivity|].
  unfold fs.readFileSync. rewrite R. cbn [files with_files].
  rewrite lookup_insert_ne by exact D.
  subst s1. cbn [files with_files]. rewrite lookup_insert_eq. cbn [bytes].
  rewrite Buffer_toString_well_formed by apply Buffer_toString_is_well_formed.
  reflexivity.
Qed.

(** X26 at an upload that is not valid UTF-8. *)
Lemma X26_stored_text_reads_back_witness :
  exists r s' content,
    InstructionsRouteOnDisk.POST quiet_world (Returns latin1_note) empty_state = (Returns r, s')
    /\ get_prop (body r) "content" = Some (JStr content)
    /\ fs.readFileSync quiet_world "/app/instructions/instruction_1700000000000.txt" s'
       = (Returns content, s').
Proof.
  set (run := InstructionsRouteOnDisk.POST quiet_world (Returns latin1_note) empty_state).
  assert (P : run = (Returns (answer_of run), snd run)) by (vm_compute; reflexivity).
  destruct (X26_stored_text_reads_back quiet_world quiet_world latin1_note "note.txt" _
              empty_state _ _ eq_refl eq_refl P ltac:(vm_compute; reflexivity)
              ltac:(vm_compute; reflexivity)) as (content & A & B).
  exists (answer_of run), (snd run), content. split; [exact P|]. split; [exact A|].
  exact B.
Defined.
